(** * A store server: orders, catalog and authentication (src/index.ts)

    A shallow embedding of the resolvers of [src/index.ts] and of the
    [context] function of the server, together with the part of the
    document store (Mongoose models) and of the token library (JWT) that
    the resolvers call.

    Conventions of the embedding.
    - A JavaScript [number] is an IEEE 754 binary64 value: Rocq's primitive
      [float], with [+] the machine addition.
    - An ObjectId is its canonical string of 24 lowercase hexadecimal
      digits.  The resolvers receive id strings; every query of the store
      first casts them to ObjectIds and throws a cast error on a string it
      cannot cast.  The cast is an interface ([ObjectId.caster]): it is
      fixed on strings of 24 hexadecimal digits (either case) and on
      strings of any length but 12, which are refused, and left open on
      the other strings of length 12, which some versions of the store
      read as 12 bytes.
    - A collection is the list of its documents in natural (insertion)
      order; the store keeps the [_id]s of a collection distinct
      ([save] refuses a duplicate key).
    - An [async] resolver is a function from the database to an outcome
      (a value or a thrown exception) and the database it leaves behind.
    - A fresh [_id] (made by [new Model(...)]) and the clock ([new Date()],
      and the second at which a token is issued) are inputs of the
      resolvers that use them.
    - The token library is an interface ([JWT.lib]) with the two calls the
      server makes. *)

From Stdlib Require Import List Ascii String Bool Arith NArith Lia.
From Stdlib Require Import Permutation Eqdep_dec.
From Stdlib Require Import ZArith Floats.
Import ListNotations.
Local Open Scope string_scope.
Local Open Scope list_scope.

Set Implicit Arguments.

(** ** ObjectIds *)

Module ObjectId.
Definition between (lo hi : nat) (c : ascii) : bool :=
  Nat.leb lo (nat_of_ascii c) && Nat.leb (nat_of_ascii c) hi.
Definition is_digit : ascii -> bool := between 48 57.
Definition is_lower_hex : ascii -> bool := between 97 102.
Definition is_upper_hex : ascii -> bool := between 65 70.

Definition to_lower (c : ascii) : ascii :=
  if is_upper_hex c then ascii_of_nat (nat_of_ascii c + 32) else c.

Fixpoint lowercase (s : string) : string :=
  match s with
  | EmptyString => EmptyString
  | String c s' => String (to_lower c) (lowercase s')
  end.

Fixpoint all_lower_hex (s : string) : bool :=
  match s with
  | EmptyString => true
  | String c s' => (is_digit c || is_lower_hex c) && all_lower_hex s'
  end.

(** The string form of an ObjectId: 24 digits among [0-9a-f]. *)
Definition canonical (s : string) : bool :=
  Nat.eqb (String.length s) 24 && all_lower_hex s.

(** 24 hexadecimal digits, in either case. *)
Definition is_hex24 (s : string) : bool := canonical (lowercase s).

(** An ObjectId, by its string form ([_id.toString()], the [id] getter of
    a document). *)
Record t := mk { hex : string; hex_canonical : canonical hex = true }.

(** Two ObjectIds are equal when their 12 bytes are. *)
Definition eqb (a b : t) : bool := String.eqb (hex a) (hex b).

Definition checked (s : string) (b : bool) : canonical s = b -> option t :=
  match b with
  | true => fun H => Some (mk s H)
  | false => fun _ => None
  end.

(** Reading 24 hexadecimal digits as an ObjectId; the case of the digits
    is ignored. *)
Definition parse (s : string) : option t :=
  checked (lowercase s) (eq_refl (canonical (lowercase s))).

(** The cast of an id string by the store; [None] is a cast error. *)
Class caster := {
  cast : string -> option t;
  cast_hex24 : forall s, is_hex24 s = true -> cast s = parse s;
  cast_other :
    forall s, is_hex24 s = false -> String.length s <> 12 -> cast s = None
}.

(** The cast of an array of id strings, as in [{ $in: ids }]: it fails
    when one of them does. *)
Fixpoint cast_all {c : caster} (ids : list string) : option (list t) :=
  match ids with
  | [] => Some []
  | s :: ids' =>
      match cast s, cast_all ids' with
      | Some i, Some l => Some (i :: l)
      | _, _ => None
      end
  end.

(** The cast that takes the 24 digit strings and nothing else. *)
Definition strict : caster.
Proof.
  refine {| cast := parse |}.
  - reflexivity.
  - intros s Hs _. unfold parse, is_hex24 in Hs |- *.
    assert (forall x b (H : canonical x = b), b = false -> checked x H = None)
      as Hc by (intros x [] H Hb; [discriminate | reflexivity]).
    now apply Hc.
Defined.
End ObjectId.

(** ** Documents *)

(** [UserSchema]: name, email, password. *)
Module UserSchema.
Record t := mk {
  id : ObjectId.t;
  name : string;
  email : string;
  password : string
}.
End UserSchema.

(** [ProductSchema]: name, description, price, image.  No path is
    required: each can be absent ([null] or undefined, which the
    resolvers do not tell apart). *)
Module ProductSchema.
Record t := mk {
  id : ObjectId.t;
  name : option string;
  description : option string;
  price : option float;
  image : option string
}.
End ProductSchema.

(** [OrderSchema]: the user and the products are references. *)
Module OrderSchema.
Record t := mk {
  id : ObjectId.t;
  user : ObjectId.t;
  products : list ObjectId.t;
  status : string;
  totalPrice : float;
  createdAt : string
}.

(** The [enum] and the [default] of the [status] path. *)
Definition status_enum : list string :=
  ["placed"; "processing"; "shipped"; "delivered"].
Definition status_default : string := "placed".

(** The update document [{ status }] applied to a stored order. *)
Definition set_status (s : string) (o : t) : t :=
  mk (id o) (user o) (products o) s (totalPrice o) (createdAt o).
End OrderSchema.

(** An order after [populate("user products")]: the references replaced
    by the documents they resolve to.  A user that no longer exists is
    [null]; products that no longer exist are dropped from the array. *)
Module Populated.
Record t := mk {
  id : ObjectId.t;
  user : option UserSchema.t;
  products : list ProductSchema.t;
  status : string;
  totalPrice : float;
  createdAt : string
}.
End Populated.

(** ** The database and the effects of a resolver *)

(** The three collections. *)
Module Db.
Record t := mk {
  users : list UserSchema.t;
  products : list ProductSchema.t;
  orders : list OrderSchema.t
}.
End Db.

(** What a resolver throws: [new Error(message)]; the cast error of a
    query given a value it cannot cast (an id string that is no ObjectId,
    a number that is NaN); the validation error of [save()], with the
    paths it refuses in the order of the schema; the duplicate key error
    of an insert. *)
Inductive Exception :=
| Error (message : string)
| CastError
| ValidationError (paths : list string)
| DuplicateKey (key : ObjectId.t).

Inductive Outcome (A : Type) :=
| Return (a : A)
| Throw (e : Exception).
Arguments Return {A} a.
Arguments Throw {A} e.

Definition Async (A : Type) : Type := Db.t -> Outcome A * Db.t.

Definition ret {A} (a : A) : Async A := fun db => (Return a, db).
Definition throw {A} (e : Exception) : Async A := fun db => (Throw e, db).
Definition bind {A B} (m : Async A) (k : A -> Async B) : Async B :=
  fun db =>
    match m db with
    | (Return a, db') => k a db'
    | (Throw e, db') => (Throw e, db')
    end.
Definition read {A} (f : Db.t -> A) : Async A := fun db => (Return (f db), db).
(** [try { m } catch (err) { h }] *)
Definition try_catch {A} (m : Async A) (h : Exception -> Async A) : Async A :=
  fun db =>
    match m db with
    | (Return a, db') => (Return a, db')
    | (Throw e, db') => h e db'
    end.
(** A synchronous computation that may throw, run inside a resolver. *)
Definition lift {A} (o : Outcome A) : Async A := fun db => (o, db).

Notation "x <- m ;; k" := (bind m (fun x => k))
  (at level 61, m at next level, right associativity).
Notation "m ;;; k" := (bind m (fun _ => k))
  (at level 61, right associativity).

(** ** Collections *)

Section Collection.
Variable doc : Type.
Variable _id : doc -> ObjectId.t.

Definition has_id (i : ObjectId.t) (d : doc) : bool := ObjectId.eqb (_id d) i.

(** [findById], once the id is cast: the document with that [_id], or
    [null]. *)
Definition find_by_id (i : ObjectId.t) (c : list doc) : option doc :=
  find (has_id i) c.

(** [find({ _id: { $in: ids } })], once the ids are cast: the documents
    whose [_id] occurs in [ids], each once, in the order of the
    collection. *)
Definition find_in (ids : list ObjectId.t) (c : list doc) : list doc :=
  filter (fun d => existsb (ObjectId.eqb (_id d)) ids) c.

(** [findByIdAndUpdate(i, u, { new: true })]: the first document with
    that [_id] is replaced by its update. *)
Fixpoint update_by_id (i : ObjectId.t) (u : doc -> doc) (c : list doc)
  : list doc :=
  match c with
  | [] => []
  | d :: c' => if has_id i d then u d :: c' else d :: update_by_id i u c'
  end.

(** [findByIdAndDelete(i)]: the first document with that [_id] is
    removed. *)
Fixpoint delete_by_id (i : ObjectId.t) (c : list doc) : list doc :=
  match c with
  | [] => []
  | d :: c' => if has_id i d then c' else d :: delete_by_id i c'
  end.

(** A reference resolves when the collection holds a document with that
    [_id]. *)
Definition resolves (i : ObjectId.t) (c : list doc) : Prop :=
  exists d, In d c /\ _id d = i.

(** The store keeps [_id] a key. *)
Definition unique_ids (c : list doc) : Prop := NoDup (map _id c).
End Collection.

(** A value of an update document or of an input with optional fields. *)
Inductive Field (A : Type) :=
| undefined
| null
| value (a : A).
Arguments undefined {A}.
Arguments null {A}.
Arguments value {A} a.

(** Writing a field: an undefined key is not written, [null] clears the
    path. *)
Definition write_field {A} (f : Field A) (old : option A) : option A :=
  match f with
  | undefined => old
  | null => None
  | value a => Some a
  end.

(** ** The models *)

(** [findOne({ email })]: the first user with that email, or [null]. *)
Definition first_with_email (email : string) (c : list UserSchema.t)
  : option UserSchema.t :=
  find (fun u => String.eqb (UserSchema.email u) email) c.

Module User.
Section Queries.
Context {caster : ObjectId.caster}.

Definition findById (id : string) : Async (option UserSchema.t) :=
  match ObjectId.cast id with
  | None => throw CastError
  | Some i => read (fun db => find_by_id UserSchema.id i (Db.users db))
  end.
End Queries.

Definition findOne (email : string) : Async (option UserSchema.t) :=
  read (fun db => first_with_email email (Db.users db)).

Definition save (u : UserSchema.t) : Async unit :=
  fun db =>
    if existsb (has_id UserSchema.id (UserSchema.id u)) (Db.users db)
    then (Throw (DuplicateKey (UserSchema.id u)), db)
    else (Return tt,
          Db.mk (Db.users db ++ [u]) (Db.products db) (Db.orders db)).
End User.

Module Product.
(** An update document [{ name, description, price, image }]. *)
Record update := mkUpdate {
  name : Field string;
  description : Field string;
  price : Field float;
  image : Field string
}.

(** The cast of an update document: a number path refuses NaN. *)
Definition update_casts (u : update) : bool :=
  match price u with
  | value x => negb (is_nan x)
  | _ => true
  end.

Definition apply_update (u : update) (p : ProductSchema.t) : ProductSchema.t :=
  ProductSchema.mk (ProductSchema.id p)
    (write_field (name u) (ProductSchema.name p))
    (write_field (description u) (ProductSchema.description p))
    (write_field (price u) (ProductSchema.price p))
    (write_field (image u) (ProductSchema.image p)).

Definition find : Async (list ProductSchema.t) := read Db.products.

(** [save()] validates the document (a number path refuses NaN) and
    inserts it. *)
Definition save (p : ProductSchema.t) : Async unit :=
  fun db =>
    if match ProductSchema.price p with
       | Some x => is_nan x
       | None => false
       end
    then (Throw (ValidationError ["price"]), db)
    else if existsb (has_id ProductSchema.id (ProductSchema.id p))
                    (Db.products db)
    then (Throw (DuplicateKey (ProductSchema.id p)), db)
    else (Return tt,
          Db.mk (Db.users db) (Db.products db ++ [p]) (Db.orders db)).

Section Queries.
Context {caster : ObjectId.caster}.

Definition findById (id : string) : Async (option ProductSchema.t) :=
  match ObjectId.cast id with
  | None => throw CastError
  | Some i => read (fun db => find_by_id ProductSchema.id i (Db.products db))
  end.

(** [find({ _id: { $in: ids } })] *)
Definition find_id_in (ids : list string) : Async (list ProductSchema.t) :=
  match ObjectId.cast_all ids with
  | None => throw CastError
  | Some l => read (fun db => find_in ProductSchema.id l (Db.products db))
  end.

(** [findByIdAndUpdate(id, u, { new: true })]: the id and the update
    document are cast, then the document is rewritten; update validators
    are off. *)
Definition findByIdAndUpdate (id : string) (u : update)
  : Async (option ProductSchema.t) :=
  match ObjectId.cast id with
  | None => throw CastError
  | Some i =>
      if negb (update_casts u) then throw CastError
      else
        fun db =>
          match find_by_id ProductSchema.id i (Db.products db) with
          | Some p =>
              (Return (Some (apply_update u p)),
               Db.mk (Db.users db)
                     (update_by_id ProductSchema.id i (apply_update u)
                                   (Db.products db))
                     (Db.orders db))
          | None => (Return None, db)
          end
  end.

Definition findByIdAndDelete (id : string) : Async (option ProductSchema.t) :=
  match ObjectId.cast id with
  | None => throw CastError
  | Some i =>
      fun db =>
        match find_by_id ProductSchema.id i (Db.products db) with
        | Some p =>
            (Return (Some p),
             Db.mk (Db.users db)
                   (delete_by_id ProductSchema.id i (Db.products db))
                   (Db.orders db))
        | None => (Return None, db)
        end
  end.
End Queries.
End Product.

Module Order.
(** A document made by [new Order({ ... })] and not saved yet.  The
    constructor casts each value to the type of its path; a value it
    cannot cast leaves the path unset and is reported by [save()]. *)
Record draft := mkDraft {
  _id : ObjectId.t;
  user : option ObjectId.t;
  products : option (list ObjectId.t);
  status : string;
  totalPrice : float;
  createdAt : string
}.

(** The paths [save()] refuses, in the order of the schema. *)
Definition invalid_paths (d : draft) : list string :=
  (match user d with None => ["user"] | Some _ => [] end) ++
  (match products d with None => ["products"] | Some _ => [] end) ++
  (if existsb (String.eqb (status d)) OrderSchema.status_enum
   then [] else ["status"]) ++
  (if is_nan (totalPrice d) then ["totalPrice"] else []).

Definition find : Async (list OrderSchema.t) := read Db.orders.

(** [save()] validates the document and inserts it. *)
Definition save (d : draft) : Async OrderSchema.t :=
  fun db =>
    match user d, products d, invalid_paths d with
    | Some u, Some ps, [] =>
        if existsb (has_id OrderSchema.id (_id d)) (Db.orders db)
        then (Throw (DuplicateKey (_id d)), db)
        else
          let o :=
            OrderSchema.mk (_id d) u ps (status d) (totalPrice d)
                           (createdAt d) in
          (Return o,
           Db.mk (Db.users db) (Db.products db) (Db.orders db ++ [o]))
    | _, _, paths => (Throw (ValidationError paths), db)
    end.

(** [populate("user products")] against a database. *)
Definition populated (db : Db.t) (o : OrderSchema.t) : Populated.t :=
  Populated.mk (OrderSchema.id o)
    (find_by_id UserSchema.id (OrderSchema.user o) (Db.users db))
    (flat_map
       (fun i =>
          match find_by_id ProductSchema.id i (Db.products db) with
          | Some p => [p]
          | None => []
          end)
       (OrderSchema.products o))
    (OrderSchema.status o) (OrderSchema.totalPrice o)
    (OrderSchema.createdAt o).

Definition populate (o : OrderSchema.t) : Async Populated.t :=
  read (fun db => populated db o).

Definition populate_all (os : list OrderSchema.t) : Async (list Populated.t) :=
  read (fun db => map (populated db) os).

Section Queries.
Context {caster : ObjectId.caster}.

(** [new Order({ user, products, status, totalPrice, createdAt })]: an
    undefined [status] takes the default of the schema. *)
Definition new (_id : ObjectId.t) (user : string) (products : list string)
    (status : option string) (totalPrice : float) (createdAt : string)
  : draft :=
  mkDraft _id (ObjectId.cast user) (ObjectId.cast_all products)
    (match status with
     | Some s => s
     | None => OrderSchema.status_default
     end)
    totalPrice createdAt.

Definition findById (id : string) : Async (option OrderSchema.t) :=
  match ObjectId.cast id with
  | None => throw CastError
  | Some i => read (fun db => find_by_id OrderSchema.id i (Db.orders db))
  end.

(** [find({ user: userId })] *)
Definition find_user (userId : string) : Async (list OrderSchema.t) :=
  match ObjectId.cast userId with
  | None => throw CastError
  | Some u =>
      read (fun db =>
              filter (fun o => ObjectId.eqb (OrderSchema.user o) u)
                     (Db.orders db))
  end.

(** [findByIdAndUpdate(id, u, { new: true })]: update validators are off
    by default, the update is written as it is. *)
Definition findByIdAndUpdate (id : string)
    (u : OrderSchema.t -> OrderSchema.t)
  : Async (option OrderSchema.t) :=
  match ObjectId.cast id with
  | None => throw CastError
  | Some i =>
      fun db =>
        match find_by_id OrderSchema.id i (Db.orders db) with
        | Some o =>
            (Return (Some (u o)),
             Db.mk (Db.users db) (Db.products db)
                   (update_by_id OrderSchema.id i u (Db.orders db)))
        | None => (Return None, db)
        end
  end.

Definition findByIdAndDelete (id : string) : Async (option OrderSchema.t) :=
  match ObjectId.cast id with
  | None => throw CastError
  | Some i =>
      fun db =>
        match find_by_id OrderSchema.id i (Db.orders db) with
        | Some o =>
            (Return (Some o),
             Db.mk (Db.users db) (Db.products db)
                   (delete_by_id OrderSchema.id i (Db.orders db)))
        | None => (Return None, db)
        end
  end.
End Queries.
End Order.

(** ** The token library *)

Module JWT.
(** The payload of a token of the server: the [userId] the server put
    (the string of the user's [_id]; a token signed elsewhere with the
    same secret may carry none, or any string) and [iat], the second at
    which the token was issued, which [sign] adds. *)
Record payload := mk { userId : option string; iat : option N }.

(** [sign(payload, secret)], at a second of the clock, and
    [verify(token, secret)], which throws on a token it does not accept
    ([None] here).  [verify] gives back what [sign] signed with the same
    secret (a secret that is not empty), with the time of issue, and
    refuses the empty token. *)
Class lib := {
  sign : payload -> string -> N -> string;
  verify : string -> string -> option payload;
  verify_sign :
    forall u k t,
      k <> "" -> verify (sign (mk u None) k t) k = Some (mk u (Some t));
  verify_empty : forall k, verify "" k = None
}.
End JWT.

Definition JWT_SECRET : string := "secret".

(** ** Inputs and results of the resolvers *)

Module ProductInput.
Record t := mk {
  name : string;
  description : string;
  price : float;
  image : string
}.
End ProductInput.

Module UpdateProductInput.
Record t := mk {
  id : string;
  name : Field string;
  description : Field string;
  price : Field float;
  image : Field string
}.
End UpdateProductInput.

Module CreateOrderInput.
Record t := mk {
  userId : string;
  productIds : list string;
  status : option string
}.
End CreateOrderInput.

Module UpdateOrderStatusInput.
Record t := mk {
  id : string;
  status : string
}.
End UpdateOrderStatusInput.

Module Status.
Record t := mk { message : string }.
End Status.

Module OrderUpdated.
Record t := mk { order : Populated.t; message : string }.
End OrderUpdated.

Module SignedUp.
Record t := mk { token : string; id : string; message : string }.
End SignedUp.

Module AuthData.
Record t := mk { token : string; userId : string }.
End AuthData.

Module MyContext.
Record t := mk { user : option UserSchema.t }.
End MyContext.

(** ** JavaScript helpers *)

(** [!x] on a number: [0], [-0] and [NaN] are falsy. *)
Definition falsy (x : float) : bool := is_zero x || is_nan x.

(** [Array.prototype.reduce] with a callback that may throw. *)
Fixpoint reduce {A B} (f : B -> A -> Outcome B) (l : list A) (acc : B)
  : Outcome B :=
  match l with
  | [] => Return acc
  | x :: l' =>
      match f acc x with
      | Return acc' => reduce f l' acc'
      | Throw e => Throw e
      end
  end.

(** ** The resolvers *)

Module Query.
Section Resolvers.
Context {caster : ObjectId.caster}.

Definition products : Async (list ProductSchema.t) := Product.find.

Definition getProduct (id : string) : Async (option ProductSchema.t) :=
  Product.findById id.

Definition orders : Async (list Populated.t) :=
  os <- Order.find ;; Order.populate_all os.

Definition order (id : string) : Async (option Populated.t) :=
  o <- Order.findById id ;;
  match o with
  | Some o => p <- Order.populate o ;; ret (Some p)
  | None => ret None
  end.

Definition userOrders (userId : string) : Async (list Populated.t) :=
  os <- Order.find_user userId ;; Order.populate_all os.
End Resolvers.
End Query.

Module Mutation.
(** The callback of the [reduce] of [createOrder]. *)
Definition add_price (acc : float) (product : ProductSchema.t)
  : Outcome float :=
  match ProductSchema.price product with
  | None => Throw (Error "Product price is undefined or null")
  | Some price =>
      if falsy price
      then Throw (Error "Product price is undefined or null")
      else Return (acc + price)%float
  end.

Section Resolvers.
Context {caster : ObjectId.caster} {jwt : JWT.lib}.

Definition createProduct (_id : ObjectId.t) (input : ProductInput.t)
  : Async ProductSchema.t :=
  let product :=
    ProductSchema.mk _id (Some (ProductInput.name input))
      (Some (ProductInput.description input))
      (Some (ProductInput.price input))
      (Some (ProductInput.image input)) in
  Product.save product ;;;
  ret product.

Definition updateProduct (input : UpdateProductInput.t)
  : Async (option ProductSchema.t) :=
  Product.findByIdAndUpdate (UpdateProductInput.id input)
    (Product.mkUpdate (UpdateProductInput.name input)
       (UpdateProductInput.description input)
       (UpdateProductInput.price input)
       (UpdateProductInput.image input)).

Definition deleteProduct (id : string) : Async Status.t :=
  deleteProduct <- Product.findByIdAndDelete id ;;
  match deleteProduct with
  | None => ret (Status.mk "Product already deleted")
  | Some _ => ret (Status.mk "Product deleted")
  end.

Definition createOrder (_id : ObjectId.t) (now : string)
    (input : CreateOrderInput.t) : Async Populated.t :=
  let userId := CreateOrderInput.userId input in
  let productIds := CreateOrderInput.productIds input in
  let status := CreateOrderInput.status input in
  user <- User.findById userId ;;
  match user with
  | None => throw (Error "User not found")
  | Some _ =>
      products <- Product.find_id_in productIds ;;
      if negb (Nat.eqb (List.length products) (List.length productIds))
      then throw (Error "One or more products not found")
      else
        totalPrice <- lift (reduce add_price products 0%float) ;;
        let order := Order.new _id userId productIds status totalPrice now in
        order <- Order.save order ;;
        Order.populate order
  end.

Definition updateOrderStatus (input : UpdateOrderStatusInput.t)
  : Async OrderUpdated.t :=
  let id := UpdateOrderStatusInput.id input in
  let status := UpdateOrderStatusInput.status input in
  order <- Order.findByIdAndUpdate id (OrderSchema.set_status status) ;;
  match order with
  | None => throw (Error ("Order with id " ++ id ++ " not found")%string)
  | Some o =>
      order <- Order.populate o ;;
      ret (OrderUpdated.mk order "updated sucessfully")
  end.

Definition deleteOrder (id : string) : Async Status.t :=
  deleteOrder <- Order.findByIdAndDelete id ;;
  match deleteOrder with
  | None => ret (Status.mk "Order already deleted")
  | Some _ => ret (Status.mk "Order Deleted")
  end.

(** [iat] is the second at which the token is signed. *)
Definition signUp (_id : ObjectId.t) (iat : N) (name email password : string)
  : Async SignedUp.t :=
  existingUser <- User.findOne email ;;
  match existingUser with
  | Some _ => throw (Error "User already exists")
  | None =>
      let user := UserSchema.mk _id name email password in
      User.save user ;;;
      let token :=
        JWT.sign
          (JWT.mk (Some (ObjectId.hex (UserSchema.id user))) None)
          JWT_SECRET iat in
      ret (SignedUp.mk token (ObjectId.hex (UserSchema.id user))
                       "User Created")
  end.

Definition signIn (iat : N) (email password : string) : Async AuthData.t :=
  user <- User.findOne email ;;
  match user with
  | None => throw (Error "Invalid email or password")
  | Some user =>
      if negb (String.eqb (UserSchema.password user) password)
      then throw (Error "Invalid email or password")
      else
        let token :=
          JWT.sign
            (JWT.mk (Some (ObjectId.hex (UserSchema.id user))) None)
            JWT_SECRET iat in
        ret (AuthData.mk token (ObjectId.hex (UserSchema.id user)))
  end.

Definition signOut : Async bool := ret true.
End Resolvers.
End Mutation.

Section Context_.
Context {caster : ObjectId.caster} {jwt : JWT.lib}.

(** The [context] function of the server: [authorization] is the header
    of the request, absent or a string.  [findById(undefined)], for a
    payload without [userId], is [null]. *)
Definition context (authorization : option string) : Async MyContext.t :=
  let token :=
    match authorization with
    | Some t => t
    | None => ""
    end in
  try_catch
    (decoded <- lift (match JWT.verify token JWT_SECRET with
                      | Some p => Return p
                      | None => Throw (Error "invalid token")
                      end) ;;
     user <- match JWT.userId decoded with
             | Some i => User.findById i
             | None => ret None
             end ;;
     ret (MyContext.mk user))
    (fun _ => ret (MyContext.mk None)).
End Context_.

(** ** Vocabulary of the properties *)

(** A product [createOrder] cannot price: its price is undefined, null
    or falsy. *)
Definition priceless (p : ProductSchema.t) : bool :=
  match ProductSchema.price p with
  | None => true
  | Some x => falsy x
  end.

(** The sum of the prices of a list of products, from 0, left to right,
    in the arithmetic of JavaScript numbers. *)
Definition sum_prices (l : list ProductSchema.t) : float :=
  fold_left
    (fun acc p =>
       match ProductSchema.price p with
       | Some x => (acc + x)%float
       | None => acc
       end)
    l 0%float.

Definition missing_price : Exception :=
  Error "Product price is undefined or null".

(** The status a new order gets. *)
Definition status_of (status : option string) : string :=
  match status with
  | Some s => s
  | None => OrderSchema.status_default
  end.

(** The paths [save()] refuses in an order whose references were cast. *)
Definition refused (status : option string) (total : float) : list string :=
  (if existsb (String.eqb (status_of status)) OrderSchema.status_enum
   then [] else ["status"]) ++
  (if is_nan total then ["totalPrice"] else []).

(** The update document [updateProduct] passes to the store. *)
Definition update_of (input : UpdateProductInput.t) : Product.update :=
  Product.mkUpdate (UpdateProductInput.name input)
    (UpdateProductInput.description input) (UpdateProductInput.price input)
    (UpdateProductInput.image input).

(** The token [signUp] and [signIn] issue for a user id at a second of
    the clock. *)
Definition token_of {jwt : JWT.lib} (i : ObjectId.t) (iat : N) : string :=
  JWT.sign (JWT.mk (Some (ObjectId.hex i)) None) JWT_SECRET iat.

(** The operations of the schema, with the inputs the resolvers take. *)
Inductive Request :=
| products_
| getProduct_ (id : string)
| orders_
| order_ (id : string)
| userOrders_ (userId : string)
| createProduct_ (_id : ObjectId.t) (input : ProductInput.t)
| updateProduct_ (input : UpdateProductInput.t)
| deleteProduct_ (id : string)
| createOrder_ (_id : ObjectId.t) (now : string) (input : CreateOrderInput.t)
| updateOrderStatus_ (input : UpdateOrderStatusInput.t)
| deleteOrder_ (id : string)
| signUp_ (_id : ObjectId.t) (iat : N) (name email password : string)
| signIn_ (iat : N) (email password : string)
| signOut_.

(** The ids of each collection are distinct. *)
Definition well_formed (db : Db.t) : Prop :=
  unique_ids UserSchema.id (Db.users db) /\
  unique_ids ProductSchema.id (Db.products db) /\
  unique_ids OrderSchema.id (Db.orders db).

(** No two users share an email. *)
Definition emails_unique (db : Db.t) : Prop :=
  NoDup (map UserSchema.email (Db.users db)).

(** Every stored order refers to a stored user and lists no product
    twice. *)
Definition orders_sound (db : Db.t) : Prop :=
  forall o, In o (Db.orders db) ->
    resolves UserSchema.id (OrderSchema.user o) (Db.users db) /\
    NoDup (OrderSchema.products o).

Section Handling.
Context {caster : ObjectId.caster} {jwt : JWT.lib}.

(** The database a request leaves behind, whether its resolver returns
    or throws. *)
Definition handle (r : Request) (db : Db.t) : Db.t :=
  match r with
  | products_ => snd (Query.products db)
  | getProduct_ id => snd (Query.getProduct id db)
  | orders_ => snd (Query.orders db)
  | order_ id => snd (Query.order id db)
  | userOrders_ userId => snd (Query.userOrders userId db)
  | createProduct_ _id input => snd (Mutation.createProduct _id input db)
  | updateProduct_ input => snd (Mutation.updateProduct input db)
  | deleteProduct_ id => snd (Mutation.deleteProduct id db)
  | createOrder_ _id now input => snd (Mutation.createOrder _id now input db)
  | updateOrderStatus_ input => snd (Mutation.updateOrderStatus input db)
  | deleteOrder_ id => snd (Mutation.deleteOrder id db)
  | signUp_ _id iat name email password =>
      snd (Mutation.signUp _id iat name email password db)
  | signIn_ iat email password => snd (Mutation.signIn iat email password db)
  | signOut_ => snd (Mutation.signOut db)
  end.

(** The database after a sequence of requests, the first of the list
    first. *)
Fixpoint run (rs : list Request) (db : Db.t) : Db.t :=
  match rs with
  | [] => db
  | r :: rs' => run rs' (handle r db)
  end.
End Handling.

(** The database before the first request. *)
Definition empty_db : Db.t := Db.mk [] [] [].

(** What each request does to the three collections. *)
Inductive Effect (db : Db.t) : Db.t -> Prop :=
| effect_none : Effect db db
| effect_user_added u :
    existsb (has_id UserSchema.id (UserSchema.id u)) (Db.users db) = false ->
    Effect db (Db.mk (Db.users db ++ [u]) (Db.products db) (Db.orders db))
| effect_product_added p :
    existsb (has_id ProductSchema.id (ProductSchema.id p)) (Db.products db)
    = false ->
    Effect db (Db.mk (Db.users db) (Db.products db ++ [p]) (Db.orders db))
| effect_product_updated i u :
    Effect db (Db.mk (Db.users db)
                 (update_by_id ProductSchema.id i (Product.apply_update u)
                               (Db.products db))
                 (Db.orders db))
| effect_product_deleted i :
    Effect db (Db.mk (Db.users db)
                 (delete_by_id ProductSchema.id i (Db.products db))
                 (Db.orders db))
| effect_order_added o :
    existsb (has_id OrderSchema.id (OrderSchema.id o)) (Db.orders db)
    = false ->
    Effect db (Db.mk (Db.users db) (Db.products db) (Db.orders db ++ [o]))
| effect_order_status i status :
    Effect db (Db.mk (Db.users db) (Db.products db)
                 (update_by_id OrderSchema.id i
                    (OrderSchema.set_status status) (Db.orders db)))
| effect_order_deleted i :
    Effect db (Db.mk (Db.users db) (Db.products db)
                 (delete_by_id OrderSchema.id i (Db.orders db))).

(** ** A small shop, for the examples *)

Module Shop.
(** The ids: a user, four products, two stored orders, and ids not in
    use. *)
Definition u1 : ObjectId.t := @ObjectId.mk "0000000000000000000000a1" eq_refl.
Definition u2 : ObjectId.t := @ObjectId.mk "0000000000000000000000a2" eq_refl.
Definition u7 : ObjectId.t := @ObjectId.mk "0000000000000000000000a7" eq_refl.
Definition p1 : ObjectId.t := @ObjectId.mk "0000000000000000000000b1" eq_refl.
Definition p2 : ObjectId.t := @ObjectId.mk "0000000000000000000000b2" eq_refl.
Definition p3 : ObjectId.t := @ObjectId.mk "0000000000000000000000b3" eq_refl.
Definition p4 : ObjectId.t := @ObjectId.mk "0000000000000000000000b4" eq_refl.
Definition p5 : ObjectId.t := @ObjectId.mk "0000000000000000000000b5" eq_refl.
Definition p9 : ObjectId.t := @ObjectId.mk "0000000000000000000000b9" eq_refl.
Definition o1 : ObjectId.t := @ObjectId.mk "0000000000000000000000c1" eq_refl.
Definition o2 : ObjectId.t := @ObjectId.mk "0000000000000000000000c2" eq_refl.
Definition o3 : ObjectId.t := @ObjectId.mk "0000000000000000000000c3" eq_refl.
Definition o9 : ObjectId.t := @ObjectId.mk "0000000000000000000000c9" eq_refl.

Definition U1 : UserSchema.t :=
  UserSchema.mk u1 "Ann" "ann@example.org" "pa55word".
Definition P1 : ProductSchema.t :=
  ProductSchema.mk p1 (Some "pen") (Some "a blue pen") (Some 10%float)
                   (Some "pen.png").
Definition P2 : ProductSchema.t :=
  ProductSchema.mk p2 (Some "ink") (Some "a bottle of ink") (Some 15.5%float)
                   (Some "ink.png").
(** A product given away, and one whose price was never set. *)
Definition P3 : ProductSchema.t :=
  ProductSchema.mk p3 (Some "leaflet") (Some "a free leaflet") (Some 0%float)
                   (Some "leaflet.png").
Definition P4 : ProductSchema.t :=
  ProductSchema.mk p4 (Some "draft") (Some "not priced yet") None
                   (Some "draft.png").
Definition O1 : OrderSchema.t :=
  OrderSchema.mk o1 u1 [p1; p2] "placed" 25.5%float
                 "2023-03-01T10:00:00.000Z".
Definition O2 : OrderSchema.t :=
  OrderSchema.mk o2 u1 [p2] "processing" 15.5%float
                 "2023-03-02T10:00:00.000Z".
Definition db : Db.t := Db.mk [U1] [P1; P2; P3; P4] [O1; O2].
Definition now : string := "2023-03-03T10:00:00.000Z".
(** The second of [now]. *)
Definition iat : N := 1677837600.

(** An order for the ink and the pen, and the populated order the shop
    answers with. *)
Definition input3 : CreateOrderInput.t :=
  CreateOrderInput.mk "0000000000000000000000a1"
    ["0000000000000000000000b2"; "0000000000000000000000b1"] None.
Definition O3 : Populated.t :=
  Populated.mk o3 (Some U1) [P2; P1] "placed" 25.5%float now.

(** A history: that order, the pen withdrawn, a second customer. *)
Definition history : list Request :=
  [createOrder_ o3 now input3;
   deleteProduct_ "0000000000000000000000b1";
   signUp_ u2 iat "Bob" "bob@example.org" "hunter2"].
End Shop.

(** ** A token library for the examples *)

(** The token is the secret, a dot, the second of issue in binary (least
    bit first), a dot and the payload in clear.  It signs nothing; it is
    there to run the resolvers and to show that the interface can be
    met. *)
Module PlainJWT.
Fixpoint strip_prefix (p s : string) : option string :=
  match p, s with
  | EmptyString, _ => Some s
  | String a p', String b s' =>
      if Ascii.eqb a b then strip_prefix p' s' else None
  | String _ _, EmptyString => None
  end.

Fixpoint write_bits (p : positive) (rest : string) : string :=
  match p with
  | xH => String "1" rest
  | xO p' => String "0" (write_bits p' rest)
  | xI p' => String "1" (write_bits p' rest)
  end.

Definition write_time (t : N) (rest : string) : string :=
  match t with
  | N0 => String "." rest
  | Npos p => write_bits p (String "." rest)
  end.

Fixpoint read_time (s : string) : option (N * string) :=
  match s with
  | EmptyString => None
  | String c s' =>
      if Ascii.eqb c "." then Some (0%N, s')
      else
        match read_time s' with
        | None => None
        | Some (n, rest) =>
            if Ascii.eqb c "0" then Some (N.double n, rest)
            else if Ascii.eqb c "1" then Some (N.succ_double n, rest)
            else None
        end
  end.

Definition encode (u : option string) : string :=
  match u with
  | Some i => String "+" i
  | None => "-"
  end.

Definition decode (s : string) : option (option string) :=
  match s with
  | String c i =>
      if Ascii.eqb c "+" then Some (Some i)
      else if (Ascii.eqb c "-" && String.eqb i "")%bool
           then Some None
           else None
  | EmptyString => None
  end.

Definition sign (p : JWT.payload) (k : string) (t : N) : string :=
  ((k ++ ".") ++
   write_time (match JWT.iat p with Some t' => t' | None => t end)
              (encode (JWT.userId p)))%string.

Definition verify (token k : string) : option JWT.payload :=
  match strip_prefix (k ++ ".")%string token with
  | None => None
  | Some r =>
      match read_time r with
      | None => None
      | Some (t, r') =>
          match decode r' with
          | None => None
          | Some u => Some (JWT.mk u (Some t))
          end
      end
  end.

(** It meets the interface. *)
Definition lib : JWT.lib.
Proof.
  refine {| JWT.sign := sign; JWT.verify := verify |}.
  - intros u k t _. unfold verify, sign. cbn [JWT.iat JWT.userId].
    assert (forall a b, strip_prefix a (a ++ b)%string = Some b) as ->.
    { induction a as [|c a IH]; intros b; simpl; [now destruct b|].
      now rewrite Ascii.eqb_refl. }
    assert (forall n r, read_time (write_time n r) = Some (n, r)) as ->.
    { intros [|p] r; [reflexivity|]. simpl.
      induction p as [p IH|p IH|]; simpl.
      - now rewrite IH.
      - now rewrite IH.
      - reflexivity. }
    now destruct u.
  - intros k. unfold verify. now destruct k.
Defined.
End PlainJWT.

(** In the examples the ids are cast strictly and the tokens are
    plain. *)
#[global] Existing Instance ObjectId.strict | 100.
#[global] Existing Instance PlainJWT.lib | 100.

(** * Properties *)

(** ** ObjectIds *)

Lemma ObjectId_hex_inj a b : ObjectId.hex a = ObjectId.hex b -> a = b.
Proof.
  destruct a as [ha pa], b as [hb pb]. simpl. intros ->.
  f_equal. apply (UIP_dec bool_dec).
Qed.

Lemma ObjectId_eqb_eq a b : ObjectId.eqb a b = true <-> a = b.
Proof.
  unfold ObjectId.eqb. rewrite String.eqb_eq. split.
  - apply ObjectId_hex_inj.
  - now intros ->.
Qed.

Lemma ObjectId_eqb_neq a b : ObjectId.eqb a b = false <-> a <> b.
Proof.
  rewrite <- ObjectId_eqb_eq. destruct (ObjectId.eqb a b); split; congruence.
Qed.

Lemma ObjectId_eqb_refl a : ObjectId.eqb a a = true.
Proof. now apply ObjectId_eqb_eq. Qed.

Lemma ObjectId_eq_dec (a b : ObjectId.t) : {a = b} + {a <> b}.
Proof.
  destruct (ObjectId.eqb a b) eqn:H.
  - left. now apply ObjectId_eqb_eq.
  - right. now apply ObjectId_eqb_neq.
Qed.

Lemma to_lower_fixed c :
  (ObjectId.is_digit c || ObjectId.is_lower_hex c)%bool = true ->
  ObjectId.to_lower c = c.
Proof.
  destruct c as [[] [] [] [] [] [] [] []]; vm_compute; congruence.
Qed.

Lemma lowercase_fixed s :
  ObjectId.all_lower_hex s = true -> ObjectId.lowercase s = s.
Proof.
  induction s as [|c s IH]; simpl; [reflexivity|].
  intros H. apply andb_prop in H. destruct H as [Hc Hs].
  now rewrite to_lower_fixed, IH.
Qed.

Lemma lowercase_hex o : ObjectId.lowercase (ObjectId.hex o) = ObjectId.hex o.
Proof.
  apply lowercase_fixed. pose proof (ObjectId.hex_canonical o) as Hc.
  unfold ObjectId.canonical in Hc. apply andb_prop in Hc. tauto.
Qed.

Lemma is_hex24_hex o : ObjectId.is_hex24 (ObjectId.hex o) = true.
Proof.
  unfold ObjectId.is_hex24. rewrite lowercase_hex.
  apply ObjectId.hex_canonical.
Qed.

Lemma is_hex24_length s : ObjectId.is_hex24 s = true -> String.length s = 24.
Proof.
  unfold ObjectId.is_hex24, ObjectId.canonical. intros H.
  apply andb_prop in H. destruct H as [H _]. apply Nat.eqb_eq in H.
  rewrite <- H. clear H. induction s as [|c s IH]; simpl; congruence.
Qed.

(** What [parse] returns: the ObjectId whose digits are those of the
    string, in lowercase, when the string is 24 hexadecimal digits. *)
Lemma parse_spec s :
  match ObjectId.parse s with
  | Some o => ObjectId.hex o = ObjectId.lowercase s /\
              ObjectId.is_hex24 s = true
  | None => ObjectId.is_hex24 s = false
  end.
Proof.
  unfold ObjectId.parse, ObjectId.is_hex24.
  assert (forall x b (H : ObjectId.canonical x = b),
            match ObjectId.checked x H with
            | Some o => ObjectId.hex o = x /\ ObjectId.canonical x = true
            | None => ObjectId.canonical x = false
            end) as Hc.
  { intros x [] H; simpl; [split; [reflexivity | exact H] | exact H]. }
  apply Hc.
Qed.

(** The string of an ObjectId reads back as that ObjectId. *)
Lemma parse_hex o : ObjectId.parse (ObjectId.hex o) = Some o.
Proof.
  pose proof (parse_spec (ObjectId.hex o)) as H.
  destruct (ObjectId.parse (ObjectId.hex o)) as [o'|].
  - f_equal. apply ObjectId_hex_inj. destruct H as [H _].
    now rewrite H, lowercase_hex.
  - now rewrite is_hex24_hex in H.
Qed.

Section Casts.
Context {caster : ObjectId.caster}.

(** Every cast takes the string of an ObjectId to that ObjectId. *)
Lemma cast_hex o : ObjectId.cast (ObjectId.hex o) = Some o.
Proof.
  rewrite ObjectId.cast_hex24 by apply is_hex24_hex. apply parse_hex.
Qed.

(** Every cast refuses a string that is neither 24 hexadecimal digits
    nor of length 12. *)
Lemma cast_refused s :
  ObjectId.is_hex24 s = false -> String.length s <> 12 ->
  ObjectId.cast s = None.
Proof. apply ObjectId.cast_other. Qed.

(** On 24 hexadecimal digits the cast ignores the case. *)
Lemma cast_lowercase s :
  ObjectId.is_hex24 s = true ->
  exists o, ObjectId.cast s = Some o /\
            ObjectId.hex o = ObjectId.lowercase s.
Proof.
  intros Hs. rewrite (ObjectId.cast_hex24 _ Hs).
  pose proof (parse_spec s) as H.
  destruct (ObjectId.parse s) as [o|]; [|congruence].
  exists o. tauto.
Qed.

Lemma cast_all_hex l : ObjectId.cast_all (map ObjectId.hex l) = Some l.
Proof.
  induction l as [|o l IH]; simpl; [reflexivity|].
  now rewrite cast_hex, IH.
Qed.

Lemma cast_all_length ids l :
  ObjectId.cast_all ids = Some l -> List.length l = List.length ids.
Proof.
  revert l. induction ids as [|s ids IH]; simpl; intros l.
  - now intros [= <-].
  - destruct (ObjectId.cast s); [|discriminate].
    destruct (ObjectId.cast_all ids) as [l'|]; [|discriminate].
    intros [= <-]. simpl. now rewrite (IH l').
Qed.

(** The cast of an array fails exactly when the cast of one of its
    strings does. *)
Lemma cast_all_None ids :
  ObjectId.cast_all ids = None <->
  exists s, In s ids /\ ObjectId.cast s = None.
Proof.
  induction ids as [|s ids IH]; simpl.
  - split; [discriminate | intros (s & [] & _)].
  - destruct (ObjectId.cast s) as [i|] eqn:Hs.
    + destruct (ObjectId.cast_all ids) as [l|].
      * split; [discriminate|]. intros (x & [<- | Hx] & Hn); [congruence|].
        assert (Some l = None) as H by (apply IH; now exists x).
        discriminate.
      * split; [|reflexivity]. intros _.
        destruct (proj1 IH eq_refl) as (x & Hx & Hn). exists x. auto.
    + split; [|reflexivity]. intros _. exists s. auto.
Qed.

Lemma cast_all_permuted ids ids' :
  Permutation ids ids' ->
  match ObjectId.cast_all ids, ObjectId.cast_all ids' with
  | Some l, Some l' => Permutation l l'
  | None, None => True
  | _, _ => False
  end.
Proof.
  induction 1 as [|s ids ids' Hp IH|s s' ids|ids ids' ids'' Hp IH Hp' IH'];
    simpl.
  - constructor.
  - destruct (ObjectId.cast s); [|now destruct (ObjectId.cast_all ids),
                                       (ObjectId.cast_all ids')].
    destruct (ObjectId.cast_all ids), (ObjectId.cast_all ids'); try easy.
    now constructor.
  - destruct (ObjectId.cast s), (ObjectId.cast s'),
      (ObjectId.cast_all ids); try easy. apply perm_swap.
  - destruct (ObjectId.cast_all ids), (ObjectId.cast_all ids'),
      (ObjectId.cast_all ids''); try easy.
    now transitivity l0.
Qed.
End Casts.

(** ** Collections *)

Section CollectionFacts.
Variable doc : Type.
Variable _id : doc -> ObjectId.t.

Lemma has_id_true i d : has_id _id i d = true <-> _id d = i.
Proof. unfold has_id. apply ObjectId_eqb_eq. Qed.

Lemma has_id_false i d : has_id _id i d = false <-> _id d <> i.
Proof. unfold has_id. apply ObjectId_eqb_neq. Qed.

Lemma find_by_id_Some i c d :
  find_by_id _id i c = Some d -> In d c /\ _id d = i.
Proof.
  unfold find_by_id. intros Hf. apply find_some in Hf.
  destruct Hf as [Hin Hid]. split; [exact Hin | now apply has_id_true].
Qed.

Lemma find_by_id_None i c :
  find_by_id _id i c = None <-> ~ resolves _id i c.
Proof.
  unfold find_by_id, resolves. split.
  - intros Hf [d [Hin Hid]].
    pose proof (find_none _ _ Hf d Hin) as Hn.
    apply has_id_false in Hn. contradiction.
  - intros Hn. destruct (find (has_id _id i) c) as [d|] eqn:Hf; [|reflexivity].
    exfalso. apply Hn. exists d.
    apply find_some in Hf. destruct Hf as [Hin Hid].
    split; [exact Hin | now apply has_id_true].
Qed.

Lemma resolves_find i c :
  resolves _id i c -> exists d, find_by_id _id i c = Some d.
Proof.
  intros Hr. destruct (find_by_id _id i c) as [d|] eqn:Hf.
  - now exists d.
  - apply find_by_id_None in Hf. contradiction.
Qed.

(** The document [findById] returns is the first with that [_id]; the
    update and the delete act on it alone. *)
Lemma find_by_id_split i c d :
  find_by_id _id i c = Some d ->
  exists before after,
    c = before ++ d :: after /\
    (forall x, In x before -> _id x <> i) /\
    (forall u, update_by_id _id i u c = before ++ u d :: after) /\
    delete_by_id _id i c = before ++ after.
Proof.
  unfold find_by_id. induction c as [|x c IH]; simpl; [discriminate|].
  destruct (has_id _id i x) eqn:Hx.
  - intros [= ->]. exists [], c. simpl. repeat split; try reflexivity.
    intros y [].
  - intros Hf. destruct (IH Hf) as (b & a & Hc & Hb & Hu & Hd).
    exists (x :: b), a. simpl. repeat split.
    + now rewrite Hc at 1.
    + intros y [<- | Hy]; [now apply has_id_false | now apply Hb].
    + intros u. now rewrite Hu.
    + now rewrite Hd.
Qed.

Lemma update_by_id_absent i u c :
  find_by_id _id i c = None -> update_by_id _id i u c = c.
Proof.
  unfold find_by_id. induction c as [|x c IH]; simpl; [reflexivity|].
  destruct (has_id _id i x); [discriminate|].
  intros Hf. now rewrite IH.
Qed.

Lemma find_by_id_app i c l d :
  find_by_id _id i c = Some d -> find_by_id _id i (c ++ l) = Some d.
Proof.
  unfold find_by_id. induction c as [|x c IH]; simpl; [discriminate|].
  destruct (has_id _id i x); [easy | exact IH].
Qed.

Lemma delete_by_id_absent i c :
  find_by_id _id i c = None -> delete_by_id _id i c = c.
Proof.
  unfold find_by_id. induction c as [|x c IH]; simpl; [reflexivity|].
  destruct (has_id _id i x); [discriminate|].
  intros Hf. now rewrite IH.
Qed.

Lemma find_by_id_update i j u c :
  (forall d, _id (u d) = _id d) ->
  find_by_id _id j (update_by_id _id i u c) =
  if ObjectId.eqb i j then option_map u (find_by_id _id j c)
  else find_by_id _id j c.
Proof.
  intros Hu. unfold find_by_id.
  induction c as [|x c IH]; simpl.
  - now destruct (ObjectId.eqb i j).
  - destruct (has_id _id i x) eqn:Hix; simpl.
    + apply has_id_true in Hix.
      unfold has_id at 1. rewrite Hu. fold (has_id _id j x).
      destruct (ObjectId.eqb i j) eqn:Hij.
      * apply ObjectId_eqb_eq in Hij. subst j.
        apply has_id_true in Hix. now rewrite Hix.
      * destruct (has_id _id j x) eqn:Hjx; [|reflexivity].
        apply has_id_true in Hjx. apply ObjectId_eqb_neq in Hij. congruence.
    + destruct (has_id _id j x) eqn:Hjx.
      * destruct (ObjectId.eqb i j) eqn:Hij; [|reflexivity].
        apply ObjectId_eqb_eq in Hij. subst j. congruence.
      * exact IH.
Qed.

Lemma find_by_id_delete_other i j c :
  i <> j ->
  find_by_id _id j (delete_by_id _id i c) = find_by_id _id j c.
Proof.
  intros Hij. unfold find_by_id.
  induction c as [|x c IH]; simpl; [reflexivity|].
  destruct (has_id _id i x) eqn:Hix; simpl.
  - destruct (has_id _id j x) eqn:Hjx; [|reflexivity].
    apply has_id_true in Hix, Hjx. congruence.
  - destruct (has_id _id j x); [reflexivity | exact IH].
Qed.

Lemma find_by_id_delete i c :
  unique_ids _id c -> find_by_id _id i (delete_by_id _id i c) = None.
Proof.
  unfold unique_ids, find_by_id.
  induction c as [|x c IH]; simpl; intros Hu; [reflexivity|].
  inversion Hu as [|? ? Hnotin Hu']; subst.
  destruct (has_id _id i x) eqn:Hix; simpl.
  - apply has_id_true in Hix. subst i.
    apply find_by_id_None. intros [d [Hin Hid]].
    apply Hnotin. rewrite <- Hid. now apply in_map.
  - rewrite Hix. now apply IH.
Qed.

Lemma unique_ids_app_new c d :
  unique_ids _id c ->
  existsb (has_id _id (_id d)) c = false ->
  unique_ids _id (c ++ [d]).
Proof.
  unfold unique_ids. intros Hu Hn.
  rewrite map_app. simpl.
  apply NoDup_app.
  - exact Hu.
  - constructor; [intros [] | constructor].
  - intros a Hin [<- | []].
    apply in_map_iff in Hin. destruct Hin as [x [Hx Hin]].
    assert (existsb (has_id _id (_id d)) c = true) as Ht.
    { apply existsb_exists. exists x. split; [exact Hin|].
      now apply has_id_true. }
    congruence.
Qed.

Lemma unique_ids_update i u c :
  (forall d, _id (u d) = _id d) ->
  unique_ids _id c -> unique_ids _id (update_by_id _id i u c).
Proof.
  unfold unique_ids. intros Hu Hc.
  assert (map _id (update_by_id _id i u c) = map _id c) as ->; [|exact Hc].
  clear Hc. induction c as [|x c IH]; simpl; [reflexivity|].
  destruct (has_id _id i x); simpl; [now rewrite Hu | now rewrite IH].
Qed.

Lemma unique_ids_delete i c :
  unique_ids _id c -> unique_ids _id (delete_by_id _id i c).
Proof.
  unfold unique_ids.
  induction c as [|x c IH]; simpl; intros Hc; [exact Hc|].
  inversion Hc as [|? ? Hnotin Hc']; subst.
  destruct (has_id _id i x); simpl; [exact Hc'|].
  constructor; [|now apply IH].
  intros Hin. apply Hnotin.
  clear - Hin. induction c as [|y c IH]; simpl in *; [exact Hin|].
  destruct (has_id _id i y); simpl in *.
  - now right.
  - destruct Hin as [-> | Hin]; [now left | right; now apply IH].
Qed.

(** [find({ _id: { $in: ids } })] on a list of distinct ids that all
    resolve returns one document per id. *)
Lemma find_in_ids ids c :
  unique_ids _id c -> NoDup ids ->
  (forall i, In i ids -> resolves _id i c) ->
  Permutation (map _id (find_in _id ids c)) ids.
Proof.
  unfold unique_ids, find_in. intros Hc Hids Hres.
  apply NoDup_Permutation; [|exact Hids|].
  - clear Hres Hids. induction c as [|x c IH]; simpl; [constructor|].
    inversion Hc as [|? ? Hnotin Hc']; subst.
    destruct (existsb (ObjectId.eqb (_id x)) ids); simpl; [|now apply IH].
    constructor; [|now apply IH].
    intros Hin. apply Hnotin.
    apply in_map_iff in Hin. destruct Hin as [y [Hy Hin]].
    apply filter_In in Hin. rewrite <- Hy. apply in_map. tauto.
  - intros i. split.
    + intros Hin. apply in_map_iff in Hin. destruct Hin as [y [Hy Hin]].
      apply filter_In in Hin. destruct Hin as [_ Hex].
      apply existsb_exists in Hex. destruct Hex as [j [Hj Heq]].
      apply ObjectId_eqb_eq in Heq. rewrite <- Hy, Heq. exact Hj.
    + intros Hin. destruct (Hres i Hin) as [d [Hd Hid]].
      apply in_map_iff. exists d. split; [exact Hid|].
      apply filter_In. split; [exact Hd|].
      apply existsb_exists. exists i. split; [exact Hin|].
      apply ObjectId_eqb_eq. exact Hid.
Qed.

(** With a repeated id in [ids] the query returns fewer documents than
    ids. *)
Lemma find_in_repeated ids c :
  unique_ids _id c -> ~ NoDup ids ->
  List.length (find_in _id ids c) < List.length ids.
Proof.
  unfold unique_ids, find_in. intros Hc Hdup.
  assert (NoDup (map _id (filter (fun d => existsb (ObjectId.eqb (_id d)) ids) c)))
    as Hnd.
  { clear Hdup. induction c as [|x c IH]; simpl; [constructor|].
    inversion Hc as [|? ? Hnotin Hc']; subst.
    destruct (existsb (ObjectId.eqb (_id x)) ids); simpl; [|now apply IH].
    constructor; [|now apply IH].
    intros Hin. apply Hnotin.
    apply in_map_iff in Hin. destruct Hin as [y [Hy Hin]].
    apply filter_In in Hin. rewrite <- Hy. apply in_map. tauto. }
  assert (incl (map _id (filter (fun d => existsb (ObjectId.eqb (_id d)) ids) c))
               ids) as Hincl.
  { intros i Hin. apply in_map_iff in Hin. destruct Hin as [y [Hy Hin]].
    apply filter_In in Hin. destruct Hin as [_ Hex].
    apply existsb_exists in Hex. destruct Hex as [j [Hj Heq]].
    apply ObjectId_eqb_eq in Heq. rewrite <- Hy, Heq. exact Hj. }
  pose proof (NoDup_incl_length Hnd Hincl) as Hle.
  rewrite length_map in Hle.
  destruct (Nat.eq_dec
              (List.length (filter (fun d => existsb (ObjectId.eqb (_id d)) ids) c))
              (List.length ids)) as [Heq|Hne]; [|lia].
  exfalso. apply Hdup.
  apply (NoDup_incl_NoDup Hnd); [|exact Hincl].
  rewrite length_map. lia.
Qed.
End CollectionFacts.

Section CollectionLookups.
Variable doc : Type.
Variable _id : doc -> ObjectId.t.

Lemma find_app_first (f : doc -> bool) l l' :
  find f (l ++ l') =
  match find f l with
  | Some x => Some x
  | None => find f l'
  end.
Proof.
  induction l as [|x l IH]; simpl; [reflexivity|].
  now destruct (f x).
Qed.

Lemma existsb_has_id i c :
  existsb (has_id _id i) c = false <-> ~ resolves _id i c.
Proof.
  rewrite <- find_by_id_None. unfold find_by_id.
  induction c as [|x c IH]; simpl; [tauto|].
  destruct (has_id _id i x); simpl; [|exact IH].
  split; discriminate.
Qed.

(** A document added under a fresh [_id] is the one found under it, and
    the documents found under the other ids are the same as before. *)
Lemma find_by_id_added i c d :
  ~ resolves _id (_id d) c ->
  find_by_id _id i (c ++ [d]) =
  if ObjectId.eqb (_id d) i then Some d else find_by_id _id i c.
Proof.
  intros Hnew. apply find_by_id_None in Hnew.
  unfold find_by_id in *. rewrite find_app_first. simpl.
  unfold has_id at 2.
  destruct (ObjectId.eqb (_id d) i) eqn:Hid.
  - apply ObjectId_eqb_eq in Hid. subst i. now rewrite Hnew.
  - now destruct (find (has_id _id i) c).
Qed.

(** With [_id] a key, the document found under the [_id] of a stored
    document is that document. *)
Lemma find_by_id_stored c d :
  unique_ids _id c -> In d c -> find_by_id _id (_id d) c = Some d.
Proof.
  unfold unique_ids, find_by_id.
  induction c as [|x c IH]; simpl; intros Hu Hin; [destruct Hin|].
  inversion Hu as [|? ? Hnotin Hu']; subst.
  destruct Hin as [-> | Hin].
  - unfold has_id. now rewrite ObjectId_eqb_refl.
  - destruct (has_id _id (_id d) x) eqn:Hx; [|now apply IH].
    apply has_id_true in Hx. exfalso. apply Hnotin.
    rewrite Hx. now apply in_map.
Qed.

Lemma find_by_id_updated i u c :
  (forall d, _id (u d) = _id d) ->
  find_by_id _id i (update_by_id _id i u c) = option_map u (find_by_id _id i c).
Proof.
  intros Hu. rewrite find_by_id_update by exact Hu.
  now rewrite ObjectId_eqb_refl.
Qed.

Lemma find_by_id_update_other i j u c :
  (forall d, _id (u d) = _id d) -> i <> j ->
  find_by_id _id j (update_by_id _id i u c) = find_by_id _id j c.
Proof.
  intros Hu Hij. rewrite find_by_id_update by exact Hu.
  apply ObjectId_eqb_neq in Hij. now rewrite Hij.
Qed.

(** Two updates of the same document amount to one. *)
Lemma update_by_id_twice i u v w c :
  (forall d, _id (u d) = _id d) ->
  (forall d, v (u d) = w d) ->
  update_by_id _id i v (update_by_id _id i u c) = update_by_id _id i w c.
Proof.
  intros Hu Hw. induction c as [|x c IH]; simpl; [reflexivity|].
  destruct (has_id _id i x) eqn:Hx; simpl.
  - unfold has_id. rewrite Hu. fold (has_id _id i x).
    now rewrite Hx, Hw.
  - now rewrite Hx, IH.
Qed.

(** When [find({ _id: { $in: ids } })] returns as many documents as there
    are ids, the ids are distinct and each of them resolves. *)
Lemma find_in_full ids c :
  unique_ids _id c ->
  List.length (find_in _id ids c) = List.length ids ->
  NoDup ids /\ forall i, In i ids -> In i (map _id (find_in _id ids c)).
Proof.
  intros Hc Hlen.
  assert (NoDup ids) as Hnd.
  { destruct (ListDec.NoDup_dec ObjectId_eq_dec ids) as [H|H]; [exact H|].
    pose proof (find_in_repeated Hc H). lia. }
  split; [exact Hnd|].
  assert (incl (map _id (find_in _id ids c)) ids) as Hincl.
  { intros i Hin. apply in_map_iff in Hin. destruct Hin as [y [Hy Hin]].
    unfold find_in in Hin. apply filter_In in Hin. destruct Hin as [_ Hex].
    apply existsb_exists in Hex. destruct Hex as [j [Hj Heq]].
    apply ObjectId_eqb_eq in Heq. rewrite <- Hy, Heq. exact Hj. }
  assert (NoDup (map _id (find_in _id ids c))) as Hfound.
  { unfold unique_ids, find_in in *. clear Hlen Hincl Hnd.
    induction c as [|x c IH]; simpl; [constructor|].
    inversion Hc as [|? ? Hnotin Hc']; subst.
    destruct (existsb (ObjectId.eqb (_id x)) ids); simpl; [|now apply IH].
    constructor; [|now apply IH].
    intros Hin. apply Hnotin.
    apply in_map_iff in Hin. destruct Hin as [y [Hy Hin]].
    apply filter_In in Hin. rewrite <- Hy. apply in_map. tauto. }
  apply (NoDup_length_incl Hfound); [|exact Hincl].
  rewrite length_map. lia.
Qed.
End CollectionLookups.

(** ** The shop of the examples *)

Lemma Shop_users_unique : unique_ids UserSchema.id (Db.users Shop.db).
Proof. repeat constructor; simpl; intuition discriminate. Qed.

Lemma Shop_products_unique :
  unique_ids ProductSchema.id (Db.products Shop.db).
Proof. repeat constructor; simpl; intuition discriminate. Qed.

Lemma Shop_orders_unique : unique_ids OrderSchema.id (Db.orders Shop.db).
Proof. repeat constructor; simpl; intuition discriminate. Qed.

Lemma Shop_well_formed : well_formed Shop.db.
Proof.
  split; [exact Shop_users_unique|].
  split; [exact Shop_products_unique | exact Shop_orders_unique].
Qed.

(** ** The resolvers, one step at a time *)

Lemma reduce_add_price_priced l : forall acc,
  (forall p, In p l -> priceless p = false) ->
  reduce Mutation.add_price l acc =
  Return (fold_left
            (fun acc p =>
               match ProductSchema.price p with
               | Some x => (acc + x)%float
               | None => acc
               end)
            l acc).
Proof.
  induction l as [|p l IH]; intros acc Hl; simpl; [reflexivity|].
  assert (priceless p = false) as Hp by (apply Hl; now left).
  unfold priceless in Hp. unfold Mutation.add_price.
  destruct (ProductSchema.price p) as [x|]; [|discriminate].
  rewrite Hp. apply IH. intros q Hq. apply Hl. now right.
Qed.

Lemma reduce_add_price_priceless l : forall acc,
  (exists p, In p l /\ priceless p = true) ->
  reduce Mutation.add_price l acc = Throw missing_price.
Proof.
  induction l as [|q l IH]; intros acc [p [Hin Hp]]; [destruct Hin|].
  simpl. unfold Mutation.add_price at 1.
  destruct (ProductSchema.price q) as [x|] eqn:Hq; [|reflexivity].
  destruct (falsy x) eqn:Hx; [reflexivity|].
  apply IH. destruct Hin as [-> | Hin].
  - unfold priceless in Hp. rewrite Hq in Hp. congruence.
  - now exists p.
Qed.

Lemma reduce_add_price_throw l : forall acc e,
  reduce Mutation.add_price l acc = Throw e -> e = missing_price.
Proof.
  induction l as [|p l IH]; intros acc e; simpl; [discriminate|].
  unfold Mutation.add_price at 1.
  destruct (ProductSchema.price p) as [x|]; [|now intros [= <-]].
  destruct (falsy x); [now intros [= <-]|]. apply IH.
Qed.

Lemma reduce_add_price_return l : forall acc total,
  reduce Mutation.add_price l acc = Return total ->
  forall p, In p l -> priceless p = false.
Proof.
  induction l as [|q l IH]; intros acc total Hr p Hin; [destruct Hin|].
  simpl in Hr. unfold Mutation.add_price at 1 in Hr.
  destruct (ProductSchema.price q) as [x|] eqn:Hq; [|discriminate].
  destruct (falsy x) eqn:Hx; [discriminate|].
  destruct Hin as [<- | Hin].
  - unfold priceless. now rewrite Hq.
  - exact (IH _ _ Hr p Hin).
Qed.

Section Steps.
Context {caster : ObjectId.caster} {jwt : JWT.lib}.

Lemma createOrder_unfold _id now input db :
  Mutation.createOrder _id now input db =
  match ObjectId.cast (CreateOrderInput.userId input) with
  | None => (Throw CastError, db)
  | Some uid =>
      match find_by_id UserSchema.id uid (Db.users db) with
      | None => (Throw (Error "User not found"), db)
      | Some _ =>
          match ObjectId.cast_all (CreateOrderInput.productIds input) with
          | None => (Throw CastError, db)
          | Some pids =>
              let products := find_in ProductSchema.id pids (Db.products db) in
              if Nat.eqb (List.length products)
                         (List.length (CreateOrderInput.productIds input))
              then
                match reduce Mutation.add_price products 0%float with
                | Throw e => (Throw e, db)
                | Return total =>
                    match refused (CreateOrderInput.status input) total with
                    | [] =>
                        if existsb (has_id OrderSchema.id _id) (Db.orders db)
                        then (Throw (DuplicateKey _id), db)
                        else
                          let order :=
                            OrderSchema.mk _id uid pids
                              (status_of (CreateOrderInput.status input))
                              total now in
                          let db' :=
                            Db.mk (Db.users db) (Db.products db)
                                  (Db.orders db ++ [order]) in
                          (Return (Order.populated db' order), db')
                    | paths => (Throw (ValidationError paths), db)
                    end
                end
              else (Throw (Error "One or more products not found"), db)
          end
      end
  end.
Proof.
  unfold Mutation.createOrder, bind, User.findById, Product.find_id_in,
    read, throw, lift, Order.populate.
  destruct (ObjectId.cast (CreateOrderInput.userId input)) as [uid|] eqn:Hu;
    [|reflexivity].
  destruct (find_by_id UserSchema.id uid (Db.users db)); [|reflexivity].
  destruct (ObjectId.cast_all (CreateOrderInput.productIds input))
    as [pids|] eqn:Hp; [|reflexivity].
  cbv zeta.
  destruct (Nat.eqb _ _); cbn [negb]; [|reflexivity].
  destruct (reduce Mutation.add_price _ _) as [total|e]; [|reflexivity].
  unfold Order.save, Order.new, Order.invalid_paths, refused, status_of.
  cbn [Order.user Order.products Order.status Order.totalPrice Order._id
       Order.createdAt].
  rewrite Hu, Hp. cbn [app].
  destruct (_ ++ _); [|reflexivity].
  destruct (existsb (has_id OrderSchema.id _id) (Db.orders db)); reflexivity.
Qed.

Lemma updateOrderStatus_unfold input db :
  Mutation.updateOrderStatus input db =
  let id := UpdateOrderStatusInput.id input in
  let status := UpdateOrderStatusInput.status input in
  match ObjectId.cast id with
  | None => (Throw CastError, db)
  | Some i =>
      match find_by_id OrderSchema.id i (Db.orders db) with
      | Some o =>
          let db' :=
            Db.mk (Db.users db) (Db.products db)
                  (update_by_id OrderSchema.id i
                     (OrderSchema.set_status status) (Db.orders db)) in
          (Return (OrderUpdated.mk
                     (Order.populated db' (OrderSchema.set_status status o))
                     "updated sucessfully"),
           db')
      | None =>
          (Throw (Error ("Order with id " ++ id ++ " not found")%string), db)
      end
  end.
Proof.
  unfold Mutation.updateOrderStatus, bind, Order.findByIdAndUpdate, throw.
  cbv zeta. destruct (ObjectId.cast _); [|reflexivity].
  destruct (find_by_id OrderSchema.id _ (Db.orders db)); reflexivity.
Qed.

Lemma deleteOrder_unfold id db :
  Mutation.deleteOrder id db =
  match ObjectId.cast id with
  | None => (Throw CastError, db)
  | Some i =>
      match find_by_id OrderSchema.id i (Db.orders db) with
      | Some _ =>
          (Return (Status.mk "Order Deleted"),
           Db.mk (Db.users db) (Db.products db)
                 (delete_by_id OrderSchema.id i (Db.orders db)))
      | None => (Return (Status.mk "Order already deleted"), db)
      end
  end.
Proof.
  unfold Mutation.deleteOrder, bind, Order.findByIdAndDelete, throw.
  destruct (ObjectId.cast _); [|reflexivity].
  destruct (find_by_id OrderSchema.id _ (Db.orders db)); reflexivity.
Qed.

Lemma createProduct_unfold _id input db :
  Mutation.createProduct _id input db =
  let product :=
    ProductSchema.mk _id (Some (ProductInput.name input))
      (Some (ProductInput.description input))
      (Some (ProductInput.price input))
      (Some (ProductInput.image input)) in
  if is_nan (ProductInput.price input)
  then (Throw (ValidationError ["price"]), db)
  else if existsb (has_id ProductSchema.id _id) (Db.products db)
  then (Throw (DuplicateKey _id), db)
  else (Return product,
        Db.mk (Db.users db) (Db.products db ++ [product]) (Db.orders db)).
Proof.
  unfold Mutation.createProduct, bind, Product.save.
  cbn [ProductSchema.id ProductSchema.price]. cbv zeta.
  destruct (is_nan _); [reflexivity|]. now destruct (existsb _ _).
Qed.

Lemma updateProduct_unfold input db :
  Mutation.updateProduct input db =
  match ObjectId.cast (UpdateProductInput.id input) with
  | None => (Throw CastError, db)
  | Some i =>
      if Product.update_casts (update_of input)
      then
        match find_by_id ProductSchema.id i (Db.products db) with
        | Some p =>
            (Return (Some (Product.apply_update (update_of input) p)),
             Db.mk (Db.users db)
                   (update_by_id ProductSchema.id i
                      (Product.apply_update (update_of input))
                      (Db.products db))
                   (Db.orders db))
        | None => (Return None, db)
        end
      else (Throw CastError, db)
  end.
Proof.
  unfold Mutation.updateProduct, Product.findByIdAndUpdate, throw.
  fold (update_of input).
  destruct (ObjectId.cast _); [|reflexivity].
  now destruct (Product.update_casts _).
Qed.

Lemma deleteProduct_unfold id db :
  Mutation.deleteProduct id db =
  match ObjectId.cast id with
  | None => (Throw CastError, db)
  | Some i =>
      match find_by_id ProductSchema.id i (Db.products db) with
      | Some _ =>
          (Return (Status.mk "Product deleted"),
           Db.mk (Db.users db)
                 (delete_by_id ProductSchema.id i (Db.products db))
                 (Db.orders db))
      | None => (Return (Status.mk "Product already deleted"), db)
      end
  end.
Proof.
  unfold Mutation.deleteProduct, bind, Product.findByIdAndDelete, throw.
  destruct (ObjectId.cast _); [|reflexivity].
  destruct (find_by_id ProductSchema.id _ (Db.products db)); reflexivity.
Qed.

Lemma order_unfold id db :
  Query.order id db =
  (match ObjectId.cast id with
   | None => Throw CastError
   | Some i =>
       Return (option_map (Order.populated db)
                 (find_by_id OrderSchema.id i (Db.orders db)))
   end, db).
Proof.
  unfold Query.order, bind, Order.findById, read, throw.
  destruct (ObjectId.cast id); [|reflexivity].
  destruct (find_by_id OrderSchema.id _ (Db.orders db)); reflexivity.
Qed.

Lemma getProduct_unfold id db :
  Query.getProduct id db =
  (match ObjectId.cast id with
   | None => Throw CastError
   | Some i => Return (find_by_id ProductSchema.id i (Db.products db))
   end, db).
Proof.
  unfold Query.getProduct, Product.findById, read, throw.
  now destruct (ObjectId.cast id).
Qed.

Lemma userOrders_unfold userId db :
  Query.userOrders userId db =
  (match ObjectId.cast userId with
   | None => Throw CastError
   | Some u =>
       Return (map (Order.populated db)
                 (filter (fun o => ObjectId.eqb (OrderSchema.user o) u)
                         (Db.orders db)))
   end, db).
Proof.
  unfold Query.userOrders, bind, Order.find_user, Order.populate_all, read,
    throw.
  now destruct (ObjectId.cast userId).
Qed.

(** The tokens of the server verify under its secret. *)
Lemma verify_token_of i t :
  JWT.verify (token_of i t) JWT_SECRET =
  Some (JWT.mk (Some (ObjectId.hex i)) (Some t)).
Proof. apply JWT.verify_sign. discriminate. Qed.

Lemma signUp_unfold _id iat name email password db :
  Mutation.signUp _id iat name email password db =
  match first_with_email email (Db.users db) with
  | Some _ => (Throw (Error "User already exists"), db)
  | None =>
      if existsb (has_id UserSchema.id _id) (Db.users db)
      then (Throw (DuplicateKey _id), db)
      else (Return (SignedUp.mk (token_of _id iat) (ObjectId.hex _id)
                                "User Created"),
            Db.mk (Db.users db ++ [UserSchema.mk _id name email password])
                  (Db.products db) (Db.orders db))
  end.
Proof.
  unfold Mutation.signUp, bind, User.findOne, read.
  destruct (first_with_email email (Db.users db)); [reflexivity|].
  unfold User.save. cbn [UserSchema.id].
  destruct (existsb _ _); reflexivity.
Qed.

Lemma signIn_unfold iat email password db :
  Mutation.signIn iat email password db =
  match first_with_email email (Db.users db) with
  | None => (Throw (Error "Invalid email or password"), db)
  | Some user =>
      if String.eqb (UserSchema.password user) password
      then (Return (AuthData.mk (token_of (UserSchema.id user) iat)
                                (ObjectId.hex (UserSchema.id user))), db)
      else (Throw (Error "Invalid email or password"), db)
  end.
Proof.
  unfold Mutation.signIn, bind, User.findOne, read.
  destruct (first_with_email email (Db.users db)) as [u|]; [|reflexivity].
  destruct (String.eqb _ _); reflexivity.
Qed.

Lemma context_unfold authorization db :
  context authorization db =
  (Return
     (MyContext.mk
        match JWT.verify
                match authorization with Some t => t | None => "" end
                JWT_SECRET with
        | Some decoded =>
            match JWT.userId decoded with
            | Some s =>
                match ObjectId.cast s with
                | Some i => find_by_id UserSchema.id i (Db.users db)
                | None => None
                end
            | None => None
            end
        | None => None
        end),
   db).
Proof.
  unfold context, try_catch, bind, lift, User.findById, read, ret, throw.
  destruct (JWT.verify _ JWT_SECRET) as [[[s|] t]|]; try reflexivity.
  cbn [JWT.userId]. now destruct (ObjectId.cast s).
Qed.
End Steps.

(** ** Order creation *)

Section OrderCreation.
Context {caster : ObjectId.caster}.

(** [createOrder] writes to the order collection alone, and only when it
    returns. *)
Lemma createOrder_throw_unchanged _id now input db e db' :
  Mutation.createOrder _id now input db = (Throw e, db') -> db' = db.
Proof.
  rewrite createOrder_unfold.
  destruct (ObjectId.cast _); [|now intros [= _ <-]].
  destruct (find_by_id UserSchema.id _ _); [|now intros [= _ <-]].
  destruct (ObjectId.cast_all _); [|now intros [= _ <-]].
  cbv zeta. destruct (Nat.eqb _ _); [|now intros [= _ <-]].
  destruct (reduce _ _ _); [|now intros [= _ <-]].
  destruct (refused _ _); [|now intros [= _ <-]].
  destruct (existsb _ _); [now intros [= _ <-]|].
  discriminate.
Qed.

(** A [createOrder] that returns went through every step. *)
Lemma createOrder_return_inv _id now input db result db' :
  Mutation.createOrder _id now input db = (Return result, db') ->
  exists uid u pids total,
    ObjectId.cast (CreateOrderInput.userId input) = Some uid /\
    find_by_id UserSchema.id uid (Db.users db) = Some u /\
    ObjectId.cast_all (CreateOrderInput.productIds input) = Some pids /\
    List.length (find_in ProductSchema.id pids (Db.products db)) =
    List.length pids /\
    reduce Mutation.add_price
      (find_in ProductSchema.id pids (Db.products db)) 0%float
    = Return total /\
    refused (CreateOrderInput.status input) total = [] /\
    ~ resolves OrderSchema.id _id (Db.orders db) /\
    let order :=
      OrderSchema.mk _id uid pids (status_of (CreateOrderInput.status input))
                     total now in
    db' = Db.mk (Db.users db) (Db.products db) (Db.orders db ++ [order]) /\
    result = Order.populated db' order.
Proof.
  rewrite createOrder_unfold.
  destruct (ObjectId.cast _) as [uid|] eqn:Hc; [|discriminate].
  destruct (find_by_id UserSchema.id _ _) as [u|] eqn:Hu; [|discriminate].
  destruct (ObjectId.cast_all _) as [pids|] eqn:Hp; [|discriminate].
  cbv zeta.
  destruct (Nat.eqb _ _) eqn:Hlen; [|discriminate].
  apply Nat.eqb_eq in Hlen. rewrite <- (cast_all_length _ Hp) in Hlen.
  destruct (reduce _ _ _) as [total|] eqn:Hr; [|discriminate].
  destruct (refused _ _) eqn:Hs; [|discriminate].
  destruct (existsb (has_id OrderSchema.id _) _) eqn:Hnew; [discriminate|].
  intros [= <- <-]. exists uid, u, pids, total.
  apply existsb_has_id in Hnew.
  repeat (split; [assumption || reflexivity|]). reflexivity.
Qed.

Lemma refused_nil status total :
  refused status total = [] <->
  In (status_of status) OrderSchema.status_enum /\ is_nan total = false.
Proof.
  unfold refused.
  destruct (existsb (String.eqb (status_of status)) OrderSchema.status_enum)
    eqn:Hs.
  - apply existsb_exists in Hs. destruct Hs as (s & Hin & Heq).
    apply String.eqb_eq in Heq. rewrite Heq.
    destruct (is_nan total); simpl; split; intros H; try easy.
  - split; [discriminate|]. intros [Hin _]. exfalso.
    assert (existsb (String.eqb (status_of status)) OrderSchema.status_enum
            = true) as Ht; [|congruence].
    apply existsb_exists. exists (status_of status).
    split; [exact Hin | apply String.eqb_refl].
Qed.

(** C1.  [createOrder] on the shop, with the products priced 10.00 and
    15.50 and the ids [P1, P1, P2] (every one of them resolves): the
    query [find({ _id: { $in: productIds } })] returns the two products
    once each, 2 differs from 3, and the resolver throws "One or more
    products not found"; no order of total 35.50 is created and the
    database is as it was. *)
Theorem createOrder_repeated_id_example _id now status :
  Mutation.createOrder _id now
    (CreateOrderInput.mk (ObjectId.hex Shop.u1)
       [ObjectId.hex Shop.p1; ObjectId.hex Shop.p1; ObjectId.hex Shop.p2]
       status)
    Shop.db =
  (Throw (Error "One or more products not found"), Shop.db).
Proof.
  rewrite createOrder_unfold.
  cbn [CreateOrderInput.userId CreateOrderInput.productIds].
  rewrite cast_hex.
  change [ObjectId.hex Shop.p1; ObjectId.hex Shop.p1; ObjectId.hex Shop.p2]
    with (map ObjectId.hex [Shop.p1; Shop.p1; Shop.p2]).
  rewrite cast_all_hex. reflexivity.
Qed.

(** The same on any database: with the user found and the product ids
    cast, a list of product ids that repeats an id (in one spelling or in
    two) is refused. *)
Theorem createOrder_repeated_id _id now input db uid pids :
  ObjectId.cast (CreateOrderInput.userId input) = Some uid ->
  resolves UserSchema.id uid (Db.users db) ->
  ObjectId.cast_all (CreateOrderInput.productIds input) = Some pids ->
  unique_ids ProductSchema.id (Db.products db) ->
  ~ NoDup pids ->
  Mutation.createOrder _id now input db =
  (Throw (Error "One or more products not found"), db).
Proof.
  intros Hc Hu Hcp Hp Hdup. rewrite createOrder_unfold, Hc.
  destruct (resolves_find Hu) as [u ->]. rewrite Hcp. cbv zeta.
  pose proof (find_in_repeated Hp Hdup) as Hlt.
  rewrite (cast_all_length _ Hcp) in Hlt.
  destruct (Nat.eqb _ _) eqn:Heq; [|reflexivity].
  apply Nat.eqb_eq in Heq. lia.
Qed.

(** With an existing user, product ids that cast to distinct ids of
    priced products, a status of the schema (or none), a sum that is a
    number and a fresh [_id], [createOrder] returns; the order it stores
    and the order it returns carry as [totalPrice] the sum of the prices
    of the products found, which are the products of [productIds], one
    each. *)
Theorem createOrder_totalPrice _id now input db uid pids :
  ObjectId.cast (CreateOrderInput.userId input) = Some uid ->
  resolves UserSchema.id uid (Db.users db) ->
  unique_ids ProductSchema.id (Db.products db) ->
  ObjectId.cast_all (CreateOrderInput.productIds input) = Some pids ->
  NoDup pids ->
  (forall i, In i pids ->
     exists p, In p (Db.products db) /\ ProductSchema.id p = i /\
               priceless p = false) ->
  (forall s, CreateOrderInput.status input = Some s ->
     In s OrderSchema.status_enum) ->
  is_nan (sum_prices (find_in ProductSchema.id pids (Db.products db)))
  = false ->
  ~ resolves OrderSchema.id _id (Db.orders db) ->
  let found := find_in ProductSchema.id pids (Db.products db) in
  exists order db',
    Mutation.createOrder _id now input db =
      (Return (Order.populated db' order), db') /\
    db' = Db.mk (Db.users db) (Db.products db) (Db.orders db ++ [order]) /\
    OrderSchema.products order = pids /\
    OrderSchema.totalPrice order = sum_prices found /\
    Populated.totalPrice (Order.populated db' order) = sum_prices found /\
    Permutation (map ProductSchema.id found) pids.
Proof.
  intros Hc Hu Hp Hcp Hnd Hpriced Hstatus Hnan Hfresh found.
  assert (Permutation (map ProductSchema.id found) pids) as Hperm.
  { apply find_in_ids; try assumption.
    intros i Hi. destruct (Hpriced i Hi) as (p & Hin & Hid & _).
    now exists p. }
  assert (forall p, In p found -> priceless p = false) as Hfound.
  { intros p Hin. unfold found, find_in in Hin.
    apply filter_In in Hin. destruct Hin as [Hin Hex].
    apply existsb_exists in Hex. destruct Hex as [i [Hi Heq]].
    apply ObjectId_eqb_eq in Heq.
    destruct (Hpriced i Hi) as (q & Hq & Hid & Hpr).
    assert (find_by_id ProductSchema.id i (Db.products db) = Some q) as Hfq.
    { rewrite <- Hid. now apply find_by_id_stored. }
    assert (find_by_id ProductSchema.id i (Db.products db) = Some p) as Hfp.
    { rewrite <- Heq. now apply find_by_id_stored. }
    congruence. }
  exists (OrderSchema.mk _id uid pids
            (status_of (CreateOrderInput.status input)) (sum_prices found)
            now).
  eexists. rewrite createOrder_unfold, Hc.
  destruct (resolves_find Hu) as [u ->]. rewrite Hcp. cbv zeta. fold found.
  assert (List.length found =
          List.length (CreateOrderInput.productIds input)) as Hlen.
  { rewrite <- (cast_all_length _ Hcp), <- (Permutation_length Hperm).
    now rewrite length_map. }
  rewrite Hlen, Nat.eqb_refl.
  rewrite (reduce_add_price_priced found 0%float Hfound).
  fold (sum_prices found).
  assert (refused (CreateOrderInput.status input) (sum_prices found) = [])
    as ->.
  { apply refused_nil. split; [|exact Hnan]. unfold status_of.
    destruct (CreateOrderInput.status input) as [s|];
      [now apply Hstatus | simpl; tauto]. }
  rewrite (proj2 (existsb_has_id OrderSchema.id _id (Db.orders db)) Hfresh).
  repeat split; try reflexivity. exact Hperm.
Qed.

(** A product without a usable price among the products found stops
    [createOrder] with the missing-price error, before anything is
    written. *)
Lemma createOrder_priceless _id now input db uid pids :
  ObjectId.cast (CreateOrderInput.userId input) = Some uid ->
  resolves UserSchema.id uid (Db.users db) ->
  ObjectId.cast_all (CreateOrderInput.productIds input) = Some pids ->
  List.length (find_in ProductSchema.id pids (Db.products db)) =
  List.length pids ->
  (exists p,
     In p (find_in ProductSchema.id pids (Db.products db)) /\
     priceless p = true) ->
  Mutation.createOrder _id now input db = (Throw missing_price, db).
Proof.
  intros Hc Hu Hcp Hlen Hp. rewrite createOrder_unfold, Hc.
  destruct (resolves_find Hu) as [u ->]. rewrite Hcp. cbv zeta.
  rewrite Hlen, (cast_all_length _ Hcp), Nat.eqb_refl.
  now rewrite (reduce_add_price_priceless _ 0%float Hp).
Qed.

(** Among distinct product ids that all resolve, for an existing user, a
    product without a defined price makes [createOrder] throw "Product
    price is undefined or null", with the database left as it was. *)
Theorem createOrder_undefined_price _id now input db uid pids p :
  ObjectId.cast (CreateOrderInput.userId input) = Some uid ->
  resolves UserSchema.id uid (Db.users db) ->
  ObjectId.cast_all (CreateOrderInput.productIds input) = Some pids ->
  unique_ids ProductSchema.id (Db.products db) ->
  NoDup pids ->
  (forall i, In i pids -> resolves ProductSchema.id i (Db.products db)) ->
  In p (Db.products db) -> In (ProductSchema.id p) pids ->
  ProductSchema.price p = None ->
  Mutation.createOrder _id now input db =
  (Throw (Error "Product price is undefined or null"), db).
Proof.
  intros Hc Hu Hcp Huniq Hnd Hres Hin Hid Hp.
  apply createOrder_priceless with (uid := uid) (pids := pids);
    try assumption.
  - rewrite <- (Permutation_length (find_in_ids Huniq Hnd Hres)).
    now rewrite length_map.
  - exists p. split; [|unfold priceless; now rewrite Hp].
    unfold find_in. apply filter_In. split; [exact Hin|].
    apply existsb_exists. exists (ProductSchema.id p).
    split; [exact Hid | apply ObjectId_eqb_refl].
Qed.

(** The same for a product whose price is 0 (or -0): the test
    [!product.price] takes it for a missing price. *)
Theorem createOrder_zero_price _id now input db uid pids p x :
  ObjectId.cast (CreateOrderInput.userId input) = Some uid ->
  resolves UserSchema.id uid (Db.users db) ->
  ObjectId.cast_all (CreateOrderInput.productIds input) = Some pids ->
  unique_ids ProductSchema.id (Db.products db) ->
  NoDup pids ->
  (forall i, In i pids -> resolves ProductSchema.id i (Db.products db)) ->
  In p (Db.products db) -> In (ProductSchema.id p) pids ->
  ProductSchema.price p = Some x ->
  x = 0%float \/ x = (-0)%float ->
  Mutation.createOrder _id now input db =
  (Throw (Error "Product price is undefined or null"), db).
Proof.
  intros Hc Hu Hcp Huniq Hnd Hres Hin Hid Hp Hx.
  apply createOrder_priceless with (uid := uid) (pids := pids);
    try assumption.
  - rewrite <- (Permutation_length (find_in_ids Huniq Hnd Hres)).
    now rewrite length_map.
  - exists p. split.
    + unfold find_in. apply filter_In. split; [exact Hin|].
      apply existsb_exists. exists (ProductSchema.id p).
      split; [exact Hid | apply ObjectId_eqb_refl].
    + unfold priceless. rewrite Hp. destruct Hx as [-> | ->]; reflexivity.
Qed.

(** C3.  [createOrder] on the shop for the user and the ids [P4, P4],
    where P4 is stored without a price: the user and the ids resolve,
    but the query returns P4 once, 1 differs from 2, and the resolver
    throws "One or more products not found" rather than the
    missing-price error; nothing is written. *)
Theorem createOrder_unpriced_repeated_example _id now status :
  Mutation.createOrder _id now
    (CreateOrderInput.mk (ObjectId.hex Shop.u1)
       [ObjectId.hex Shop.p4; ObjectId.hex Shop.p4] status)
    Shop.db =
  (Throw (Error "One or more products not found"), Shop.db) /\
  resolves UserSchema.id Shop.u1 (Db.users Shop.db) /\
  resolves ProductSchema.id Shop.p4 (Db.products Shop.db) /\
  ProductSchema.price Shop.P4 = None.
Proof.
  split.
  - rewrite createOrder_unfold.
    cbn [CreateOrderInput.userId CreateOrderInput.productIds].
    rewrite cast_hex.
    change [ObjectId.hex Shop.p4; ObjectId.hex Shop.p4]
      with (map ObjectId.hex [Shop.p4; Shop.p4]).
    rewrite cast_all_hex. reflexivity.
  - split; [exists Shop.U1; simpl; tauto|].
    split; [exists Shop.P4; simpl; tauto | reflexivity].
Qed.

(** C10.  [createOrder] on the shop for the user and the ids [P3, P3],
    where P3 is priced 0: the user and the ids resolve, but the query
    returns P3 once, 1 differs from 2, and the resolver throws "One or
    more products not found" rather than the missing-price error; nothing
    is written. *)
Theorem createOrder_zero_repeated_example _id now status :
  Mutation.createOrder _id now
    (CreateOrderInput.mk (ObjectId.hex Shop.u1)
       [ObjectId.hex Shop.p3; ObjectId.hex Shop.p3] status)
    Shop.db =
  (Throw (Error "One or more products not found"), Shop.db) /\
  resolves UserSchema.id Shop.u1 (Db.users Shop.db) /\
  resolves ProductSchema.id Shop.p3 (Db.products Shop.db) /\
  ProductSchema.price Shop.P3 = Some 0%float.
Proof.
  split.
  - rewrite createOrder_unfold.
    cbn [CreateOrderInput.userId CreateOrderInput.productIds].
    rewrite cast_hex.
    change [ObjectId.hex Shop.p3; ObjectId.hex Shop.p3]
      with (map ObjectId.hex [Shop.p3; Shop.p3]).
    rewrite cast_all_hex. reflexivity.
  - split; [exists Shop.U1; simpl; tauto|].
    split; [exists Shop.P3; simpl; tauto | reflexivity].
Qed.

(** C2, as amended.  [createOrder] throws the cast error of the store
    when [userId] cannot be cast to an ObjectId, "User not found" when it
    can and is the id of no user, and, once the user is found, the cast
    error when a product id cannot be cast and "One or more products not
    found" when the number of products found differs from the number of
    ids requested; whatever it throws, the database, and so the order
    collection, is left as it was. *)
Theorem createOrder_not_found _id now input db :
  (ObjectId.cast (CreateOrderInput.userId input) = None ->
   Mutation.createOrder _id now input db = (Throw CastError, db)) /\
  (forall uid,
     ObjectId.cast (CreateOrderInput.userId input) = Some uid ->
     ~ resolves UserSchema.id uid (Db.users db) ->
     Mutation.createOrder _id now input db =
     (Throw (Error "User not found"), db)) /\
  (forall uid,
     ObjectId.cast (CreateOrderInput.userId input) = Some uid ->
     resolves UserSchema.id uid (Db.users db) ->
     (ObjectId.cast_all (CreateOrderInput.productIds input) = None ->
      Mutation.createOrder _id now input db = (Throw CastError, db)) /\
     (forall pids,
        ObjectId.cast_all (CreateOrderInput.productIds input) = Some pids ->
        List.length (find_in ProductSchema.id pids (Db.products db)) <>
        List.length (CreateOrderInput.productIds input) ->
        Mutation.createOrder _id now input db =
        (Throw (Error "One or more products not found"), db))) /\
  (forall e db',
     Mutation.createOrder _id now input db = (Throw e, db') -> db' = db).
Proof.
  split; [|split; [|split]].
  - intros Hc. now rewrite createOrder_unfold, Hc.
  - intros uid Hc Hu. apply find_by_id_None in Hu.
    now rewrite createOrder_unfold, Hc, Hu.
  - intros uid Hc Hu. destruct (resolves_find Hu) as [u Hf]. split.
    + intros Hp. now rewrite createOrder_unfold, Hc, Hf, Hp.
    + intros pids Hp Hlen. apply Nat.eqb_neq in Hlen.
      rewrite createOrder_unfold, Hc, Hf, Hp. cbv zeta. now rewrite Hlen.
  - intros e db'. apply createOrder_throw_unchanged.
Qed.
End OrderCreation.

(** C2 as first stated fails twice.  A [userId] that is no ObjectId
    string does not resolve, and [createOrder] throws the cast error, not
    "User not found".  And with an unknown user, a count of found
    products that differs from the count of ids gives "User not found",
    not "One or more products not found". *)
Lemma createOrder_not_found_counterexample :
  (forall u, In u (Db.users Shop.db) ->
             ObjectId.hex (UserSchema.id u) <> "not-an-id") /\
  Mutation.createOrder Shop.o3 Shop.now
    (CreateOrderInput.mk "not-an-id" [ObjectId.hex Shop.p1] None) Shop.db =
  (Throw CastError, Shop.db) /\
  @Throw Populated.t CastError <> Throw (Error "User not found") /\
  List.length (find_in ProductSchema.id [Shop.p9] (Db.products Shop.db)) <>
  List.length [ObjectId.hex Shop.p9] /\
  Mutation.createOrder Shop.o3 Shop.now
    (CreateOrderInput.mk (ObjectId.hex Shop.u7) [ObjectId.hex Shop.p9] None)
    Shop.db =
  (Throw (Error "User not found"), Shop.db) /\
  @Throw Populated.t (Error "User not found") <>
  Throw (Error "One or more products not found").
Proof.
  split; [intros u [<- | []]; discriminate|].
  split; [reflexivity|]. split; [discriminate|].
  split; [simpl; lia|]. split; [reflexivity | discriminate].
Qed.

Lemma createOrder_not_found_witness :
  Mutation.createOrder Shop.o3 Shop.now
    (CreateOrderInput.mk "not-an-id" [ObjectId.hex Shop.p1] None) Shop.db =
  (Throw CastError, Shop.db) /\
  Mutation.createOrder Shop.o3 Shop.now
    (CreateOrderInput.mk (ObjectId.hex Shop.u7) [ObjectId.hex Shop.p1] None)
    Shop.db =
  (Throw (Error "User not found"), Shop.db) /\
  Mutation.createOrder Shop.o3 Shop.now
    (CreateOrderInput.mk (ObjectId.hex Shop.u1)
       [ObjectId.hex Shop.p1; ObjectId.hex Shop.p9] None)
    Shop.db =
  (Throw (Error "One or more products not found"), Shop.db).
Proof.
  split; [|split].
  - apply (proj1 (createOrder_not_found Shop.o3 Shop.now
                    (CreateOrderInput.mk "not-an-id" [ObjectId.hex Shop.p1]
                                         None)
                    Shop.db)).
    reflexivity.
  - apply (proj1 (proj2 (createOrder_not_found Shop.o3 Shop.now
                           (CreateOrderInput.mk (ObjectId.hex Shop.u7)
                              [ObjectId.hex Shop.p1] None)
                           Shop.db)) Shop.u7).
    + reflexivity.
    + apply find_by_id_None. reflexivity.
  - destruct (createOrder_not_found Shop.o3 Shop.now
                (CreateOrderInput.mk (ObjectId.hex Shop.u1)
                   [ObjectId.hex Shop.p1; ObjectId.hex Shop.p9] None)
                Shop.db) as (_ & _ & H & _).
    destruct (H Shop.u1) as [_ H'].
    + reflexivity.
    + exists Shop.U1. split; [now left | reflexivity].
    + apply (H' [Shop.p1; Shop.p9]); [reflexivity | simpl; lia].
Defined.

Lemma createOrder_repeated_id_witness :
  Mutation.createOrder Shop.o3 Shop.now
    (CreateOrderInput.mk (ObjectId.hex Shop.u1)
       [ObjectId.hex Shop.p2; "0000000000000000000000B2"] None)
    Shop.db =
  (Throw (Error "One or more products not found"), Shop.db).
Proof.
  apply (@createOrder_repeated_id ObjectId.strict Shop.o3 Shop.now
           (CreateOrderInput.mk (ObjectId.hex Shop.u1)
              [ObjectId.hex Shop.p2; "0000000000000000000000B2"] None)
           Shop.db Shop.u1 [Shop.p2; Shop.p2]).
  - reflexivity.
  - exists Shop.U1. split; [now left | reflexivity].
  - reflexivity.
  - exact Shop_products_unique.
  - intros Hnd. inversion Hnd as [|? ? Hnotin _]. apply Hnotin. now left.
Defined.

Lemma createOrder_totalPrice_witness :
  exists order db',
    Mutation.createOrder Shop.o3 Shop.now
      (CreateOrderInput.mk (ObjectId.hex Shop.u1)
         [ObjectId.hex Shop.p2; ObjectId.hex Shop.p1] None)
      Shop.db =
      (Return (Order.populated db' order), db') /\
    db' = Db.mk (Db.users Shop.db) (Db.products Shop.db)
                (Db.orders Shop.db ++ [order]) /\
    OrderSchema.products order = [Shop.p2; Shop.p1] /\
    OrderSchema.totalPrice order = 25.5%float /\
    Populated.totalPrice (Order.populated db' order) = 25.5%float /\
    Permutation [Shop.p1; Shop.p2] [Shop.p2; Shop.p1].
Proof.
  apply (@createOrder_totalPrice ObjectId.strict Shop.o3 Shop.now
           (CreateOrderInput.mk (ObjectId.hex Shop.u1)
              [ObjectId.hex Shop.p2; ObjectId.hex Shop.p1] None)
           Shop.db Shop.u1 [Shop.p2; Shop.p1]).
  - reflexivity.
  - exists Shop.U1. split; [now left | reflexivity].
  - exact Shop_products_unique.
  - reflexivity.
  - repeat constructor; simpl; intuition discriminate.
  - intros i [<- | [<- | []]].
    + exists Shop.P2. simpl. intuition.
    + exists Shop.P1. simpl. intuition.
  - discriminate.
  - reflexivity.
  - apply find_by_id_None. reflexivity.
Defined.

Lemma createOrder_undefined_price_witness :
  Mutation.createOrder Shop.o3 Shop.now
    (CreateOrderInput.mk (ObjectId.hex Shop.u1)
       [ObjectId.hex Shop.p1; ObjectId.hex Shop.p4] None)
    Shop.db =
  (Throw (Error "Product price is undefined or null"), Shop.db).
Proof.
  apply (@createOrder_undefined_price ObjectId.strict Shop.o3 Shop.now
           (CreateOrderInput.mk (ObjectId.hex Shop.u1)
              [ObjectId.hex Shop.p1; ObjectId.hex Shop.p4] None)
           Shop.db Shop.u1 [Shop.p1; Shop.p4] Shop.P4).
  - reflexivity.
  - exists Shop.U1. split; [now left | reflexivity].
  - reflexivity.
  - exact Shop_products_unique.
  - repeat constructor; simpl; intuition discriminate.
  - intros i [<- | [<- | []]].
    + exists Shop.P1. simpl. tauto.
    + exists Shop.P4. simpl. tauto.
  - simpl. tauto.
  - simpl. tauto.
  - reflexivity.
Defined.

Lemma createOrder_zero_price_witness :
  Mutation.createOrder Shop.o3 Shop.now
    (CreateOrderInput.mk (ObjectId.hex Shop.u1)
       [ObjectId.hex Shop.p3; ObjectId.hex Shop.p1] None)
    Shop.db =
  (Throw (Error "Product price is undefined or null"), Shop.db).
Proof.
  apply (@createOrder_zero_price ObjectId.strict Shop.o3 Shop.now
           (CreateOrderInput.mk (ObjectId.hex Shop.u1)
              [ObjectId.hex Shop.p3; ObjectId.hex Shop.p1] None)
           Shop.db Shop.u1 [Shop.p3; Shop.p1] Shop.P3 0%float).
  - reflexivity.
  - exists Shop.U1. split; [now left | reflexivity].
  - reflexivity.
  - exact Shop_products_unique.
  - repeat constructor; simpl; intuition discriminate.
  - intros i [<- | [<- | []]].
    + exists Shop.P3. simpl. tauto.
    + exists Shop.P1. simpl. tauto.
  - simpl. tauto.
  - simpl. tauto.
  - reflexivity.
  - now left.
Defined.

(** ** More on order creation *)

Lemma SFeqb_refl s : s <> S754_nan -> SFeqb s s = true.
Proof.
  unfold SFeqb, SFcompare. destruct s as [b|b| |b m e]; intros H.
  - reflexivity.
  - now destruct b.
  - congruence.
  - destruct b; rewrite Z.compare_refl; now rewrite Pos.compare_cont_refl.
Qed.

Lemma is_nan_spec x : is_nan x = false <-> Prim2SF x <> S754_nan.
Proof.
  unfold is_nan. rewrite eqb_spec. split.
  - intros H Hn. rewrite Hn in H. discriminate.
  - intros H. now rewrite SFeqb_refl.
Qed.

(** Adding a number to 0 gives a number. *)
Lemma add_zero_not_nan x : is_nan x = false -> is_nan (0 + x)%float = false.
Proof.
  rewrite !is_nan_spec, add_spec.
  replace (Prim2SF 0%float) with (S754_zero false) by reflexivity.
  unfold SF64add, SFadd.
  destruct (Prim2SF x) as [b|b| |b m e]; try congruence.
  now destruct b.
Qed.

Lemma find_in_permuted (doc : Type) (_id : doc -> ObjectId.t) ids ids' c :
  Permutation ids ids' -> find_in _id ids c = find_in _id ids' c.
Proof.
  intros Hperm. unfold find_in. apply filter_ext. intros d.
  destruct (existsb (ObjectId.eqb (_id d)) ids) eqn:He; symmetry.
  - apply existsb_exists in He. destruct He as (i & Hi & Heq).
    apply existsb_exists. exists i.
    split; [exact (Permutation_in _ Hperm Hi) | exact Heq].
  - destruct (existsb (ObjectId.eqb (_id d)) ids') eqn:He'; [|reflexivity].
    apply existsb_exists in He'. destruct He' as (i & Hi & Heq).
    assert (existsb (ObjectId.eqb (_id d)) ids = true) as Ht; [|congruence].
    apply existsb_exists. exists i.
    split; [exact (Permutation_in _ (Permutation_sym Hperm) Hi) | exact Heq].
Qed.

Lemma find_in_single (doc : Type) (_id : doc -> ObjectId.t) i c d :
  unique_ids _id c -> find_by_id _id i c = Some d ->
  find_in _id [i] c = [d].
Proof.
  unfold unique_ids, find_by_id, find_in.
  induction c as [|x c IH]; simpl; intros Hu Hf; [discriminate|].
  inversion Hu as [|? ? Hnotin Hu']; subst.
  unfold has_id in Hf. destruct (ObjectId.eqb (_id x) i) eqn:Hx; simpl.
  - injection Hf as ->. f_equal.
    apply ObjectId_eqb_eq in Hx. subst i.
    clear - Hnotin. induction c as [|y c IH]; simpl; [reflexivity|].
    destruct (ObjectId.eqb (_id y) (_id d)) eqn:Hy; simpl.
    + apply ObjectId_eqb_eq in Hy. exfalso. apply Hnotin. left. exact Hy.
    + apply IH. intros Hin. apply Hnotin. now right.
  - now apply IH.
Qed.

Lemma populated_products_stored db o p :
  In p (Populated.products (Order.populated db o)) ->
  In p (Db.products db) /\ In (ProductSchema.id p) (OrderSchema.products o).
Proof.
  cbn [Order.populated Populated.products].
  induction (OrderSchema.products o) as [|i ids IH]; simpl; [intros []|].
  intros Hin. apply in_app_or in Hin. destruct Hin as [Hin | Hin].
  - destruct (find_by_id ProductSchema.id i (Db.products db)) as [q|] eqn:Hf;
      [|destruct Hin].
    destruct Hin as [<- | []]. apply find_by_id_Some in Hf.
    destruct Hf as [Hq Hi]. split; [exact Hq | left; now symmetry].
  - destruct (IH Hin). split; [assumption | now right].
Qed.

Lemma populated_products_resolved db o :
  (forall i, In i (OrderSchema.products o) ->
             resolves ProductSchema.id i (Db.products db)) ->
  map ProductSchema.id (Populated.products (Order.populated db o)) =
  OrderSchema.products o.
Proof.
  cbn [Order.populated Populated.products].
  induction (OrderSchema.products o) as [|i ids IH]; simpl; [reflexivity|].
  intros Hres. rewrite map_app, IH by (intros j Hj; apply Hres; now right).
  destruct (resolves_find (Hres i (or_introl eq_refl))) as [p Hf].
  rewrite Hf. apply find_by_id_Some in Hf. simpl. now rewrite (proj2 Hf).
Qed.

Section OrderOutcomes.
Context {caster : ObjectId.caster}.

(** A [createOrder] that throws has written nothing, and what it throws
    is one of: the cast error of the store (an id string that is no
    ObjectId), "User not found", "One or more products not found",
    "Product price is undefined or null", the validation error of
    [save()] (for a status outside the enumeration, a total that is NaN,
    or both), or the duplicate key error of the store. *)
Theorem createOrder_throws _id now input db e db' :
  Mutation.createOrder _id now input db = (Throw e, db') ->
  db' = db /\
  (e = CastError \/
   e = Error "User not found" \/
   e = Error "One or more products not found" \/
   e = Error "Product price is undefined or null" \/
   (exists paths,
      e = ValidationError paths /\ paths <> [] /\
      incl paths ["status"; "totalPrice"]) \/
   e = DuplicateKey _id).
Proof.
  intros Hc. split; [exact (createOrder_throw_unchanged _ _ _ _ Hc)|].
  revert Hc. rewrite createOrder_unfold.
  destruct (ObjectId.cast _); [|intros [= <- _]; auto].
  destruct (find_by_id UserSchema.id _ _); [|intros [= <- _]; auto].
  destruct (ObjectId.cast_all _); [|intros [= <- _]; auto].
  cbv zeta. destruct (Nat.eqb _ _); [|intros [= <- _]; auto].
  destruct (reduce _ _ _) as [total|e'] eqn:Hr.
  - destruct (refused _ _) as [|path paths] eqn:Hs.
    + destruct (existsb _ _); [intros [= <- _]; auto 7 | discriminate].
    + intros [= <- _]. do 4 right. left. exists (path :: paths).
      split; [reflexivity|]. split; [discriminate|].
      rewrite <- Hs. unfold refused. intros s Hin.
      apply in_app_or in Hin.
      destruct Hin as [Hin | Hin];
        [destruct (existsb _ _) | destruct (is_nan _)];
        simpl in *; tauto.
  - intros [= <- _]. apply reduce_add_price_throw in Hr. subst e'. auto.
Qed.

(** What a [createOrder] that returns has checked, on a store whose
    product ids are distinct: the user id and the product ids were cast,
    the user exists, the product ids are pairwise distinct and each is
    the id of a stored product with a defined, truthy price, and the new
    [_id] was free.  The order it stores is the last of the collection,
    holds the ids given, refers to the user given, has a total that is a
    number and a status of the enumeration, "placed" when the input
    gives none. *)
Theorem createOrder_returns _id now input db result db' :
  unique_ids ProductSchema.id (Db.products db) ->
  Mutation.createOrder _id now input db = (Return result, db') ->
  exists uid pids,
    ObjectId.cast (CreateOrderInput.userId input) = Some uid /\
    ObjectId.cast_all (CreateOrderInput.productIds input) = Some pids /\
    resolves UserSchema.id uid (Db.users db) /\
    NoDup pids /\
    (forall i, In i pids ->
       exists p, In p (Db.products db) /\ ProductSchema.id p = i /\
                 priceless p = false) /\
    ~ resolves OrderSchema.id _id (Db.orders db) /\
    exists order,
      db' = Db.mk (Db.users db) (Db.products db) (Db.orders db ++ [order]) /\
      result = Order.populated db' order /\
      OrderSchema.id order = _id /\
      OrderSchema.user order = uid /\
      OrderSchema.products order = pids /\
      OrderSchema.createdAt order = now /\
      is_nan (OrderSchema.totalPrice order) = false /\
      In (OrderSchema.status order) OrderSchema.status_enum /\
      (CreateOrderInput.status input = None ->
       OrderSchema.status order = "placed").
Proof.
  intros Hp Hc.
  destruct (createOrder_return_inv _ _ _ _ Hc)
    as (uid & u & pids & total & Hcu & Hu & Hcp & Hlen & Hr & Hs & Hnew
        & -> & ->).
  destruct (@find_in_full _ _ _ _ Hp Hlen) as [Hnd Hall].
  apply refused_nil in Hs. destruct Hs as [Hs Hnan].
  exists uid, pids. repeat (split; [assumption|]). split.
  { apply find_by_id_Some in Hu. now exists u. }
  split; [exact Hnd|]. split.
  { intros i Hi. apply Hall, in_map_iff in Hi.
    destruct Hi as (p & Hid & Hin). exists p.
    split; [|split; [exact Hid|]].
    - unfold find_in in Hin. apply filter_In in Hin. tauto.
    - exact (reduce_add_price_return _ _ Hr p Hin). }
  split; [exact Hnew|].
  eexists. split; [reflexivity|]. split; [reflexivity|].
  cbn [OrderSchema.id OrderSchema.user OrderSchema.products
       OrderSchema.createdAt OrderSchema.status OrderSchema.totalPrice].
  repeat (split; [reflexivity || assumption|]).
  now intros ->.
Qed.

(** Reading back: after a [createOrder] that returned, [order] on the
    string of the new [_id] returns the same populated order, [orders]
    returns the orders of before followed by it, and [userOrders] of its
    user ends with it. *)
Theorem createOrder_read_back _id now input db result db' :
  Mutation.createOrder _id now input db = (Return result, db') ->
  Query.order (ObjectId.hex _id) db' = (Return (Some result), db') /\
  Query.orders db' =
    (Return (map (Order.populated db') (Db.orders db) ++ [result]), db') /\
  exists earlier,
    Query.userOrders (CreateOrderInput.userId input) db' =
    (Return (earlier ++ [result]), db').
Proof.
  intros Hc.
  destruct (createOrder_return_inv _ _ _ _ Hc)
    as (uid & u & pids & total & Hcu & _ & _ & _ & _ & _ & Hnew & -> & ->).
  set (order := OrderSchema.mk _id uid pids
                  (status_of (CreateOrderInput.status input)) total now)
    in *.
  set (db' := Db.mk (Db.users db) (Db.products db) (Db.orders db ++ [order])).
  split; [|split].
  - rewrite order_unfold, cast_hex. cbn [Db.orders db'].
    rewrite (@find_by_id_added _ OrderSchema.id _id (Db.orders db) order)
      by exact Hnew.
    cbn [order OrderSchema.id]. now rewrite ObjectId_eqb_refl.
  - unfold Query.orders, bind, Order.find, Order.populate_all, read.
    cbn [Db.orders db']. now rewrite map_app.
  - eexists. rewrite userOrders_unfold, Hcu.
    cbn [Db.orders db']. rewrite filter_app. simpl filter at 2.
    cbn [order OrderSchema.user]. rewrite ObjectId_eqb_refl.
    now rewrite map_app.
Qed.

(** The order [createOrder] returns is fully hydrated, on a store whose
    product ids are distinct: it carries the user of the input and one
    product per id of the input, in the order of the ids, each with a
    defined price. *)
Theorem createOrder_hydrated _id now input db result db' :
  unique_ids ProductSchema.id (Db.products db) ->
  Mutation.createOrder _id now input db = (Return result, db') ->
  (exists u, Populated.user result = Some u /\
             ObjectId.cast (CreateOrderInput.userId input) =
             Some (UserSchema.id u)) /\
  ObjectId.cast_all (CreateOrderInput.productIds input) =
  Some (map ProductSchema.id (Populated.products result)) /\
  (forall p, In p (Populated.products result) -> priceless p = false) /\
  Populated.id result = _id.
Proof.
  intros Hp Hc.
  destruct (createOrder_return_inv _ _ _ _ Hc)
    as (uid & u & pids & total & Hcu & Hu & Hcp & Hlen & Hr & _ & _
        & -> & ->).
  destruct (@find_in_full _ _ _ _ Hp Hlen) as [_ Hall].
  set (order := OrderSchema.mk _id uid pids
                  (status_of (CreateOrderInput.status input)) total now).
  set (db' := Db.mk (Db.users db) (Db.products db) (Db.orders db ++ [order])).
  split; [|split; [|split; [|reflexivity]]].
  - exists u. cbn [Order.populated Populated.user order OrderSchema.user
                   db' Db.users]. split; [exact Hu|].
    apply find_by_id_Some in Hu. now rewrite (proj2 Hu).
  - rewrite (populated_products_resolved db' order); [exact Hcp|].
    intros i Hi. apply Hall, in_map_iff in Hi.
    destruct Hi as (p & Hid & Hin). exists p. split; [|exact Hid].
    unfold find_in in Hin. apply filter_In in Hin. tauto.
  - intros p Hin.
    destruct (populated_products_stored db' order p Hin) as [Hst Hid].
    apply (reduce_add_price_return _ _ Hr). unfold find_in.
    apply filter_In. split; [exact Hst|].
    apply existsb_exists. exists (ProductSchema.id p).
    split; [exact Hid | apply ObjectId_eqb_refl].
Qed.

(** The order of the product ids does not matter to the outcome: two
    [createOrder] calls that differ in the order of [productIds] alone
    throw the same exception or both return, with the same [totalPrice]
    to the last bit (the prices are added in the order of the
    collection, not of the ids), the same user and the same status. *)
Theorem createOrder_ids_order _id now userId ids ids' status db :
  Permutation ids ids' ->
  match Mutation.createOrder _id now (CreateOrderInput.mk userId ids status) db,
        Mutation.createOrder _id now (CreateOrderInput.mk userId ids' status) db
  with
  | (Return r, _), (Return r', _) =>
      Populated.totalPrice r = Populated.totalPrice r' /\
      Populated.user r = Populated.user r' /\
      Populated.status r = Populated.status r'
  | (Throw e, _), (Throw e', _) => e = e'
  | _, _ => False
  end.
Proof.
  intros Hperm. rewrite !createOrder_unfold.
  cbn [CreateOrderInput.userId CreateOrderInput.productIds
       CreateOrderInput.status].
  destruct (ObjectId.cast userId); [|reflexivity].
  destruct (find_by_id UserSchema.id _ (Db.users db)); [|reflexivity].
  pose proof (cast_all_permuted Hperm) as Hcast.
  destruct (ObjectId.cast_all ids) as [l|], (ObjectId.cast_all ids') as [l'|];
    try easy.
  cbv zeta.
  rewrite <- (find_in_permuted ProductSchema.id (Db.products db) Hcast).
  rewrite <- (Permutation_length Hperm).
  destruct (Nat.eqb _ _); [|reflexivity].
  destruct (reduce _ _ _) as [total|e]; [|reflexivity].
  destruct (refused _ _); [|reflexivity].
  destruct (existsb _ _); [reflexivity|].
  cbn [Order.populated Populated.totalPrice Populated.user Populated.status
       OrderSchema.totalPrice OrderSchema.user OrderSchema.status Db.users].
  repeat split.
Qed.

(** A new order is priced at the price of the moment: once
    [updateProduct] has set the price of a stored product to [x] (a
    number other than 0 and NaN), a [createOrder] for that product alone
    returns the total [0 + x], whatever the price was before. *)
Theorem createOrder_after_updateProduct _id now userId uid id i name
    description image x db p :
  unique_ids ProductSchema.id (Db.products db) ->
  ObjectId.cast id = Some i ->
  find_by_id ProductSchema.id i (Db.products db) = Some p ->
  falsy x = false ->
  ObjectId.cast userId = Some uid ->
  resolves UserSchema.id uid (Db.users db) ->
  ~ resolves OrderSchema.id _id (Db.orders db) ->
  exists result db',
    Mutation.createOrder _id now (CreateOrderInput.mk userId [id] None)
      (snd (Mutation.updateProduct
              (UpdateProductInput.mk id name description (value x) image) db))
    = (Return result, db') /\
    Populated.totalPrice result = (0 + x)%float /\
    exists p', Populated.products result = [p'] /\
               ProductSchema.id p' = i /\ ProductSchema.price p' = Some x.
Proof.
  intros Hu Hci Hf Hx Hcu Huser Hnew.
  assert (is_nan x = false) as Hnan.
  { unfold falsy in Hx. apply orb_false_elim in Hx. tauto. }
  set (input := UpdateProductInput.mk id name description (value x) image).
  rewrite updateProduct_unfold. cbn [UpdateProductInput.id input].
  rewrite Hci. unfold Product.update_casts.
  cbn [update_of Product.price UpdateProductInput.price input].
  rewrite Hnan. cbn [negb]. rewrite Hf. cbn [snd]. fold input.
  set (u := Product.apply_update (update_of input)).
  set (products' := update_by_id ProductSchema.id i u (Db.products db)).
  assert (find_by_id ProductSchema.id i products' = Some (u p)) as Hf'.
  { unfold products'. rewrite find_by_id_updated by reflexivity.
    now rewrite Hf. }
  assert (unique_ids ProductSchema.id products') as Hu'.
  { apply unique_ids_update; [reflexivity | exact Hu]. }
  do 2 eexists. rewrite createOrder_unfold.
  cbn [CreateOrderInput.userId CreateOrderInput.productIds
       CreateOrderInput.status Db.users Db.products Db.orders].
  rewrite Hcu. destruct (resolves_find Huser) as [usr ->].
  cbn [ObjectId.cast_all]. rewrite Hci. cbv zeta.
  fold products'. rewrite (find_in_single _ Hu' Hf').
  simpl Nat.eqb. cbv iota.
  simpl reduce. unfold Mutation.add_price.
  cbn [u Product.apply_update ProductSchema.price update_of input
       UpdateProductInput.price Product.price write_field].
  rewrite Hx.
  assert (refused None (0 + x)%float = []) as ->.
  { apply refused_nil. split; [simpl; tauto | now apply add_zero_not_nan]. }
  rewrite (proj2 (existsb_has_id OrderSchema.id _id (Db.orders db)) Hnew).
  split; [reflexivity|]. split; [reflexivity|].
  eexists. cbn [Order.populated Populated.products OrderSchema.products
                Db.products].
  simpl flat_map. rewrite Hf'. simpl app.
  split; [reflexivity|].
  cbn [u Product.apply_update ProductSchema.id ProductSchema.price update_of
       input UpdateProductInput.price Product.price write_field].
  split; [now apply find_by_id_Some in Hf | reflexivity].
Qed.
End OrderOutcomes.

Lemma createOrder_throws_witness :
  Shop.db = Shop.db /\
  (Error "One or more products not found" = CastError \/
   Error "One or more products not found" = Error "User not found" \/
   Error "One or more products not found" =
     Error "One or more products not found" \/
   Error "One or more products not found" =
     Error "Product price is undefined or null" \/
   (exists paths,
      Error "One or more products not found" = ValidationError paths /\
      paths <> [] /\ incl paths ["status"; "totalPrice"]) \/
   Error "One or more products not found" = DuplicateKey Shop.o3).
Proof.
  apply (@createOrder_throws ObjectId.strict Shop.o3 Shop.now
           (CreateOrderInput.mk (ObjectId.hex Shop.u1)
              [ObjectId.hex Shop.p1; ObjectId.hex Shop.p9] None)
           Shop.db (Error "One or more products not found") Shop.db).
  reflexivity.
Defined.

Lemma createOrder_returns_witness :
  exists uid pids,
    ObjectId.cast (CreateOrderInput.userId Shop.input3) = Some uid /\
    ObjectId.cast_all (CreateOrderInput.productIds Shop.input3)
    = Some pids /\
    resolves UserSchema.id uid (Db.users Shop.db) /\
    NoDup pids /\
    (forall i, In i pids ->
       exists p, In p (Db.products Shop.db) /\ ProductSchema.id p = i /\
                 priceless p = false) /\
    ~ resolves OrderSchema.id Shop.o3 (Db.orders Shop.db) /\
    exists order,
      snd (Mutation.createOrder Shop.o3 Shop.now Shop.input3 Shop.db) =
      Db.mk (Db.users Shop.db) (Db.products Shop.db)
            (Db.orders Shop.db ++ [order]) /\
      Shop.O3 =
      Order.populated
        (snd (Mutation.createOrder Shop.o3 Shop.now Shop.input3 Shop.db))
        order /\
      OrderSchema.id order = Shop.o3 /\
      OrderSchema.user order = uid /\
      OrderSchema.products order = pids /\
      OrderSchema.createdAt order = Shop.now /\
      is_nan (OrderSchema.totalPrice order) = false /\
      In (OrderSchema.status order) OrderSchema.status_enum /\
      (CreateOrderInput.status Shop.input3 = None ->
       OrderSchema.status order = "placed").
Proof.
  apply (@createOrder_returns ObjectId.strict Shop.o3 Shop.now Shop.input3
           Shop.db Shop.O3
           (snd (Mutation.createOrder Shop.o3 Shop.now Shop.input3
                   Shop.db))).
  - exact Shop_products_unique.
  - reflexivity.
Defined.

Lemma createOrder_read_back_witness :
  Query.order (ObjectId.hex Shop.o3)
    (snd (Mutation.createOrder Shop.o3 Shop.now Shop.input3 Shop.db)) =
  (Return (Some Shop.O3),
   snd (Mutation.createOrder Shop.o3 Shop.now Shop.input3 Shop.db)).
Proof.
  refine (proj1 (@createOrder_read_back ObjectId.strict Shop.o3 Shop.now
                   Shop.input3 Shop.db Shop.O3
                   (snd (Mutation.createOrder Shop.o3 Shop.now Shop.input3
                           Shop.db))
                   _)).
  reflexivity.
Defined.

Lemma createOrder_hydrated_witness :
  (exists u, Populated.user Shop.O3 = Some u /\
             ObjectId.cast (CreateOrderInput.userId Shop.input3) =
             Some (UserSchema.id u)) /\
  ObjectId.cast_all (CreateOrderInput.productIds Shop.input3) =
  Some (map ProductSchema.id (Populated.products Shop.O3)) /\
  (forall p, In p (Populated.products Shop.O3) -> priceless p = false) /\
  Populated.id Shop.O3 = Shop.o3.
Proof.
  apply (@createOrder_hydrated ObjectId.strict Shop.o3 Shop.now Shop.input3
           Shop.db Shop.O3
           (snd (Mutation.createOrder Shop.o3 Shop.now Shop.input3
                   Shop.db))).
  - exact Shop_products_unique.
  - reflexivity.
Defined.

Lemma createOrder_ids_order_witness :
  Populated.totalPrice Shop.O3 =
  Populated.totalPrice
    (Populated.mk Shop.o3 (Some Shop.U1) [Shop.P1; Shop.P2] "placed"
                  25.5%float Shop.now) /\
  Populated.user Shop.O3 =
  Populated.user
    (Populated.mk Shop.o3 (Some Shop.U1) [Shop.P1; Shop.P2] "placed"
                  25.5%float Shop.now) /\
  Populated.status Shop.O3 =
  Populated.status
    (Populated.mk Shop.o3 (Some Shop.U1) [Shop.P1; Shop.P2] "placed"
                  25.5%float Shop.now).
Proof.
  apply (@createOrder_ids_order ObjectId.strict Shop.o3 Shop.now
           (ObjectId.hex Shop.u1)
           [ObjectId.hex Shop.p2; ObjectId.hex Shop.p1]
           [ObjectId.hex Shop.p1; ObjectId.hex Shop.p2] None Shop.db).
  apply perm_swap.
Defined.

Lemma createOrder_after_updateProduct_witness :
  exists result db',
    Mutation.createOrder Shop.o3 Shop.now
      (CreateOrderInput.mk (ObjectId.hex Shop.u1) [ObjectId.hex Shop.p3] None)
      (snd (Mutation.updateProduct
              (UpdateProductInput.mk (ObjectId.hex Shop.p3) undefined
                 undefined (value 1.5%float) undefined)
              Shop.db))
    = (Return result, db') /\
    Populated.totalPrice result = 1.5%float /\
    exists p', Populated.products result = [p'] /\
               ProductSchema.id p' = Shop.p3 /\
               ProductSchema.price p' = Some 1.5%float.
Proof.
  apply (@createOrder_after_updateProduct ObjectId.strict Shop.o3 Shop.now
           (ObjectId.hex Shop.u1) Shop.u1 (ObjectId.hex Shop.p3) Shop.p3
           undefined undefined undefined 1.5%float Shop.db Shop.P3).
  - exact Shop_products_unique.
  - reflexivity.
  - reflexivity.
  - reflexivity.
  - reflexivity.
  - exists Shop.U1. split; [now left | reflexivity].
  - apply find_by_id_None. reflexivity.
Defined.

(** ** Status updates *)

Section StatusUpdates.
Context {caster : ObjectId.caster}.

(** C4.  For an order [o] stored under the id the input casts to,
    [updateOrderStatus] returns and rewrites that one document: the
    collection before it and after it in store order, the users and the
    products are the same, and the document written differs from [o] in
    its status alone (same [totalPrice], user, products, [createdAt] and
    [_id]). *)
Theorem updateOrderStatus_frame input db i o :
  ObjectId.cast (UpdateOrderStatusInput.id input) = Some i ->
  find_by_id OrderSchema.id i (Db.orders db) = Some o ->
  exists before after o' result,
    Db.orders db = before ++ o :: after /\
    Mutation.updateOrderStatus input db =
      (Return result,
       Db.mk (Db.users db) (Db.products db) (before ++ o' :: after)) /\
    OrderSchema.status o' = UpdateOrderStatusInput.status input /\
    OrderSchema.totalPrice o' = OrderSchema.totalPrice o /\
    OrderSchema.user o' = OrderSchema.user o /\
    OrderSchema.products o' = OrderSchema.products o /\
    OrderSchema.createdAt o' = OrderSchema.createdAt o /\
    OrderSchema.id o' = OrderSchema.id o.
Proof.
  intros Hc Hf.
  destruct (find_by_id_split _ _ _ Hf) as (before & after & Hb & _ & Hu & _).
  exists before, after,
    (OrderSchema.set_status (UpdateOrderStatusInput.status input) o).
  eexists. split; [exact Hb|].
  rewrite updateOrderStatus_unfold. cbv zeta. rewrite Hc, Hf, Hu.
  repeat split; reflexivity.
Qed.

(** C9.  For an order stored under the id the input casts to and any
    string [status], in the enumeration of the schema or not, and
    whatever the status before, [updateOrderStatus] returns the order
    with that status and the store then holds it under the id with that
    status. *)
Theorem updateOrderStatus_any_status id status db i o :
  ObjectId.cast id = Some i ->
  find_by_id OrderSchema.id i (Db.orders db) = Some o ->
  exists result db',
    Mutation.updateOrderStatus (UpdateOrderStatusInput.mk id status) db =
      (Return result, db') /\
    Populated.status (OrderUpdated.order result) = status /\
    Populated.id (OrderUpdated.order result) = i /\
    find_by_id OrderSchema.id i (Db.orders db') =
      Some (OrderSchema.set_status status o) /\
    OrderSchema.status (OrderSchema.set_status status o) = status.
Proof.
  intros Hc Hf. do 2 eexists.
  rewrite updateOrderStatus_unfold. cbv zeta.
  cbn [UpdateOrderStatusInput.id UpdateOrderStatusInput.status].
  rewrite Hc, Hf. split; [reflexivity|].
  cbn [OrderUpdated.order Order.populated Populated.status Populated.id
       Db.orders OrderSchema.set_status OrderSchema.status OrderSchema.id].
  repeat split.
  - now apply find_by_id_Some in Hf.
  - rewrite find_by_id_update by reflexivity.
    now rewrite ObjectId_eqb_refl, Hf.
Qed.

(** [updateOrderStatus] on an id string that casts to an ObjectId under
    which no order is stored throws "Order with id ... not found", with
    the string in the message, and writes nothing; this is what a status
    update gets after the order was deleted.  On a string that does not
    cast, it throws the cast error and writes nothing. *)
Theorem updateOrderStatus_unknown id status db :
  (forall i,
     ObjectId.cast id = Some i ->
     ~ resolves OrderSchema.id i (Db.orders db) ->
     Mutation.updateOrderStatus (UpdateOrderStatusInput.mk id status) db =
     (Throw (Error ("Order with id " ++ id ++ " not found")%string), db)) /\
  (forall i,
     ObjectId.cast id = Some i ->
     unique_ids OrderSchema.id (Db.orders db) ->
     Mutation.updateOrderStatus (UpdateOrderStatusInput.mk id status)
       (snd (Mutation.deleteOrder id db)) =
     (Throw (Error ("Order with id " ++ id ++ " not found")%string),
      snd (Mutation.deleteOrder id db))) /\
  (ObjectId.cast id = None ->
   Mutation.updateOrderStatus (UpdateOrderStatusInput.mk id status) db =
   (Throw CastError, db)).
Proof.
  assert (forall i d,
            ObjectId.cast id = Some i ->
            find_by_id OrderSchema.id i (Db.orders d) = None ->
            Mutation.updateOrderStatus (UpdateOrderStatusInput.mk id status) d
            = (Throw (Error ("Order with id " ++ id ++ " not found")%string),
               d)) as Hmiss.
  { intros i d Hc Hf. rewrite updateOrderStatus_unfold. cbv zeta.
    cbn [UpdateOrderStatusInput.id]. now rewrite Hc, Hf. }
  split; [|split].
  - intros i Hc Hn. apply (Hmiss i); [exact Hc|]. now apply find_by_id_None.
  - intros i Hc Hu. apply (Hmiss i); [exact Hc|].
    rewrite deleteOrder_unfold, Hc.
    destruct (find_by_id OrderSchema.id i (Db.orders db)) eqn:Hf.
    + cbn [snd Db.orders]. now apply find_by_id_delete.
    + exact Hf.
  - intros Hc. rewrite updateOrderStatus_unfold. cbv zeta.
    cbn [UpdateOrderStatusInput.id]. now rewrite Hc.
Qed.

(** The last status written wins: a status update that follows another
    on the same id gives the result and the database that it gives
    alone. *)
Theorem updateOrderStatus_last_wins id s1 s2 db :
  Mutation.updateOrderStatus (UpdateOrderStatusInput.mk id s2)
    (snd (Mutation.updateOrderStatus (UpdateOrderStatusInput.mk id s1) db)) =
  Mutation.updateOrderStatus (UpdateOrderStatusInput.mk id s2) db.
Proof.
  rewrite !updateOrderStatus_unfold. cbv zeta.
  cbn [UpdateOrderStatusInput.id UpdateOrderStatusInput.status].
  destruct (ObjectId.cast id) as [i|]; [|reflexivity].
  destruct (find_by_id OrderSchema.id i (Db.orders db)) as [o|] eqn:Hf.
  - cbn [snd Db.orders Db.users Db.products].
    rewrite find_by_id_updated by reflexivity. rewrite Hf. simpl option_map.
    rewrite (@update_by_id_twice _ OrderSchema.id i
               (OrderSchema.set_status s1) (OrderSchema.set_status s2)
               (OrderSchema.set_status s2)); reflexivity.
  - cbn [snd]. now rewrite Hf.
Qed.

(** ** Deleting an order *)

(** C6, as amended.  On an id string the store casts to an ObjectId,
    [deleteOrder] returns a message and does not throw.  When an order
    is stored under the id, the message is "Order Deleted" and that
    document is taken out of the collection, the rest staying in place;
    when none is, the message is "Order already deleted" and the
    database is as it was.  With ids a key of the collection, a second
    call on the same id therefore answers "Order already deleted".  On a
    string the store cannot cast, [deleteOrder] throws the cast error
    and writes nothing. *)
Theorem deleteOrder_idempotent id db :
  (forall i,
     ObjectId.cast id = Some i ->
     (exists status db', Mutation.deleteOrder id db = (Return status, db')) /\
     (forall o,
        find_by_id OrderSchema.id i (Db.orders db) = Some o ->
        exists before after,
          Db.orders db = before ++ o :: after /\
          Mutation.deleteOrder id db =
            (Return (Status.mk "Order Deleted"),
             Db.mk (Db.users db) (Db.products db) (before ++ after))) /\
     (~ resolves OrderSchema.id i (Db.orders db) ->
      Mutation.deleteOrder id db =
        (Return (Status.mk "Order already deleted"), db)) /\
     (unique_ids OrderSchema.id (Db.orders db) ->
      resolves OrderSchema.id i (Db.orders db) ->
      exists db1,
        Mutation.deleteOrder id db =
          (Return (Status.mk "Order Deleted"), db1) /\
        ~ resolves OrderSchema.id i (Db.orders db1) /\
        Mutation.deleteOrder id db1 =
          (Return (Status.mk "Order already deleted"), db1))) /\
  (ObjectId.cast id = None ->
   Mutation.deleteOrder id db = (Throw CastError, db)).
Proof.
  split.
  - intros i Hc. repeat split.
    + rewrite deleteOrder_unfold, Hc.
      destruct (find_by_id OrderSchema.id i (Db.orders db)); eauto.
    + intros o Hf.
      destruct (find_by_id_split _ _ _ Hf)
        as (before & after & Hb & _ & _ & Hd).
      exists before, after. split; [exact Hb|].
      now rewrite deleteOrder_unfold, Hc, Hf, Hd.
    + intros Hn. apply find_by_id_None in Hn.
      now rewrite deleteOrder_unfold, Hc, Hn.
    + intros Hu Hr. destruct (resolves_find Hr) as [o Hf].
      eexists. rewrite deleteOrder_unfold, Hc, Hf.
      split; [reflexivity|].
      pose proof (find_by_id_delete i Hu) as Hgone.
      split.
      * now apply find_by_id_None.
      * rewrite deleteOrder_unfold, Hc. cbn [Db.orders]. now rewrite Hgone.
  - intros Hc. now rewrite deleteOrder_unfold, Hc.
Qed.

(** ** The total of a stored order *)

Lemma populated_totalPrice db o :
  Populated.totalPrice (Order.populated db o) = OrderSchema.totalPrice o.
Proof. reflexivity. Qed.

Lemma updateProduct_orders input db :
  Db.orders (snd (Mutation.updateProduct input db)) = Db.orders db.
Proof.
  rewrite updateProduct_unfold.
  destruct (ObjectId.cast _); [|reflexivity].
  destruct (Product.update_casts _); [|reflexivity].
  destruct (find_by_id ProductSchema.id _ (Db.products db)); reflexivity.
Qed.

(** C5.  The reads [orders], [order] and [userOrders] leave the database
    as it is, whether they return or throw, and return each stored order
    populated, with the [totalPrice] that is stored (nothing is
    recomputed from the products); [updateProduct] leaves the order
    collection as it is.  So an order read after a product of it changed
    price still shows the total stored when it was created. *)
Theorem totalPrice_fixed db :
  Query.orders db = (Return (map (Order.populated db) (Db.orders db)), db) /\
  (forall id,
     snd (Query.order id db) = db /\
     forall i, ObjectId.cast id = Some i ->
       Query.order id db =
       (Return (option_map (Order.populated db)
                  (find_by_id OrderSchema.id i (Db.orders db))), db)) /\
  (forall userId,
     snd (Query.userOrders userId db) = db /\
     forall u, ObjectId.cast userId = Some u ->
       Query.userOrders userId db =
       (Return (map (Order.populated db)
                  (filter (fun o => ObjectId.eqb (OrderSchema.user o) u)
                          (Db.orders db))), db)) /\
  (forall db' o,
     Populated.totalPrice (Order.populated db' o) = OrderSchema.totalPrice o) /\
  (forall input,
     Db.orders (snd (Mutation.updateProduct input db)) = Db.orders db) /\
  (forall input id i o,
     ObjectId.cast id = Some i ->
     find_by_id OrderSchema.id i (Db.orders db) = Some o ->
     exists read,
       Query.order id (snd (Mutation.updateProduct input db)) =
         (Return (Some read), snd (Mutation.updateProduct input db)) /\
       Populated.totalPrice read = OrderSchema.totalPrice o).
Proof.
  split; [reflexivity|].
  split.
  { intros id. rewrite order_unfold. split; [reflexivity|].
    now intros i ->. }
  split.
  { intros userId. rewrite userOrders_unfold. split; [reflexivity|].
    now intros u ->. }
  split; [reflexivity|].
  split; [intros input; apply updateProduct_orders|].
  intros input id i o Hc Hf. eexists.
  rewrite order_unfold, Hc, updateProduct_orders, Hf. split; reflexivity.
Qed.
End StatusUpdates.

Lemma updateOrderStatus_frame_witness :
  exists before after o' result,
    Db.orders Shop.db = before ++ Shop.O2 :: after /\
    Mutation.updateOrderStatus
      (UpdateOrderStatusInput.mk (ObjectId.hex Shop.o2) "delivered")
      Shop.db =
      (Return result,
       Db.mk (Db.users Shop.db) (Db.products Shop.db)
             (before ++ o' :: after)) /\
    OrderSchema.status o' = "delivered" /\
    OrderSchema.totalPrice o' = 15.5%float /\
    OrderSchema.user o' = Shop.u1 /\
    OrderSchema.products o' = [Shop.p2] /\
    OrderSchema.createdAt o' = "2023-03-02T10:00:00.000Z" /\
    OrderSchema.id o' = Shop.o2.
Proof.
  apply (@updateOrderStatus_frame ObjectId.strict
           (UpdateOrderStatusInput.mk (ObjectId.hex Shop.o2) "delivered")
           Shop.db Shop.o2 Shop.O2); reflexivity.
Defined.

Lemma updateOrderStatus_any_status_witness :
  (exists result db',
     Mutation.updateOrderStatus
       (UpdateOrderStatusInput.mk (ObjectId.hex Shop.o1) "shipped") Shop.db
     = (Return result, db') /\
     Populated.status (OrderUpdated.order result) = "shipped" /\
     Populated.id (OrderUpdated.order result) = Shop.o1 /\
     find_by_id OrderSchema.id Shop.o1 (Db.orders db') =
       Some (OrderSchema.set_status "shipped" Shop.O1) /\
     OrderSchema.status (OrderSchema.set_status "shipped" Shop.O1) =
       "shipped") /\
  (exists result db',
     Mutation.updateOrderStatus
       (UpdateOrderStatusInput.mk (ObjectId.hex Shop.o1) "lost") Shop.db
     = (Return result, db') /\
     Populated.status (OrderUpdated.order result) = "lost" /\
     Populated.id (OrderUpdated.order result) = Shop.o1 /\
     find_by_id OrderSchema.id Shop.o1 (Db.orders db') =
       Some (OrderSchema.set_status "lost" Shop.O1) /\
     OrderSchema.status (OrderSchema.set_status "lost" Shop.O1) = "lost").
Proof.
  split.
  - apply (@updateOrderStatus_any_status ObjectId.strict
             (ObjectId.hex Shop.o1) "shipped" Shop.db Shop.o1 Shop.O1);
      reflexivity.
  - apply (@updateOrderStatus_any_status ObjectId.strict
             (ObjectId.hex Shop.o1) "lost" Shop.db Shop.o1 Shop.O1);
      reflexivity.
Defined.

Lemma updateOrderStatus_unknown_witness :
  Mutation.updateOrderStatus
    (UpdateOrderStatusInput.mk (ObjectId.hex Shop.o9) "shipped") Shop.db =
  (Throw (Error "Order with id 0000000000000000000000c9 not found"),
   Shop.db) /\
  Mutation.updateOrderStatus
    (UpdateOrderStatusInput.mk (ObjectId.hex Shop.o1) "shipped")
    (snd (Mutation.deleteOrder (ObjectId.hex Shop.o1) Shop.db)) =
  (Throw (Error "Order with id 0000000000000000000000c1 not found"),
   snd (Mutation.deleteOrder (ObjectId.hex Shop.o1) Shop.db)) /\
  Mutation.updateOrderStatus
    (UpdateOrderStatusInput.mk "not-an-id" "shipped") Shop.db =
  (Throw CastError, Shop.db).
Proof.
  split; [|split].
  - apply (proj1 (@updateOrderStatus_unknown ObjectId.strict
                    (ObjectId.hex Shop.o9) "shipped" Shop.db) Shop.o9).
    + reflexivity.
    + apply find_by_id_None. reflexivity.
  - apply (proj1 (proj2 (@updateOrderStatus_unknown ObjectId.strict
                           (ObjectId.hex Shop.o1) "shipped" Shop.db))
             Shop.o1).
    + reflexivity.
    + exact Shop_orders_unique.
  - apply (proj2 (proj2 (@updateOrderStatus_unknown ObjectId.strict
                           "not-an-id" "shipped" Shop.db))).
    reflexivity.
Defined.

(** C6 as first stated fails on an id string that is no ObjectId:
    [deleteOrder] throws the cast error. *)
Lemma deleteOrder_idempotent_counterexample :
  Mutation.deleteOrder "not-an-id" Shop.db = (Throw CastError, Shop.db) /\
  forall status db',
    Mutation.deleteOrder "not-an-id" Shop.db <> (Return status, db').
Proof. split; [reflexivity | discriminate]. Qed.

Lemma deleteOrder_idempotent_witness :
  (exists db1,
     Mutation.deleteOrder (ObjectId.hex Shop.o1) Shop.db =
       (Return (Status.mk "Order Deleted"), db1) /\
     ~ resolves OrderSchema.id Shop.o1 (Db.orders db1) /\
     Mutation.deleteOrder (ObjectId.hex Shop.o1) db1 =
       (Return (Status.mk "Order already deleted"), db1)) /\
  Mutation.deleteOrder "not-an-id" Shop.db = (Throw CastError, Shop.db).
Proof.
  split.
  - destruct (proj1 (@deleteOrder_idempotent ObjectId.strict
                       (ObjectId.hex Shop.o1) Shop.db) Shop.o1 eq_refl)
      as (_ & _ & _ & H).
    apply H.
    + exact Shop_orders_unique.
    + exists Shop.O1. split; [now left | reflexivity].
  - apply (proj2 (@deleteOrder_idempotent ObjectId.strict "not-an-id"
                    Shop.db)).
    reflexivity.
Defined.

Lemma totalPrice_fixed_witness :
  exists read,
    Query.order (ObjectId.hex Shop.o1)
      (snd (Mutation.updateProduct
              (UpdateProductInput.mk (ObjectId.hex Shop.p2) undefined
                 undefined (value 99%float) undefined)
              Shop.db)) =
      (Return (Some read),
       snd (Mutation.updateProduct
              (UpdateProductInput.mk (ObjectId.hex Shop.p2) undefined
                 undefined (value 99%float) undefined)
              Shop.db)) /\
    Populated.totalPrice read = 25.5%float.
Proof.
  apply (proj2 (proj2 (proj2 (proj2 (proj2
           (@totalPrice_fixed ObjectId.strict Shop.db)))))
           (UpdateProductInput.mk (ObjectId.hex Shop.p2) undefined undefined
              (value 99%float) undefined)
           (ObjectId.hex Shop.o1) Shop.o1 Shop.O1); reflexivity.
Defined.

(** The order read back in that example: its products show the new price
    of the ink, its total is the old one. *)
Example order_after_price_change :
  fst (Query.order (ObjectId.hex Shop.o1)
         (snd (Mutation.updateProduct
                 (UpdateProductInput.mk (ObjectId.hex Shop.p2) undefined
                    undefined (value 99%float) undefined)
                 Shop.db))) =
  Return (Some (Populated.mk Shop.o1 (Some Shop.U1)
                  [Shop.P1;
                   ProductSchema.mk Shop.p2 (Some "ink")
                     (Some "a bottle of ink") (Some 99%float)
                     (Some "ink.png")]
                  "placed" 25.5%float "2023-03-01T10:00:00.000Z")).
Proof. reflexivity. Qed.

(** ** The catalog *)

Section Catalog.
Context {caster : ObjectId.caster}.

(** [createProduct] with a price that is NaN throws the validation error
    of [save()] on the path [price] and writes nothing.  With any other
    price, a product created under a fresh [_id] carries the fields of
    the input; [getProduct] then returns it under the string of that
    [_id] and what it returned before under every string that casts to
    another id or to none, [products] lists it last, and the users and
    the orders are as they were. *)
Theorem createProduct_getProduct _id input db :
  (is_nan (ProductInput.price input) = true ->
   Mutation.createProduct _id input db =
   (Throw (ValidationError ["price"]), db)) /\
  (is_nan (ProductInput.price input) = false ->
   ~ resolves ProductSchema.id _id (Db.products db) ->
   exists product db',
     Mutation.createProduct _id input db = (Return product, db') /\
     product =
       ProductSchema.mk _id (Some (ProductInput.name input))
         (Some (ProductInput.description input))
         (Some (ProductInput.price input))
         (Some (ProductInput.image input)) /\
     Query.getProduct (ObjectId.hex _id) db' = (Return (Some product), db') /\
     (forall id, ObjectId.cast id <> Some _id ->
        fst (Query.getProduct id db') = fst (Query.getProduct id db)) /\
     Query.products db' = (Return (Db.products db ++ [product]), db') /\
     Db.users db' = Db.users db /\ Db.orders db' = Db.orders db).
Proof.
  split.
  - intros Hnan. rewrite createProduct_unfold. cbv zeta. now rewrite Hnan.
  - intros Hnum Hnew. do 2 eexists. rewrite createProduct_unfold. cbv zeta.
    rewrite Hnum,
      (proj2 (existsb_has_id ProductSchema.id _id (Db.products db)) Hnew).
    split; [reflexivity|]. split; [reflexivity|].
    split; [|split; [|repeat split]].
    + rewrite getProduct_unfold, cast_hex. cbn [Db.products].
      rewrite find_by_id_added by exact Hnew.
      cbn [ProductSchema.id]. now rewrite ObjectId_eqb_refl.
    + intros id Hid. rewrite !getProduct_unfold. cbn [fst Db.products].
      destruct (ObjectId.cast id) as [i|]; [|reflexivity].
      rewrite find_by_id_added by exact Hnew.
      cbn [ProductSchema.id].
      destruct (ObjectId.eqb _id i) eqn:He; [|reflexivity].
      apply ObjectId_eqb_eq in He. congruence.
Qed.

(** [updateProduct] throws the cast error, and writes nothing, on an id
    string that is no ObjectId and on a price that is NaN.  Otherwise it
    does not throw.  On an id under which no product is stored it
    returns [null] and writes nothing.  On a stored product it returns
    the updated product, which keeps its [_id]; each field is left as it
    was when the input leaves it undefined, cleared when the input gives
    [null], and set when the input gives a value.  [getProduct] then
    returns the updated product, the other lookups return what they did,
    and the users and the orders are as they were. *)
Theorem updateProduct_result input db :
  (ObjectId.cast (UpdateProductInput.id input) = None ->
   Mutation.updateProduct input db = (Throw CastError, db)) /\
  (forall x, UpdateProductInput.price input = value x -> is_nan x = true ->
   Mutation.updateProduct input db = (Throw CastError, db)) /\
  (forall i,
     ObjectId.cast (UpdateProductInput.id input) = Some i ->
     (forall x, UpdateProductInput.price input = value x ->
                is_nan x = false) ->
     (~ resolves ProductSchema.id i (Db.products db) ->
      Mutation.updateProduct input db = (Return None, db)) /\
     (forall p,
        find_by_id ProductSchema.id i (Db.products db) = Some p ->
        exists p' db',
          Mutation.updateProduct input db = (Return (Some p'), db') /\
          ProductSchema.id p' = i /\
          (UpdateProductInput.name input = undefined ->
           ProductSchema.name p' = ProductSchema.name p) /\
          (UpdateProductInput.name input = null ->
           ProductSchema.name p' = None) /\
          (forall n, UpdateProductInput.name input = value n ->
                     ProductSchema.name p' = Some n) /\
          (UpdateProductInput.description input = undefined ->
           ProductSchema.description p' = ProductSchema.description p) /\
          (UpdateProductInput.description input = null ->
           ProductSchema.description p' = None) /\
          (forall d, UpdateProductInput.description input = value d ->
                     ProductSchema.description p' = Some d) /\
          (UpdateProductInput.price input = undefined ->
           ProductSchema.price p' = ProductSchema.price p) /\
          (UpdateProductInput.price input = null ->
           ProductSchema.price p' = None) /\
          (forall x, UpdateProductInput.price input = value x ->
                     ProductSchema.price p' = Some x) /\
          (UpdateProductInput.image input = undefined ->
           ProductSchema.image p' = ProductSchema.image p) /\
          (UpdateProductInput.image input = null ->
           ProductSchema.image p' = None) /\
          (forall s, UpdateProductInput.image input = value s ->
                     ProductSchema.image p' = Some s) /\
          Query.getProduct (UpdateProductInput.id input) db' =
            (Return (Some p'), db') /\
          (forall id, ObjectId.cast id <> Some i ->
             fst (Query.getProduct id db') = fst (Query.getProduct id db)) /\
          Db.users db' = Db.users db /\ Db.orders db' = Db.orders db)).
Proof.
  split; [|split].
  - intros Hc. now rewrite updateProduct_unfold, Hc.
  - intros x Hx Hnan. rewrite updateProduct_unfold.
    destruct (ObjectId.cast _); [|reflexivity].
    unfold Product.update_casts, update_of. cbn [Product.price].
    now rewrite Hx, Hnan.
  - intros i Hc Hnum.
    assert (Product.update_casts (update_of input) = true) as Hcasts.
    { unfold Product.update_casts, update_of. cbn [Product.price].
      destruct (UpdateProductInput.price input) as [| |x] eqn:Hx;
        try reflexivity.
      now rewrite (Hnum x eq_refl). }
    split.
    + intros Hn. apply find_by_id_None in Hn.
      now rewrite updateProduct_unfold, Hc, Hcasts, Hn.
    + intros p Hf. do 2 eexists.
      rewrite updateProduct_unfold, Hc, Hcasts, Hf.
      split; [reflexivity|].
      cbn [Db.products Db.users Db.orders Product.apply_update update_of
           Product.name Product.description Product.price Product.image
           ProductSchema.id ProductSchema.name ProductSchema.description
           ProductSchema.price ProductSchema.image].
      split; [now apply find_by_id_Some in Hf|].
      split; [now intros ->|]. split; [now intros ->|].
      split; [now intros n ->|].
      split; [now intros ->|]. split; [now intros ->|].
      split; [now intros d ->|].
      split; [now intros ->|]. split; [now intros ->|].
      split; [now intros x ->|].
      split; [now intros ->|]. split; [now intros ->|].
      split; [now intros s ->|].
      split; [|split; [|split; reflexivity]].
      * rewrite getProduct_unfold, Hc. cbn [Db.products].
        rewrite find_by_id_updated by reflexivity. now rewrite Hf.
      * intros id Hid. rewrite !getProduct_unfold. cbn [fst Db.products].
        destruct (ObjectId.cast id) as [j|]; [|reflexivity].
        rewrite find_by_id_update_other; [reflexivity | reflexivity |].
        congruence.
Qed.

(** On an id string the store casts to an ObjectId, [deleteProduct] does
    not throw.  On a stored product it answers "Product deleted" and
    takes that document out, the other products, the users and the
    orders staying as they are; on an id under which nothing is stored
    it answers "Product already deleted" and writes nothing.  With ids a
    key, [getProduct] then returns [null] for the id and a second
    [deleteProduct] answers "Product already deleted".  On a string the
    store cannot cast, [deleteProduct] throws the cast error and writes
    nothing. *)
Theorem deleteProduct_idempotent id db :
  (forall i,
     ObjectId.cast id = Some i ->
     (forall p,
        find_by_id ProductSchema.id i (Db.products db) = Some p ->
        exists before after,
          Db.products db = before ++ p :: after /\
          Mutation.deleteProduct id db =
            (Return (Status.mk "Product deleted"),
             Db.mk (Db.users db) (before ++ after) (Db.orders db))) /\
     (~ resolves ProductSchema.id i (Db.products db) ->
      Mutation.deleteProduct id db =
        (Return (Status.mk "Product already deleted"), db)) /\
     (unique_ids ProductSchema.id (Db.products db) ->
      resolves ProductSchema.id i (Db.products db) ->
      exists db1,
        Mutation.deleteProduct id db =
          (Return (Status.mk "Product deleted"), db1) /\
        Query.getProduct id db1 = (Return None, db1) /\
        Mutation.deleteProduct id db1 =
          (Return (Status.mk "Product already deleted"), db1))) /\
  (ObjectId.cast id = None ->
   Mutation.deleteProduct id db = (Throw CastError, db)).
Proof.
  split.
  - intros i Hc. split; [|split].
    + intros p Hf.
      destruct (find_by_id_split _ _ _ Hf)
        as (before & after & Hb & _ & _ & Hd).
      exists before, after. split; [exact Hb|].
      now rewrite deleteProduct_unfold, Hc, Hf, Hd.
    + intros Hn. apply find_by_id_None in Hn.
      now rewrite deleteProduct_unfold, Hc, Hn.
    + intros Hu Hr. destruct (resolves_find Hr) as [p Hf].
      eexists. rewrite deleteProduct_unfold, Hc, Hf.
      split; [reflexivity|].
      pose proof (find_by_id_delete i Hu) as Hgone.
      split.
      * rewrite getProduct_unfold, Hc. cbn [Db.products]. now rewrite Hgone.
      * rewrite deleteProduct_unfold, Hc. cbn [Db.products].
        now rewrite Hgone.
  - intros Hc. now rewrite deleteProduct_unfold, Hc.
Qed.

(** ** Reads and hydration *)

(** Hydration.  The user of a populated order, when there is one, is the
    stored user the order refers to; its products are stored products the
    order refers to.  When every reference of the order resolves, the
    populated order carries the user and one product per reference, in
    the order of the references, repeats included. *)
Theorem populate_references db o :
  (forall u, Populated.user (Order.populated db o) = Some u ->
     In u (Db.users db) /\ UserSchema.id u = OrderSchema.user o) /\
  (forall p, In p (Populated.products (Order.populated db o)) ->
     In p (Db.products db) /\
     In (ProductSchema.id p) (OrderSchema.products o)) /\
  (resolves UserSchema.id (OrderSchema.user o) (Db.users db) ->
   (forall i, In i (OrderSchema.products o) ->
      resolves ProductSchema.id i (Db.products db)) ->
   (exists u, Populated.user (Order.populated db o) = Some u /\
              UserSchema.id u = OrderSchema.user o) /\
   map ProductSchema.id (Populated.products (Order.populated db o)) =
   OrderSchema.products o).
Proof.
  split; [|split].
  - intros u Hu. cbn [Order.populated Populated.user] in Hu.
    now apply find_by_id_Some in Hu.
  - intros p. apply populated_products_stored.
  - intros Hu Hp. split; [|now apply populated_products_resolved].
    destruct (resolves_find Hu) as [u Hf]. exists u.
    cbn [Order.populated Populated.user]. split; [exact Hf|].
    now apply find_by_id_Some in Hf.
Qed.

(** Looking up an id that is not stored is no error: on an id string
    that casts to an ObjectId, [order] and [getProduct] return [null]
    exactly when nothing is stored under the id, and otherwise a
    document with that id.  On a string that does not cast they throw
    the cast error.  Neither writes. *)
Theorem lookups_return_null id db :
  (forall i,
     ObjectId.cast id = Some i ->
     (exists result,
        Query.order id db = (Return result, db) /\
        (result = None <-> ~ resolves OrderSchema.id i (Db.orders db)) /\
        (forall o, result = Some o ->
           Populated.id o = i /\
           exists stored, In stored (Db.orders db) /\
                          o = Order.populated db stored)) /\
     (exists result,
        Query.getProduct id db = (Return result, db) /\
        (result = None <-> ~ resolves ProductSchema.id i (Db.products db)) /\
        (forall p, result = Some p ->
           ProductSchema.id p = i /\ In p (Db.products db)))) /\
  (ObjectId.cast id = None ->
   Query.order id db = (Throw CastError, db) /\
   Query.getProduct id db = (Throw CastError, db)).
Proof.
  split.
  - intros i Hc. split.
    + rewrite order_unfold, Hc.
      destruct (find_by_id OrderSchema.id i (Db.orders db)) as [o|] eqn:Hf.
      * eexists. split; [reflexivity|]. split.
        -- split; [discriminate|]. intros Hn.
           apply find_by_id_None in Hn. congruence.
        -- intros p [= <-]. apply find_by_id_Some in Hf.
           split; [exact (proj2 Hf)|]. exists o. tauto.
      * eexists. split; [reflexivity|]. split.
        -- split; [intros _; now apply find_by_id_None | reflexivity].
        -- discriminate.
    + rewrite getProduct_unfold, Hc.
      eexists. split; [reflexivity|]. split.
      * apply find_by_id_None.
      * intros p Hf. apply find_by_id_Some in Hf. tauto.
  - intros Hc. now rewrite order_unfold, getProduct_unfold, Hc.
Qed.

(** On a user id string that casts to an ObjectId, [userOrders] returns
    the orders of that user and no other: each the populated form of a
    stored order that refers to the user, every such order among them,
    in store order; for a user without orders, stored or not, the empty
    list.  On a string that does not cast it throws the cast error.  It
    does not write. *)
Theorem userOrders_of_user userId db :
  (forall u,
     ObjectId.cast userId = Some u ->
     exists result,
       Query.userOrders userId db = (Return result, db) /\
       (forall p, In p result ->
          exists o, In o (Db.orders db) /\ OrderSchema.user o = u /\
                    p = Order.populated db o) /\
       (forall o, In o (Db.orders db) -> OrderSchema.user o = u ->
          In (Order.populated db o) result) /\
       map Populated.id result =
         map OrderSchema.id
           (filter (fun o => ObjectId.eqb (OrderSchema.user o) u)
                   (Db.orders db)) /\
       ((forall o, In o (Db.orders db) -> OrderSchema.user o <> u) ->
        result = [])) /\
  (ObjectId.cast userId = None ->
   Query.userOrders userId db = (Throw CastError, db)).
Proof.
  split.
  - intros u Hc. eexists. rewrite userOrders_unfold, Hc.
    split; [reflexivity|]. split; [|split; [|split]].
    + intros p Hin. apply in_map_iff in Hin. destruct Hin as (o & <- & Hin).
      apply filter_In in Hin. destruct Hin as [Hin Hu].
      apply ObjectId_eqb_eq in Hu. now exists o.
    + intros o Hin Hu. apply in_map, filter_In. split; [exact Hin|].
      now apply ObjectId_eqb_eq.
    + rewrite map_map. reflexivity.
    + intros Hnone.
      induction (Db.orders db) as [|o l IH]; simpl; [reflexivity|].
      assert (ObjectId.eqb (OrderSchema.user o) u = false) as ->.
      { apply ObjectId_eqb_neq, Hnone. now left. }
      apply IH. intros o' Hin. apply Hnone. now right.
  - intros Hc. now rewrite userOrders_unfold, Hc.
Qed.
End Catalog.

Lemma createProduct_getProduct_witness :
  Mutation.createProduct Shop.p5
    (ProductInput.mk "nib" "a steel nib" nan "nib.png") Shop.db =
  (Throw (ValidationError ["price"]), Shop.db) /\
  exists product db',
    Mutation.createProduct Shop.p5
      (ProductInput.mk "nib" "a steel nib" 2.25%float "nib.png") Shop.db =
      (Return product, db') /\
    product =
      ProductSchema.mk Shop.p5 (Some "nib") (Some "a steel nib")
        (Some 2.25%float) (Some "nib.png") /\
    Query.getProduct "0000000000000000000000b5" db' =
      (Return (Some product), db') /\
    (forall id, ObjectId.cast id <> Some Shop.p5 ->
       fst (Query.getProduct id db') = fst (Query.getProduct id Shop.db)) /\
    Query.products db' = (Return (Db.products Shop.db ++ [product]), db') /\
    Db.users db' = Db.users Shop.db /\ Db.orders db' = Db.orders Shop.db.
Proof.
  split.
  - apply (proj1 (@createProduct_getProduct ObjectId.strict Shop.p5
                    (ProductInput.mk "nib" "a steel nib" nan "nib.png")
                    Shop.db)).
    reflexivity.
  - apply (proj2 (@createProduct_getProduct ObjectId.strict Shop.p5
                    (ProductInput.mk "nib" "a steel nib" 2.25%float
                       "nib.png")
                    Shop.db)).
    + reflexivity.
    + apply find_by_id_None. reflexivity.
Defined.

Lemma updateProduct_result_witness :
  Mutation.updateProduct
    (UpdateProductInput.mk "not-an-id" undefined undefined (value 1%float)
       undefined) Shop.db =
  (Throw CastError, Shop.db) /\
  Mutation.updateProduct
    (UpdateProductInput.mk (ObjectId.hex Shop.p4) undefined undefined
       (value nan) undefined) Shop.db =
  (Throw CastError, Shop.db) /\
  Mutation.updateProduct
    (UpdateProductInput.mk (ObjectId.hex Shop.p9) undefined undefined
       (value 1%float) undefined) Shop.db =
  (Return None, Shop.db) /\
  exists p' db',
    Mutation.updateProduct
      (UpdateProductInput.mk (ObjectId.hex Shop.p4) (value "sketch") null
         (value 3%float) undefined)
      Shop.db = (Return (Some p'), db') /\
    ProductSchema.id p' = Shop.p4 /\
    ProductSchema.name p' = Some "sketch" /\
    ProductSchema.description p' = None /\
    ProductSchema.price p' = Some 3%float /\
    ProductSchema.image p' = ProductSchema.image Shop.P4 /\
    Query.getProduct (ObjectId.hex Shop.p4) db' = (Return (Some p'), db').
Proof.
  split; [|split; [|split]].
  - apply (proj1 (@updateProduct_result ObjectId.strict
                    (UpdateProductInput.mk "not-an-id" undefined undefined
                       (value 1%float) undefined)
                    Shop.db)).
    reflexivity.
  - apply (proj1 (proj2 (@updateProduct_result ObjectId.strict
                           (UpdateProductInput.mk (ObjectId.hex Shop.p4)
                              undefined undefined (value nan) undefined)
                           Shop.db)) nan); reflexivity.
  - apply (proj2 (proj2 (@updateProduct_result ObjectId.strict
                           (UpdateProductInput.mk (ObjectId.hex Shop.p9)
                              undefined undefined (value 1%float) undefined)
                           Shop.db)) Shop.p9).
    + reflexivity.
    + now intros x [= <-].
    + apply find_by_id_None. reflexivity.
  - destruct (proj2 (proj2 (@updateProduct_result ObjectId.strict
                              (UpdateProductInput.mk (ObjectId.hex Shop.p4)
                                 (value "sketch") null (value 3%float)
                                 undefined)
                              Shop.db)) Shop.p4) as [_ H].
    + reflexivity.
    + now intros x [= <-].
    + destruct (H Shop.P4 eq_refl)
        as (p' & db' & Hup & Hid & _ & _ & Hname & _ & Hdesc & _ & _ & _ &
            Hprice & Himage & _ & _ & Hget & _).
      exists p', db'. split; [exact Hup|]. split; [exact Hid|].
      split; [now apply Hname|]. split; [now apply Hdesc|].
      split; [now apply Hprice|]. split; [now apply Himage|]. exact Hget.
Defined.

Lemma deleteProduct_idempotent_witness :
  (exists db1,
     Mutation.deleteProduct (ObjectId.hex Shop.p2) Shop.db =
       (Return (Status.mk "Product deleted"), db1) /\
     Query.getProduct (ObjectId.hex Shop.p2) db1 = (Return None, db1) /\
     Mutation.deleteProduct (ObjectId.hex Shop.p2) db1 =
       (Return (Status.mk "Product already deleted"), db1)) /\
  Mutation.deleteProduct "not-an-id" Shop.db = (Throw CastError, Shop.db).
Proof.
  split.
  - destruct (proj1 (@deleteProduct_idempotent ObjectId.strict
                       (ObjectId.hex Shop.p2) Shop.db) Shop.p2 eq_refl)
      as (_ & _ & H).
    apply H.
    + exact Shop_products_unique.
    + exists Shop.P2. split; [simpl; tauto | reflexivity].
  - apply (proj2 (@deleteProduct_idempotent ObjectId.strict "not-an-id"
                    Shop.db)).
    reflexivity.
Defined.

Lemma populate_references_witness :
  (exists u, Populated.user (Order.populated Shop.db Shop.O1) = Some u /\
             UserSchema.id u = Shop.u1) /\
  map ProductSchema.id (Populated.products (Order.populated Shop.db Shop.O1))
  = [Shop.p1; Shop.p2].
Proof.
  apply (proj2 (proj2 (populate_references Shop.db Shop.O1))).
  - exists Shop.U1. split; [now left | reflexivity].
  - intros i [<- | [<- | []]].
    + exists Shop.P1. split; [simpl; tauto | reflexivity].
    + exists Shop.P2. split; [simpl; tauto | reflexivity].
Defined.

Lemma lookups_return_null_witness :
  Query.order (ObjectId.hex Shop.o9) Shop.db = (Return None, Shop.db) /\
  Query.getProduct (ObjectId.hex Shop.p9) Shop.db = (Return None, Shop.db) /\
  Query.order "not-an-id" Shop.db = (Throw CastError, Shop.db) /\
  Query.getProduct "not-an-id" Shop.db = (Throw CastError, Shop.db).
Proof.
  split; [|split].
  - destruct (proj1 (@lookups_return_null ObjectId.strict
                       (ObjectId.hex Shop.o9) Shop.db) Shop.o9 eq_refl)
      as [(result & Hq & Hnone & _) _].
    rewrite Hq. f_equal. f_equal. apply Hnone.
    apply find_by_id_None. reflexivity.
  - destruct (proj1 (@lookups_return_null ObjectId.strict
                       (ObjectId.hex Shop.p9) Shop.db) Shop.p9 eq_refl)
      as [_ (result & Hq & Hnone & _)].
    rewrite Hq. f_equal. f_equal. apply Hnone.
    apply find_by_id_None. reflexivity.
  - apply (proj2 (@lookups_return_null ObjectId.strict "not-an-id" Shop.db)).
    reflexivity.
Defined.

Lemma userOrders_of_user_witness :
  (exists result,
     Query.userOrders (ObjectId.hex Shop.u7) Shop.db =
       (Return result, Shop.db) /\ result = []) /\
  (exists result,
     Query.userOrders (ObjectId.hex Shop.u1) Shop.db =
       (Return result, Shop.db) /\
     map Populated.id result = [Shop.o1; Shop.o2]) /\
  Query.userOrders "not-an-id" Shop.db = (Throw CastError, Shop.db).
Proof.
  split; [|split].
  - destruct (proj1 (@userOrders_of_user ObjectId.strict
                       (ObjectId.hex Shop.u7) Shop.db) Shop.u7 eq_refl)
      as (result & Hq & _ & _ & _ & Hnone).
    exists result. split; [exact Hq|]. apply Hnone.
    intros o [<- | [<- | []]]; discriminate.
  - destruct (proj1 (@userOrders_of_user ObjectId.strict
                       (ObjectId.hex Shop.u1) Shop.db) Shop.u1 eq_refl)
      as (result & Hq & _ & _ & Hids & _).
    exists result. split; [exact Hq | exact Hids].
  - apply (proj2 (@userOrders_of_user ObjectId.strict "not-an-id" Shop.db)).
    reflexivity.
Defined.

(** ** Authentication *)

Lemma first_with_email_None email c :
  first_with_email email c = None <->
  (forall u, In u c -> UserSchema.email u <> email).
Proof.
  unfold first_with_email. split.
  - intros Hf u Hin. pose proof (find_none _ _ Hf u Hin) as Hn.
    simpl in Hn. now apply String.eqb_neq.
  - intros Hn. destruct (find _ c) as [u|] eqn:Hf; [|reflexivity].
    apply find_some in Hf. destruct Hf as [Hin He].
    apply String.eqb_eq in He. now elim (Hn u Hin).
Qed.

Lemma first_with_email_added email c u :
  first_with_email email (c ++ [u]) =
  match first_with_email email c with
  | Some x => Some x
  | None => if String.eqb (UserSchema.email u) email then Some u else None
  end.
Proof. unfold first_with_email. now rewrite find_app_first. Qed.

Lemma first_with_email_Some email c u :
  first_with_email email c = Some u -> In u c /\ UserSchema.email u = email.
Proof.
  unfold first_with_email. intros Hf. apply find_some in Hf.
  destruct Hf as [Hin He]. now apply String.eqb_eq in He.
Qed.

Section Authentication.
Context {caster : ObjectId.caster} {jwt : JWT.lib}.


(** C8.  [context] returns a context for every header and every
    database, never throws and writes nothing.  The context carries a
    user exactly when the token verifies to a payload whose [userId]
    casts to the [_id] of a stored user; the user it carries is then
    the first stored user with that [_id], and, with ids a key of the
    collection, every stored user the token is bound to is the one
    carried.  In every other case (no header, a string that does not
    verify, a payload without [userId], a [userId] that is no ObjectId,
    an id under which no user is stored) the user is [null]. *)
Theorem context_never_throws authorization db :
  exists ctx,
    let token := match authorization with Some t => t | None => "" end in
    context authorization db = (Return ctx, db) /\
    ((exists u, MyContext.user ctx = Some u) <->
     (exists decoded s i,
        JWT.verify token JWT_SECRET = Some decoded /\
        JWT.userId decoded = Some s /\
        ObjectId.cast s = Some i /\
        resolves UserSchema.id i (Db.users db))) /\
    (forall u,
       MyContext.user ctx = Some u ->
       exists decoded s before after,
         JWT.verify token JWT_SECRET = Some decoded /\
         JWT.userId decoded = Some s /\
         ObjectId.cast s = Some (UserSchema.id u) /\
         Db.users db = before ++ u :: after /\
         (forall x, In x before -> UserSchema.id x <> UserSchema.id u)) /\
    (forall u decoded s,
       unique_ids UserSchema.id (Db.users db) ->
       JWT.verify token JWT_SECRET = Some decoded ->
       JWT.userId decoded = Some s ->
       ObjectId.cast s = Some (UserSchema.id u) ->
       In u (Db.users db) ->
       ctx = MyContext.mk (Some u)) /\
    (authorization = None -> ctx = MyContext.mk None) /\
    (JWT.verify token JWT_SECRET = None -> ctx = MyContext.mk None) /\
    (forall decoded,
       JWT.verify token JWT_SECRET = Some decoded ->
       JWT.userId decoded = None \/
       (exists s, JWT.userId decoded = Some s /\
          (ObjectId.cast s = None \/
           exists i, ObjectId.cast s = Some i /\
                     ~ resolves UserSchema.id i (Db.users db))) ->
       ctx = MyContext.mk None).
Proof.
  eexists. cbv zeta. split; [apply context_unfold|].
  cbn [MyContext.user].
  set (token := match authorization with Some t => t | None => "" end).
  split; [|split; [|split; [|split; [|split]]]].
  - split.
    + intros [u Hu].
      destruct (JWT.verify token JWT_SECRET) as [decoded|]; [|discriminate].
      destruct (JWT.userId decoded) as [s|] eqn:Hs; [|discriminate].
      destruct (ObjectId.cast s) as [i|] eqn:Hi; [|discriminate].
      exists decoded, s, i. repeat split; try assumption.
      apply find_by_id_Some in Hu. now exists u.
    + intros (decoded & s & i & -> & -> & -> & Hr).
      exact (resolves_find Hr).
  - intros u Hu.
    destruct (JWT.verify token JWT_SECRET) as [decoded|]; [|discriminate].
    destruct (JWT.userId decoded) as [s|] eqn:Hs; [|discriminate].
    destruct (ObjectId.cast s) as [i|] eqn:Hi; [|discriminate].
    destruct (find_by_id_split _ _ _ Hu) as (before & after & Hb & Hx & _).
    apply find_by_id_Some in Hu. destruct Hu as [_ <-].
    exists decoded, s, before, after. now repeat split.
  - intros u decoded s Huniq -> -> -> Hin.
    now rewrite (@find_by_id_stored _ UserSchema.id _ _ Huniq Hin).
  - intros Ha. unfold token. rewrite Ha. now rewrite JWT.verify_empty.
  - now intros ->.
  - intros decoded -> [-> | (s & -> & [-> | (i & -> & Hn)])];
      try reflexivity.
    apply find_by_id_None in Hn. now rewrite Hn.
Qed.

(** Signing up and coming back.  With an email no user has and a fresh
    [_id], [signUp] returns "User Created" with the [_id] and a token
    bound to it, and stores the user with the password as given.  On
    the database it leaves, [context] called with that token as the
    header carries the new user; [signIn] with the same email and
    password, at any later second, returns the id and a token bound to
    it that authenticates the new user as well, and that is the token of
    [signUp] when issued in the same second; and a second [signUp] with
    the email is refused. *)
Theorem signUp_then_signIn _id iat name email password db :
  (forall u, In u (Db.users db) -> UserSchema.email u <> email) ->
  ~ resolves UserSchema.id _id (Db.users db) ->
  exists token db',
    let user := UserSchema.mk _id name email password in
    Mutation.signUp _id iat name email password db =
      (Return (SignedUp.mk token (ObjectId.hex _id) "User Created"), db') /\
    db' = Db.mk (Db.users db ++ [user]) (Db.products db) (Db.orders db) /\
    JWT.verify token JWT_SECRET =
      Some (JWT.mk (Some (ObjectId.hex _id)) (Some iat)) /\
    context (Some token) db' = (Return (MyContext.mk (Some user)), db') /\
    (forall iat',
       exists token',
         Mutation.signIn iat' email password db' =
           (Return (AuthData.mk token' (ObjectId.hex _id)), db') /\
         JWT.verify token' JWT_SECRET =
           Some (JWT.mk (Some (ObjectId.hex _id)) (Some iat')) /\
         context (Some token') db' =
           (Return (MyContext.mk (Some user)), db') /\
         (iat' = iat -> token' = token)) /\
    (forall _id' iat' name' password',
       Mutation.signUp _id' iat' name' email password' db' =
       (Throw (Error "User already exists"), db')).
Proof.
  intros Hemail Hnew. exists (token_of _id iat). eexists. cbv zeta.
  apply first_with_email_None in Hemail.
  rewrite signUp_unfold, Hemail.
  rewrite (proj2 (existsb_has_id UserSchema.id _id (Db.users db)) Hnew).
  split; [reflexivity|]. split; [reflexivity|].
  assert (first_with_email email
            (Db.users db ++ [UserSchema.mk _id name email password]) =
          Some (UserSchema.mk _id name email password)) as Hfound.
  { rewrite first_with_email_added, Hemail. cbn [UserSchema.email].
    now rewrite String.eqb_refl. }
  assert (forall t,
            context (Some (token_of _id t))
              (Db.mk (Db.users db ++ [UserSchema.mk _id name email password])
                     (Db.products db) (Db.orders db)) =
            (Return (MyContext.mk
                       (Some (UserSchema.mk _id name email password))),
             Db.mk (Db.users db ++ [UserSchema.mk _id name email password])
                   (Db.products db) (Db.orders db))) as Hctx.
  { intros t. rewrite context_unfold, verify_token_of.
    cbn [JWT.userId Db.users].
    rewrite cast_hex, find_by_id_added by exact Hnew.
    cbn [UserSchema.id]. now rewrite ObjectId_eqb_refl. }
  split; [apply verify_token_of|].
  split; [apply Hctx|].
  split.
  - intros iat'. exists (token_of _id iat').
    rewrite signIn_unfold. cbn [Db.users]. rewrite Hfound.
    cbn [UserSchema.password UserSchema.id]. rewrite String.eqb_refl.
    split; [reflexivity|]. split; [apply verify_token_of|].
    split; [apply Hctx|]. now intros ->.
  - intros _id' iat' name' password'. rewrite signUp_unfold. cbn [Db.users].
    now rewrite Hfound.
Qed.

(** The token [signIn] returns, sent as the header, authenticates the
    user that signed in, on a store whose user ids are distinct. *)
Theorem signIn_then_context iat email password db result db' :
  unique_ids UserSchema.id (Db.users db) ->
  Mutation.signIn iat email password db = (Return result, db') ->
  db' = db /\
  exists u,
    In u (Db.users db) /\
    UserSchema.email u = email /\
    UserSchema.password u = password /\
    ObjectId.hex (UserSchema.id u) = AuthData.userId result /\
    context (Some (AuthData.token result)) db =
      (Return (MyContext.mk (Some u)), db).
Proof.
  intros Hu. rewrite signIn_unfold.
  destruct (first_with_email email (Db.users db)) as [u|] eqn:Hf;
    [|discriminate].
  destruct (String.eqb (UserSchema.password u) password) eqn:Hp;
    [|discriminate].
  intros [= <- <-]. split; [reflexivity|]. exists u.
  apply first_with_email_Some in Hf. destruct Hf as [Hin He].
  apply String.eqb_eq in Hp.
  repeat (split; [assumption || reflexivity|]).
  rewrite context_unfold. cbn [AuthData.token].
  rewrite verify_token_of. cbn [JWT.userId]. rewrite cast_hex.
  now rewrite (@find_by_id_stored _ UserSchema.id _ _ Hu Hin).
Qed.

End Authentication.

(** ** Every operation *)

Section Requests.
Context {caster : ObjectId.caster} {jwt : JWT.lib}.

Lemma handle_effect r db : Effect db (handle r db).
Proof.
  destruct r; simpl handle.
  - constructor.
  - rewrite getProduct_unfold. constructor.
  - constructor.
  - rewrite order_unfold. constructor.
  - rewrite userOrders_unfold. constructor.
  - rewrite createProduct_unfold. cbv zeta.
    destruct (is_nan _); [constructor|].
    destruct (existsb _ _) eqn:Hnew; simpl; [constructor|].
    now apply (effect_product_added db
                 (ProductSchema.mk _id (Some (ProductInput.name input))
                    (Some (ProductInput.description input))
                    (Some (ProductInput.price input))
                    (Some (ProductInput.image input)))).
  - rewrite updateProduct_unfold.
    destruct (ObjectId.cast _); [|constructor].
    destruct (Product.update_casts _); [|constructor].
    destruct (find_by_id _ _ _); simpl; constructor.
  - rewrite deleteProduct_unfold.
    destruct (ObjectId.cast _); [|constructor].
    destruct (find_by_id _ _ _); simpl; constructor.
  - rewrite createOrder_unfold.
    destruct (ObjectId.cast _) as [uid|]; [|constructor].
    destruct (find_by_id UserSchema.id _ _); [|constructor].
    destruct (ObjectId.cast_all _) as [pids|]; [|constructor].
    cbv zeta. destruct (Nat.eqb _ _); [|constructor].
    destruct (reduce _ _ _) as [total|]; [|constructor].
    destruct (refused _ _); [|constructor].
    destruct (existsb _ _) eqn:Hnew; simpl; [constructor|].
    now apply effect_order_added.
  - rewrite updateOrderStatus_unfold. cbv zeta.
    destruct (ObjectId.cast _); [|constructor].
    destruct (find_by_id _ _ _); simpl; constructor.
  - rewrite deleteOrder_unfold.
    destruct (ObjectId.cast _); [|constructor].
    destruct (find_by_id _ _ _); simpl; constructor.
  - rewrite signUp_unfold.
    destruct (first_with_email _ _); [constructor|].
    destruct (existsb _ _) eqn:Hnew; simpl; [constructor|].
    now apply (effect_user_added db (UserSchema.mk _id name email password)).
  - rewrite signIn_unfold.
    destruct (first_with_email _ _); [|constructor].
    destruct (String.eqb _ _); constructor.
  - constructor.
Qed.

(** No request makes two documents of a collection share an [_id]. *)
Lemma handle_keeps_keys r db : well_formed db -> well_formed (handle r db).
Proof.
  intros (Hu & Hp & Ho).
  destruct (handle_effect r db); unfold well_formed;
    cbn [Db.users Db.products Db.orders]; repeat split; try assumption;
    try (now apply unique_ids_app_new);
    try (now apply unique_ids_delete);
    (apply unique_ids_update; [reflexivity | assumption]).
Qed.

(** The store keeps its keys: no request makes two documents of a
    collection share an [_id]. *)
Theorem handle_well_formed r db :
  well_formed db -> well_formed (handle r db).
Proof.
  intros (Hu & Hp & Ho).
  destruct (handle_effect r db); unfold well_formed; cbn [Db.users
    Db.products Db.orders]; repeat split; try assumption.
  - now apply unique_ids_app_new.
  - now apply unique_ids_app_new.
  - apply unique_ids_update; [reflexivity | assumption].
  - now apply unique_ids_delete.
  - now apply unique_ids_app_new.
  - apply unique_ids_update; [reflexivity | assumption].
  - now apply unique_ids_delete.
Qed.

(** What a request does to the order collection. *)
Lemma handle_orders r db :
  match r with
  | createOrder_ _ _ _ =>
      Db.orders (handle r db) = Db.orders db \/
      exists o, Db.orders (handle r db) = Db.orders db ++ [o]
  | updateOrderStatus_ input =>
      Db.orders (handle r db) =
      match ObjectId.cast (UpdateOrderStatusInput.id input) with
      | Some i =>
          update_by_id OrderSchema.id i
            (OrderSchema.set_status (UpdateOrderStatusInput.status input))
            (Db.orders db)
      | None => Db.orders db
      end
  | deleteOrder_ id =>
      Db.orders (handle r db) =
      match ObjectId.cast id with
      | Some i => delete_by_id OrderSchema.id i (Db.orders db)
      | None => Db.orders db
      end
  | _ => Db.orders (handle r db) = Db.orders db
  end.
Proof.
  destruct r; simpl handle; try reflexivity.
  - now rewrite getProduct_unfold.
  - now rewrite order_unfold.
  - now rewrite userOrders_unfold.
  - rewrite createProduct_unfold. cbv zeta.
    destruct (is_nan _); [reflexivity|]. now destruct (existsb _ _).
  - apply updateProduct_orders.
  - rewrite deleteProduct_unfold.
    destruct (ObjectId.cast _); [|reflexivity].
    now destruct (find_by_id _ _ _).
  - rewrite createOrder_unfold.
    destruct (ObjectId.cast _) as [uid|]; [|now left].
    destruct (find_by_id UserSchema.id _ _); [|now left].
    destruct (ObjectId.cast_all _) as [pids|]; [|now left].
    cbv zeta. destruct (Nat.eqb _ _); [|now left].
    destruct (reduce _ _ _) as [total|]; [|now left].
    destruct (refused _ _); [|now left].
    destruct (existsb _ _); [now left|].
    right. eexists. reflexivity.
  - rewrite updateOrderStatus_unfold. cbv zeta.
    destruct (ObjectId.cast _); [|reflexivity].
    destruct (find_by_id _ _ _) eqn:Hf; [reflexivity|].
    simpl. now rewrite update_by_id_absent.
  - rewrite deleteOrder_unfold.
    destruct (ObjectId.cast _); [|reflexivity].
    destruct (find_by_id _ _ _) eqn:Hf; [reflexivity|].
    simpl. now rewrite delete_by_id_absent.
  - rewrite signUp_unfold.
    destruct (first_with_email _ _); [reflexivity|].
    now destruct (existsb _ _).
  - rewrite signIn_unfold.
    destruct (first_with_email _ _); [|reflexivity].
    now destruct (String.eqb _ _).
Qed.

(** An order, once stored, keeps its total, its user, its products and
    its creation date through every request, until a [deleteOrder] of
    its id removes it. *)
Theorem handle_order_fixed r db id o :
  well_formed db ->
  find_by_id OrderSchema.id id (Db.orders db) = Some o ->
  (exists o',
     find_by_id OrderSchema.id id (Db.orders (handle r db)) = Some o' /\
     OrderSchema.totalPrice o' = OrderSchema.totalPrice o /\
     OrderSchema.user o' = OrderSchema.user o /\
     OrderSchema.products o' = OrderSchema.products o /\
     OrderSchema.createdAt o' = OrderSchema.createdAt o) \/
  ((exists s, r = deleteOrder_ s /\ ObjectId.cast s = Some id) /\
   find_by_id OrderSchema.id id (Db.orders (handle r db)) = None).
Proof.
  intros (_ & _ & Hwf) Hf.
  pose proof (handle_orders r db) as Hr.
  destruct r; try (left; exists o; now rewrite Hr, Hf).
  - left. exists o. destruct Hr as [-> | [o' ->]]; [now rewrite Hf|].
    erewrite find_by_id_app by exact Hf. now repeat split.
  - left. rewrite Hr.
    destruct (ObjectId.cast _) as [i|]; [|exists o; now rewrite Hf].
    rewrite find_by_id_update by reflexivity.
    destruct (ObjectId.eqb _ _); rewrite Hf.
    + eexists. split; [reflexivity|]. now repeat split.
    + exists o. now repeat split.
  - rewrite Hr.
    destruct (ObjectId.cast id0) as [i|] eqn:Hc;
      [|left; exists o; now rewrite Hf].
    destruct (ObjectId.eqb i id) eqn:Hid.
    + apply ObjectId_eqb_eq in Hid. subst i. right.
      split; [now exists id0|]. now apply find_by_id_delete.
    + apply ObjectId_eqb_neq in Hid. left. exists o.
      rewrite find_by_id_delete_other by assumption.
      now rewrite Hf.
Qed.

(** What a request does to the user collection: nothing, or, for a
    [signUp] with an unused email and a fresh [_id], one user more. *)
Lemma handle_users r db :
  Db.users (handle r db) = Db.users db \/
  exists _id iat name email password,
    r = signUp_ _id iat name email password /\
    first_with_email email (Db.users db) = None /\
    ~ resolves UserSchema.id _id (Db.users db) /\
    Db.users (handle r db) =
    Db.users db ++ [UserSchema.mk _id name email password].
Proof.
  destruct r; simpl handle; try (left; reflexivity).
  - left. now rewrite getProduct_unfold.
  - left. now rewrite order_unfold.
  - left. now rewrite userOrders_unfold.
  - left. rewrite createProduct_unfold. cbv zeta.
    destruct (is_nan _); [reflexivity|]. now destruct (existsb _ _).
  - left. rewrite updateProduct_unfold.
    destruct (ObjectId.cast _); [|reflexivity].
    destruct (Product.update_casts _); [|reflexivity].
    now destruct (find_by_id _ _ _).
  - left. rewrite deleteProduct_unfold.
    destruct (ObjectId.cast _); [|reflexivity].
    now destruct (find_by_id _ _ _).
  - left.
    destruct (Mutation.createOrder _id now input db) as [[r|e] d] eqn:Hc.
    + destruct (createOrder_return_inv _ _ _ _ Hc)
        as (uid & u0 & pids & total & _ & _ & _ & _ & _ & _ & _ & -> & _).
      reflexivity.
    + now rewrite (createOrder_throw_unchanged _ _ _ _ Hc).
  - left. rewrite updateOrderStatus_unfold. cbv zeta.
    destruct (ObjectId.cast _); [|reflexivity].
    now destruct (find_by_id _ _ _).
  - left. rewrite deleteOrder_unfold.
    destruct (ObjectId.cast _); [|reflexivity].
    now destruct (find_by_id _ _ _).
  - rewrite signUp_unfold.
    destruct (first_with_email email (Db.users db)) eqn:Hf; [now left|].
    destruct (existsb _ _) eqn:Hnew; [now left|].
    right. exists _id, iat, name, email, password.
    apply existsb_has_id in Hnew. now repeat split.
  - left. rewrite signIn_unfold.
    destruct (first_with_email _ _); [|reflexivity].
    now destruct (String.eqb _ _).
Qed.

(** No request makes two users share an email. *)
Lemma handle_keeps_emails r db :
  emails_unique db -> emails_unique (handle r db).
Proof.
  unfold emails_unique. intros Hu.
  destruct (handle_users r db)
    as [-> | (_id & iat & name & email & password & _ & Hf & _ & ->)];
    [exact Hu|].
  rewrite map_app. simpl. apply NoDup_app; [exact Hu | |].
  - constructor; [intros [] | constructor].
  - intros e Hin [<- | []]. apply in_map_iff in Hin.
    destruct Hin as (u & He & Hin).
    exact (proj1 (first_with_email_None _ _) Hf u Hin He).
Qed.

(** Users are never removed or changed, and a token never expires: a
    stored user is still stored after any request, and a header that
    authenticates a user before a request, [signOut] included,
    authenticates the same user after it. *)
Theorem context_persists r authorization db u :
  context authorization db = (Return (MyContext.mk (Some u)), db) ->
  context authorization (handle r db) =
    (Return (MyContext.mk (Some u)), handle r db) /\
  (forall v, In v (Db.users db) -> In v (Db.users (handle r db))).
Proof.
  rewrite !context_unfold. intros [= Hc].
  assert (forall i x,
            find_by_id UserSchema.id i (Db.users db) = Some x ->
            find_by_id UserSchema.id i (Db.users (handle r db)) = Some x)
    as Hkeep.
  { intros i x Hf.
    destruct (handle_users r db)
      as [-> | (? & ? & ? & ? & ? & _ & _ & _ & ->)]; [exact Hf|].
    now apply find_by_id_app. }
  split.
  - do 2 f_equal.
    destruct (JWT.verify _ JWT_SECRET) as [decoded|]; [|discriminate].
    destruct (JWT.userId decoded) as [s|]; [|discriminate].
    destruct (ObjectId.cast s) as [i|]; [|discriminate].
    now rewrite (Hkeep _ _ Hc).
  - intros v Hin.
    destruct (handle_users r db)
      as [-> | (? & ? & ? & ? & ? & _ & _ & _ & ->)]; [exact Hin|].
    apply in_or_app. now left.
Qed.

End Requests.

(** ** What every history of requests keeps *)

Lemma In_update_by_id (doc : Type) (_id : doc -> ObjectId.t) i u c x :
  In x (update_by_id _id i u c) ->
  In x c \/ exists d, In d c /\ x = u d.
Proof.
  induction c as [|y c IH]; simpl; [intros []|].
  destruct (has_id _id i y); simpl.
  - intros [<- | Hin]; [right; exists y; auto | auto].
  - intros [<- | Hin]; [auto|].
    destruct (IH Hin) as [H | (d & Hd & ->)]; [auto|].
    right. exists d. auto.
Qed.

Lemma In_delete_by_id (doc : Type) (_id : doc -> ObjectId.t) i c x :
  In x (delete_by_id _id i c) -> In x c.
Proof.
  induction c as [|y c IH]; simpl; [intros []|].
  destruct (has_id _id i y); simpl; [auto|].
  intros [<- | Hin]; auto.
Qed.

Section Histories.
Context {caster : ObjectId.caster} {jwt : JWT.lib}.

(** Where the orders stored after a request come from: they were stored
    before, or are a stored order with another status, or were just
    created for an existing user with distinct product ids. *)
Lemma handle_orders_origin r db o' :
  unique_ids ProductSchema.id (Db.products db) ->
  In o' (Db.orders (handle r db)) ->
  (exists o, In o (Db.orders db) /\
             OrderSchema.user o' = OrderSchema.user o /\
             OrderSchema.products o' = OrderSchema.products o) \/
  (resolves UserSchema.id (OrderSchema.user o') (Db.users db) /\
   NoDup (OrderSchema.products o')).
Proof.
  intros Hp.
  assert (In o' (Db.orders db) ->
          exists o, In o (Db.orders db) /\
                    OrderSchema.user o' = OrderSchema.user o /\
                    OrderSchema.products o' = OrderSchema.products o)
    as Hsame by (intros H; exists o'; auto).
  pose proof (handle_orders r db) as Hr.
  destruct r; try (rewrite Hr; intros Hin; left; now apply Hsame).
  - clear Hr. simpl handle.
    destruct (Mutation.createOrder _id now input db) as [[res|e] d] eqn:Hc.
    + destruct (createOrder_return_inv _ _ _ _ Hc)
        as (uid & u & pids & total & _ & Hu & _ & Hlen & _ & _ & _ & -> & _).
      cbn [snd Db.orders]. intros Hin. apply in_app_or in Hin.
      destruct Hin as [Hin | [<- | []]]; [left; now apply Hsame|].
      right. cbn [OrderSchema.user OrderSchema.products]. split.
      * apply find_by_id_Some in Hu. now exists u.
      * exact (proj1 (@find_in_full _ _ _ _ Hp Hlen)).
    + rewrite (createOrder_throw_unchanged _ _ _ _ Hc). cbn [snd].
      intros Hin. left. now apply Hsame.
  - rewrite Hr. intros Hin. left.
    destruct (ObjectId.cast _); [|now apply Hsame].
    apply In_update_by_id in Hin.
    destruct Hin as [Hin | (o & Ho & ->)]; [now apply Hsame|].
    exists o. auto.
  - rewrite Hr. intros Hin. left. apply Hsame.
    destruct (ObjectId.cast _); [|exact Hin].
    exact (In_delete_by_id _ _ _ _ Hin).
Qed.

(** Orders keep their user: on a store whose product ids are distinct,
    every request leaves each stored order referring to a stored user
    and listing no product twice, if that was so before. *)
Lemma handle_keeps_orders_sound r db :
  unique_ids ProductSchema.id (Db.products db) ->
  orders_sound db -> orders_sound (handle r db).
Proof.
  intros Hp Hs o' Hin.
  assert (forall i, resolves UserSchema.id i (Db.users db) ->
                    resolves UserSchema.id i (Db.users (handle r db)))
    as Hmono.
  { intros i (u & Hu & Hi). exists u. split; [|exact Hi].
    destruct (handle_users r db)
      as [-> | (? & ? & ? & ? & ? & _ & _ & _ & ->)]; [exact Hu|].
    apply in_or_app. now left. }
  destruct (handle_orders_origin r db o' Hp Hin)
    as [(o & Ho & -> & ->) | [Hu Hnd]].
  - destruct (Hs o Ho) as [Hu Hnd]. split; [now apply Hmono | exact Hnd].
  - split; [now apply Hmono | exact Hnd].
Qed.

(** What every history keeps.  If, in a database, the ids of each
    collection are distinct, no two users share an email, and every
    stored order refers to a stored user and lists no product twice,
    then the same holds after any sequence of requests; and it holds in
    the empty database, hence after any history that starts there. *)
Theorem run_invariants rs :
  (forall db,
     well_formed db -> emails_unique db -> orders_sound db ->
     well_formed (run rs db) /\ emails_unique (run rs db) /\
     orders_sound (run rs db)) /\
  (well_formed (run rs empty_db) /\ emails_unique (run rs empty_db) /\
   orders_sound (run rs empty_db)).
Proof.
  assert (forall db,
            well_formed db -> emails_unique db -> orders_sound db ->
            well_formed (run rs db) /\ emails_unique (run rs db) /\
            orders_sound (run rs db)) as Hrun.
  { induction rs as [|r rs IH]; intros db Hwf He Hs;
      [split; [|split]; assumption|].
    simpl run. apply IH.
    - now apply handle_keeps_keys.
    - now apply handle_keeps_emails.
    - apply handle_keeps_orders_sound; [exact (proj1 (proj2 Hwf)) | exact Hs]. }
  split; [exact Hrun|]. apply Hrun.
  - unfold well_formed, unique_ids. simpl.
    split; [constructor | split; constructor].
  - unfold emails_unique. simpl. constructor.
  - intros o [].
Qed.
End Histories.


Lemma context_never_throws_witness :
  context (Some (token_of Shop.u1 Shop.iat)) Shop.db =
    (Return (MyContext.mk (Some Shop.U1)), Shop.db) /\
  context (Some (token_of Shop.u7 Shop.iat)) Shop.db =
    (Return (MyContext.mk None), Shop.db) /\
  context (Some "Bearer abc") Shop.db =
    (Return (MyContext.mk None), Shop.db) /\
  context None Shop.db = (Return (MyContext.mk None), Shop.db).
Proof.
  split; [|split; [|split]].
  - destruct (@context_never_throws ObjectId.strict PlainJWT.lib
                (Some (token_of Shop.u1 Shop.iat)) Shop.db)
      as (ctx & Hq & _ & _ & Hexact & _).
    rewrite Hq. f_equal. f_equal.
    apply (Hexact Shop.U1
             (JWT.mk (Some "0000000000000000000000a1") (Some Shop.iat))
             "0000000000000000000000a1").
    + exact Shop_users_unique.
    + reflexivity.
    + reflexivity.
    + reflexivity.
    + now left.
  - destruct (@context_never_throws ObjectId.strict PlainJWT.lib
                (Some (token_of Shop.u7 Shop.iat)) Shop.db)
      as (ctx & Hq & _ & _ & _ & _ & _ & Hnone).
    rewrite Hq. f_equal. f_equal.
    apply (Hnone (JWT.mk (Some "0000000000000000000000a7") (Some Shop.iat)));
      [reflexivity|].
    right. exists "0000000000000000000000a7". split; [reflexivity|].
    right. exists Shop.u7. split; [reflexivity|].
    apply find_by_id_None. reflexivity.
  - destruct (@context_never_throws ObjectId.strict PlainJWT.lib
                (Some "Bearer abc") Shop.db)
      as (ctx & Hq & _ & _ & _ & _ & Hbad & _).
    rewrite Hq. f_equal. f_equal. apply Hbad. reflexivity.
  - destruct (@context_never_throws ObjectId.strict PlainJWT.lib None
                Shop.db)
      as (ctx & Hq & _ & _ & _ & Habsent & _).
    rewrite Hq. f_equal. f_equal. now apply Habsent.
Defined.

(** The context of a request that carries the token issued to Ann, of one
    that carries a token for an id under which no user is stored, of one
    whose token is bound to a string that is no ObjectId, and of one
    that carries a string that is no token. *)
Example context_examples :
  context (Some (PlainJWT.sign
                   (JWT.mk (Some "0000000000000000000000a1") None)
                   JWT_SECRET Shop.iat)) Shop.db =
    (Return (MyContext.mk (Some Shop.U1)), Shop.db) /\
  context (Some (PlainJWT.sign
                   (JWT.mk (Some "0000000000000000000000a7") None)
                   JWT_SECRET Shop.iat)) Shop.db =
    (Return (MyContext.mk None), Shop.db) /\
  context (Some (PlainJWT.sign (JWT.mk (Some "ann") None)
                   JWT_SECRET Shop.iat)) Shop.db =
    (Return (MyContext.mk None), Shop.db) /\
  context (Some "Bearer abc") Shop.db =
    (Return (MyContext.mk None), Shop.db).
Proof. repeat split. Qed.

Lemma signUp_then_signIn_witness :
  exists token db',
    let user :=
      UserSchema.mk Shop.u2 "Bob" "bob@example.org" "hunter2" in
    Mutation.signUp Shop.u2 Shop.iat "Bob" "bob@example.org" "hunter2"
      Shop.db =
      (Return (SignedUp.mk token "0000000000000000000000a2" "User Created"),
       db') /\
    db' = Db.mk (Db.users Shop.db ++ [user])
                (Db.products Shop.db) (Db.orders Shop.db) /\
    JWT.verify token JWT_SECRET =
      Some (JWT.mk (Some "0000000000000000000000a2") (Some Shop.iat)) /\
    context (Some token) db' = (Return (MyContext.mk (Some user)), db') /\
    (forall iat',
       exists token',
         Mutation.signIn iat' "bob@example.org" "hunter2" db' =
           (Return (AuthData.mk token' "0000000000000000000000a2"), db') /\
         JWT.verify token' JWT_SECRET =
           Some (JWT.mk (Some "0000000000000000000000a2") (Some iat')) /\
         context (Some token') db' =
           (Return (MyContext.mk (Some user)), db') /\
         (iat' = Shop.iat -> token' = token)) /\
    (forall _id' iat' name' password',
       Mutation.signUp _id' iat' name' "bob@example.org" password' db' =
       (Throw (Error "User already exists"), db')).
Proof.
  apply (@signUp_then_signIn ObjectId.strict PlainJWT.lib Shop.u2 Shop.iat
           "Bob" "bob@example.org" "hunter2" Shop.db).
  - intros u [<- | []]. discriminate.
  - apply find_by_id_None. reflexivity.
Defined.

Lemma signIn_then_context_witness :
  Shop.db = Shop.db /\
  exists u,
    In u (Db.users Shop.db) /\
    UserSchema.email u = "ann@example.org" /\
    UserSchema.password u = "pa55word" /\
    ObjectId.hex (UserSchema.id u) = "0000000000000000000000a1" /\
    context (Some (token_of Shop.u1 (Shop.iat + 60))) Shop.db =
      (Return (MyContext.mk (Some u)), Shop.db).
Proof.
  apply (@signIn_then_context ObjectId.strict PlainJWT.lib (Shop.iat + 60)
           "ann@example.org" "pa55word" Shop.db
           (AuthData.mk (token_of Shop.u1 (Shop.iat + 60))
                        "0000000000000000000000a1")
           Shop.db).
  - exact Shop_users_unique.
  - reflexivity.
Defined.

Lemma context_persists_witness :
  context (Some (token_of Shop.u1 Shop.iat)) (handle signOut_ Shop.db) =
    (Return (MyContext.mk (Some Shop.U1)), handle signOut_ Shop.db) /\
  (forall v, In v (Db.users Shop.db) ->
             In v (Db.users (handle signOut_ Shop.db))).
Proof.
  apply (@context_persists ObjectId.strict PlainJWT.lib signOut_
           (Some (token_of Shop.u1 Shop.iat)) Shop.db Shop.U1).
  reflexivity.
Defined.

Lemma handle_well_formed_witness :
  well_formed (handle (createOrder_ Shop.o3 Shop.now Shop.input3) Shop.db).
Proof.
  apply (@handle_well_formed ObjectId.strict PlainJWT.lib
           (createOrder_ Shop.o3 Shop.now Shop.input3) Shop.db).
  exact Shop_well_formed.
Defined.

Lemma handle_order_fixed_witness :
  (exists o',
     find_by_id OrderSchema.id Shop.o1
       (Db.orders
          (handle
             (updateOrderStatus_
                (UpdateOrderStatusInput.mk "0000000000000000000000c1"
                   "shipped"))
             Shop.db)) = Some o' /\
     OrderSchema.totalPrice o' = 25.5%float /\
     OrderSchema.user o' = Shop.u1 /\
     OrderSchema.products o' = [Shop.p1; Shop.p2] /\
     OrderSchema.createdAt o' = "2023-03-01T10:00:00.000Z") \/
  ((exists s,
      updateOrderStatus_
        (UpdateOrderStatusInput.mk "0000000000000000000000c1" "shipped") =
      deleteOrder_ s /\ ObjectId.cast s = Some Shop.o1) /\
   find_by_id OrderSchema.id Shop.o1
     (Db.orders
        (handle
           (updateOrderStatus_
              (UpdateOrderStatusInput.mk "0000000000000000000000c1"
                 "shipped"))
           Shop.db)) = None).
Proof.
  apply (@handle_order_fixed ObjectId.strict PlainJWT.lib
           (updateOrderStatus_
              (UpdateOrderStatusInput.mk "0000000000000000000000c1"
                 "shipped"))
           Shop.db Shop.o1 Shop.O1).
  - exact Shop_well_formed.
  - reflexivity.
Defined.

Lemma run_invariants_witness :
  well_formed (run Shop.history Shop.db) /\
  emails_unique (run Shop.history Shop.db) /\
  orders_sound (run Shop.history Shop.db).
Proof.
  apply (proj1 (@run_invariants ObjectId.strict PlainJWT.lib Shop.history)
           Shop.db).
  - exact Shop_well_formed.
  - repeat constructor. intros [].
  - intros o [<- | [<- | []]]; (split;
      [exists Shop.U1; split; [now left | reflexivity]
      |repeat constructor; simpl; intuition discriminate]).
Defined.
